(** * Safety classification and recommendation engine of [report.py]

    A shallow embedding of the decision logic of [report.py]: the comment
    analyzer ([analyze_comments]), the safety tier resolver
    ([adjust_safety], [get_safety_rating]), the recommendation filter
    ([get_ai_recommendations]) and the per-file facade ([analyze_file]),
    together with the properties the specification states about them.

    Conventions of the embedding.
    - A Python [str] that is only compared for equality (file types, ratings,
      model names) is a Rocq [string]; file contents are lists of Unicode
      code points, because [str.strip] and [str.split] look at Unicode
      white space.
    - A finite Python number ([int] or [float]) is its exact rational value
      in [Q].  Every comparison the code makes has an integer literal on one
      side, and Python compares [int] with [float] by exact value.  Floats
      are computed in binary64 ([Float64]) and enter the records through
      their exact value.
    - A [dict] with constant contents is an association list in insertion
      order (iteration order matters for the tier tables); [file_data] is a
      record whose fields are the keys, each one optional.
    - Exceptions are values of an error monad ([outcome]); [try]/[except]
      is [try_except], which handles only the classes the clause names.
    - The file system, the tokenizer and the complexity analyzer are outside
      the program; their answers for a path are the fields of [world].
      Messages printed to the console are not part of the embedding. *)

From Stdlib Require Import ZArith QArith Qround Qpower String Ascii List Sorted
  Permutation Bool Lia Lqa.
From Stdlib Require Import SpecFloat.
Import ListNotations.

Local Open Scope string_scope.
Local Open Scope list_scope.

(** ** Exceptions and the error monad *)

Module Py.

(** The exception classes the program distinguishes in an [except] clause,
    with every other subclass of [Exception] under [OtherException].
    Subclasses are folded into the class an [except] clause tests
    ([FileNotFoundError] is an [OSError]). *)
Inductive exn : Type :=
| KeyError
| ValueError
| IndexError
| OSError
| ZeroDivisionError
| OverflowError
| RuntimeError
| OtherException (name : string).

Inductive outcome (A : Type) : Type :=
| Return (a : A)
| Raise (e : exn).

Arguments Return {A} a.
Arguments Raise {A} e.

Definition bind {A B : Type} (m : outcome A) (k : A -> outcome B) : outcome B :=
  match m with
  | Return a => k a
  | Raise e => Raise e
  end.

(** [try: body except <classes>: handler]. *)
Definition try_except {A : Type} (body : outcome A) (catches : exn -> bool)
           (handler : exn -> outcome A) : outcome A :=
  match body with
  | Return a => Return a
  | Raise e => if catches e then handler e else Raise e
  end.

Definition is_KeyError (e : exn) : bool :=
  match e with KeyError => true | _ => false end.
Definition is_ValueError (e : exn) : bool :=
  match e with ValueError => true | _ => false end.
Definition is_OSError (e : exn) : bool :=
  match e with OSError => true | _ => false end.
(** [except Exception] catches every class above. *)
Definition is_Exception (e : exn) : bool := true.

End Py.
Import Py.

Notation "x <- m ;; k" := (bind m (fun x => k))
  (at level 61, m at next level, right associativity).

(** ** Dictionaries, lists and strings as the code uses them *)

Definition dict (V : Type) : Type := list (string * V).

(** [d[key]]: the first binding of [key], [KeyError] when there is none. *)
Fixpoint dict_getitem {V : Type} (d : dict V) (key : string) : outcome V :=
  match d with
  | [] => Raise KeyError
  | (k, v) :: rest => if String.eqb k key then Return v else dict_getitem rest key
  end.

(** [d[key]] on a record field that stands for an optional key. *)
Definition getitem {V : Type} (field : option V) : outcome V :=
  match field with
  | Some v => Return v
  | None => Raise KeyError
  end.

(** [d.get(key, default)]. *)
Definition get {V : Type} (field : option V) (default : V) : V :=
  match field with
  | Some v => v
  | None => default
  end.

(** [l.index(x)]: position of the first occurrence, [ValueError] when
    absent. *)
Fixpoint list_index (l : list string) (x : string) : outcome Z :=
  match l with
  | [] => Raise ValueError
  | y :: rest =>
      if String.eqb y x then Return 0%Z
      else i <- list_index rest x ;; Return (i + 1)%Z
  end.

(** [l[i]] with Python's negative indices, [IndexError] out of range. *)
Definition list_getitem (l : list string) (i : Z) : outcome string :=
  let n := Z.of_nat (List.length l) in
  let j := if (i <? 0)%Z then (i + n)%Z else i in
  if ((0 <=? j) && (j <? n))%Z
  then match nth_error l (Z.to_nat j) with
       | Some x => Return x
       | None => Raise IndexError
       end
  else Raise IndexError.

(** [x in l]. *)
Definition str_in (x : string) (l : list string) : bool :=
  existsb (String.eqb x) l.

Definition is_lower_ascii (c : ascii) : bool :=
  let n := nat_of_ascii c in (97 <=? n)%nat && (n <=? 122)%nat.
Definition is_upper_ascii (c : ascii) : bool :=
  let n := nat_of_ascii c in (65 <=? n)%nat && (n <=? 90)%nat.

Definition upper_ascii (c : ascii) : ascii :=
  if is_lower_ascii c then ascii_of_nat (nat_of_ascii c - 32) else c.
Definition lower_ascii (c : ascii) : ascii :=
  if is_upper_ascii c then ascii_of_nat (nat_of_ascii c + 32) else c.

Fixpoint map_string (f : ascii -> ascii) (s : string) : string :=
  match s with
  | EmptyString => EmptyString
  | String c rest => String (f c) (map_string f rest)
  end.

(** [s.upper()] and [s.lower()].  The program applies [upper] to the ASCII
    keys of its own tables, and [lower] to a file extension that is then
    looked up in sets of ASCII extensions without the letter k (the only
    ASCII letter a character outside ASCII lowers to), so the ASCII case
    maps decide the same way as Python's. *)
Definition upper (s : string) : string := map_string upper_ascii s.
Definition lower (s : string) : string := map_string lower_ascii s.

(** ** Paths ([os.path] on POSIX) *)

(** [s.rfind(c)]: index of the last occurrence of [c], or -1. *)
Fixpoint rfind_from (c : ascii) (s : string) (i : Z) (last : Z) : Z :=
  match s with
  | EmptyString => last
  | String d rest => rfind_from c rest (i + 1) (if Ascii.eqb d c then i else last)
  end.

Definition rfind (c : ascii) (s : string) : Z := rfind_from c s 0 (-1).

(** [s[i:]] and [s[:i]] for [0 <= i]. *)
Definition slice_from (s : string) (i : Z) : string :=
  substring (Z.to_nat i) (String.length s - Z.to_nat i) s.
Definition slice_to (s : string) (i : Z) : string :=
  substring 0 (Z.to_nat i) s.

(** [os.path.basename(p)]: [p[p.rfind('/') + 1:]]. *)
Definition basename (p : string) : string :=
  slice_from p (rfind "/" p + 1).

(** The [while] loop of [genericpath._splitext]: is there a character other
    than a dot in [p[filenameIndex:dotIndex]]?  [fuel] bounds the number of
    iterations by the length of that slice. *)
Fixpoint has_non_dot (p : string) (filenameIndex dotIndex : Z) (fuel : nat) : bool :=
  match fuel with
  | O => false
  | S fuel' =>
      if (filenameIndex <? dotIndex)%Z then
        if negb (String.eqb (substring (Z.to_nat filenameIndex) 1 p) ".")
        then true
        else has_non_dot p (filenameIndex + 1) dotIndex fuel'
      else false
  end.

(** [os.path.splitext(p)]: the extension starts at the last dot of the last
    path component, unless that component has only dots before it. *)
Definition splitext (p : string) : string * string :=
  let sepIndex := rfind "/" p in
  let dotIndex := rfind "." p in
  if (dotIndex >? sepIndex)%Z then
    if has_non_dot p (sepIndex + 1) dotIndex (String.length p)
    then (slice_to p dotIndex, slice_from p dotIndex)
    else (p, "")
  else (p, "").

(** ** Text as code points *)

Definition text : Type := list N.

(** [str.isspace] on one character: the code points CPython's
    [_PyUnicode_IsWhitespace] accepts. *)
Definition is_space (c : N) : bool :=
  ((9 <=? c) && (c <=? 13) || (28 <=? c) && (c <=? 32)
   || (c =? 133) || (c =? 160) || (c =? 5760)
   || (8192 <=? c) && (c <=? 8202)
   || (c =? 8232) || (c =? 8233) || (c =? 8239) || (c =? 8287)
   || (c =? 12288))%N.

Fixpoint lstrip (s : text) : text :=
  match s with
  | [] => []
  | c :: rest => if is_space c then lstrip rest else s
  end.

(** [s.strip()]. *)
Definition strip (s : text) : text := rev (lstrip (rev (lstrip s))).

(** [s.startswith(prefix)]. *)
Fixpoint startswith (s prefix : text) : bool :=
  match prefix, s with
  | [], _ => true
  | _ :: _, [] => false
  | p :: prefix', c :: s' => (c =? p)%N && startswith s' prefix'
  end.

(** The two docstring openers: three double quotes, three single quotes. *)
Definition triple_double_quote : text := [34; 34; 34]%N.
Definition triple_single_quote : text := [39; 39; 39]%N.

(** [f.readlines()] on the text of a file opened in text mode (newlines
    already translated to line feeds): the lines, each with its line feed,
    a last line without one when the text does not end in a line feed. *)
Fixpoint readlines_from (s : text) (current : text) : list text :=
  match s with
  | [] => match current with [] => [] | _ => [rev current] end
  | c :: rest =>
      if (c =? 10)%N then rev (c :: current) :: readlines_from rest []
      else readlines_from rest (c :: current)
  end.

Definition readlines (s : text) : list text := readlines_from s [].

(** [len(s.split())]: the number of maximal runs without white space. *)
Fixpoint count_words (s : text) (in_word : bool) : Z :=
  match s with
  | [] => 0
  | c :: rest =>
      if is_space c then count_words rest false
      else ((if in_word then 0 else 1) + count_words rest true)%Z
  end.

Definition split_len (s : text) : Z := count_words s false.

(** ** Binary64 arithmetic *)

Module Float64.

Definition prec : Z := 53.
Definition emax : Z := 1024.

Definition float : Type := spec_float.

(** The binary64 number nearest to [n / d] (ties to even). *)
Definition of_ratio (n : Z) (d : positive) : float :=
  match n with
  | Z0 => S754_zero false
  | Zpos m => SFdiv prec emax (S754_finite false m 0) (S754_finite false d 0)
  | Zneg m => SFdiv prec emax (S754_finite true m 0) (S754_finite false d 0)
  end.

(** [float(n)]. *)
Definition of_int (n : Z) : float := of_ratio n 1.

Definition is_finite (x : float) : bool :=
  match x with
  | S754_zero _ | S754_finite _ _ _ => true
  | _ => false
  end.

(** The exact value of a finite float.  The numbers of the embedding are
    rationals, so an infinity or a NaN has no value here and is given 0.
    [truediv] and [round] keep the program's floats finite; the product by
    100 in [analyze_comments] leaves the finite range only for a quotient
    above 10^306, and the statements about the density assume it finite. *)
Definition value (x : float) : Q :=
  match x with
  | S754_finite s m e =>
      (inject_Z (if s then Zneg m else Zpos m) * (2 # 1) ^ e)%Q
  | _ => 0%Q
  end.

(** [a / b] on two [int]s: the correctly rounded quotient;
    [ZeroDivisionError] for a zero divisor and [OverflowError] when the
    quotient is too large for a float. *)
Definition truediv (a b : Z) : outcome float :=
  match b with
  | Z0 => Raise ZeroDivisionError
  | Zpos d => let q := of_ratio a d in
              if is_finite q then Return q else Raise OverflowError
  | Zneg d => let q := of_ratio (- a) d in
              if is_finite q then Return q else Raise OverflowError
  end.

(** [x * n] for a float [x] and an [int] [n] that converts exactly. *)
Definition mul_int (x : float) (n : Z) : float :=
  SFmul prec emax x (of_int n).

(** Round half to even to an integer. *)
Definition round_half_even (q : Q) : Z :=
  let f := Qfloor q in
  match Qcompare (q - inject_Z f) (1 # 2) with
  | Lt => f
  | Gt => (f + 1)%Z
  | Eq => if Z.even f then f else (f + 1)%Z
  end.

(** [round(x, ndigits)] for a float [x] and [0 <= ndigits]: the decimal
    with [ndigits] digits nearest to the exact value of [x] (ties to
    even), converted back to the nearest float; infinities and NaN round
    to themselves. *)
Definition round (x : float) (ndigits : nat) : float :=
  if is_finite x then
    let scale := Pos.of_nat (Nat.pow 10 ndigits) in
    of_ratio (round_half_even (value x * inject_Z (Zpos scale))) scale
  else x.

End Float64.

(** ** Numbers *)

(** [x <= y], [x >= y] and [x < y] on finite Python numbers. *)
Definition num_le (x y : Q) : bool := Qle_bool x y.
Definition num_ge (x y : Q) : bool := Qle_bool y x.
Definition num_lt (x y : Q) : bool := negb (Qle_bool y x).

(** An [int] as a number. *)
Definition int (n : Z) : Q := inject_Z n.

(** ** Configuration constants *)

Definition CLAUDE_TOLERANCES : dict (dict (dict Z)) :=
  [ ("python",
     [ ("complexity_tiers",
        [ ("simple", 15); ("safe", 35); ("complex", 55); ("danger", 56) ]%Z);
       ("comment_tiers",
        [ ("excellent", 25); ("good", 15); ("fair", 5); ("poor", 0) ]%Z) ]);
    ("config",
     [ ("size_tiers",
        [ ("simple", 1000); ("safe", 2500); ("complex", 4000); ("danger", 4001) ]%Z) ]) ].

Definition AI_THRESHOLDS : dict (dict Z) :=
  [ ("claude-3.5-sonnet", [ ("python_complexity", 55); ("config_size_kb", 4000) ]%Z);
    ("claude-3.5-haiku", [ ("python_complexity", 35); ("config_size_kb", 2500) ]%Z);
    ("gpt-4-turbo", [ ("python_complexity", 45); ("config_size_kb", 3500) ]%Z) ].

Definition PYTHON_EXTS : list string := [ ".py" ].
Definition CONFIG_EXTS : list string :=
  [ ".ini"; ".cfg"; ".conf"; ".toml"; ".yml"; ".yaml"; ".json" ].

(** ** Records *)

(** The dictionary [get_file_size] returns. *)
Record size_info : Type := {
  size_bytes : Z;
  size_kb : Q;
  size_mb : Q
}.

(** The dictionary [analyze_comments] returns. *)
Record comment_data : Type := {
  cd_comment_density : Q;
  cd_comment_quality : string
}.

(** The per-file dictionary.  A field is [None] when the key is absent;
    [analyze_file] sets every key, the resolver and the filter also accept
    dictionaries with keys missing. *)
Record file_data : Type := {
  fd_path : option string;
  fd_type : option string;
  fd_size : option size_info;
  fd_tokens : option Z;
  fd_complexity : option Q;
  fd_comment_density : option Q;
  fd_comment_quality : option string;
  fd_safety : option string;
  fd_recommendations : option (list string)
}.

Definition set_tokens (d : file_data) (v : Z) : file_data :=
  {| fd_path := fd_path d; fd_type := fd_type d; fd_size := fd_size d;
     fd_tokens := Some v; fd_complexity := fd_complexity d;
     fd_comment_density := fd_comment_density d;
     fd_comment_quality := fd_comment_quality d;
     fd_safety := fd_safety d; fd_recommendations := fd_recommendations d |}.

Definition set_complexity (d : file_data) (v : Q) : file_data :=
  {| fd_path := fd_path d; fd_type := fd_type d; fd_size := fd_size d;
     fd_tokens := fd_tokens d; fd_complexity := Some v;
     fd_comment_density := fd_comment_density d;
     fd_comment_quality := fd_comment_quality d;
     fd_safety := fd_safety d; fd_recommendations := fd_recommendations d |}.

(** [result.update(comment_data)]. *)
Definition update_comments (d : file_data) (c : comment_data) : file_data :=
  {| fd_path := fd_path d; fd_type := fd_type d; fd_size := fd_size d;
     fd_tokens := fd_tokens d; fd_complexity := fd_complexity d;
     fd_comment_density := Some (cd_comment_density c);
     fd_comment_quality := Some (cd_comment_quality c);
     fd_safety := fd_safety d; fd_recommendations := fd_recommendations d |}.

Definition set_safety (d : file_data) (v : string) : file_data :=
  {| fd_path := fd_path d; fd_type := fd_type d; fd_size := fd_size d;
     fd_tokens := fd_tokens d; fd_complexity := fd_complexity d;
     fd_comment_density := fd_comment_density d;
     fd_comment_quality := fd_comment_quality d;
     fd_safety := Some v; fd_recommendations := fd_recommendations d |}.

Definition set_recommendations (d : file_data) (v : list string) : file_data :=
  {| fd_path := fd_path d; fd_type := fd_type d; fd_size := fd_size d;
     fd_tokens := fd_tokens d; fd_complexity := fd_complexity d;
     fd_comment_density := fd_comment_density d;
     fd_comment_quality := fd_comment_quality d;
     fd_safety := fd_safety d; fd_recommendations := Some v |}.

(** ** The world outside the program *)

(** The type of a token, as far as the program looks at it. *)
Inductive token_type : Type :=
| COMMENT
| OTHER_TOKEN.

(** What the collaborators answer for a path.  Each field is the outcome of
    one call, an exception included; the answers do not change while one
    file is analysed. *)
Record world : Type := {
  (** [os.path.getsize(path)] *)
  getsize : string -> outcome Z;
  (** [str(Path(path).resolve())] *)
  resolve : string -> outcome string;
  (** [open(path, 'rb')] and the tokens of [tokenize.tokenize(f.readline)],
      read to the end *)
  tokenize : string -> outcome (list token_type);
  (** [open(path, 'r', encoding='utf-8')] and [f.read()] *)
  read : string -> outcome text;
  (** the complexities [cc_visit(source)] finds, one per block *)
  cc_visit : text -> outcome (list Z)
}.

(** ** [get_file_size] *)

Definition zero_size : size_info :=
  {| size_bytes := 0; size_kb := 0; size_mb := 0 |}.

Definition get_file_size (w : world) (path : string) : outcome size_info :=
  try_except
    (bytes_size <- getsize w path ;;
     kb <- Float64.truediv bytes_size 1024 ;;
     mb <- Float64.truediv bytes_size (1024 ^ 2) ;;
     Return {| size_bytes := bytes_size;
               size_kb := Float64.value (Float64.round kb 1);
               size_mb := Float64.value (Float64.round mb 3) |})
    is_OSError
    (fun _ => Return zero_size).

(** ** [analyze_comments] *)

(** The loop over the comment tiers: the first tier whose threshold the
    density reaches, upper-cased; [quality] unchanged when there is none. *)
Fixpoint comment_tier_loop (tiers : dict Z) (density : Q) (quality : string) : string :=
  match tiers with
  | [] => quality
  | (tier, threshold) :: rest =>
      if num_ge density (int threshold) then upper tier
      else comment_tier_loop rest density quality
  end.

(** The second half of [analyze_comments], from the three values it has
    collected: the density, the tier and the override for an empty file. *)
Definition comment_metrics (comment_lines total_lines : Z) (has_module_doc : bool)
  : outcome comment_data :=
  density <- (if (total_lines >? 0)%Z
              then ratio <- Float64.truediv comment_lines total_lines ;;
                   Return (Float64.value (Float64.round (Float64.mul_int ratio 100) 1))
              else Return (int 0)) ;;
  let quality := "POOR" in
  python <- dict_getitem CLAUDE_TOLERANCES "python" ;;
  comment_tiers <- dict_getitem python "comment_tiers" ;;
  let quality := comment_tier_loop comment_tiers density quality in
  let quality := if (total_lines =? 0)%Z && has_module_doc then "EXCELLENT" else quality in
  Return {| cd_comment_density := density; cd_comment_quality := quality |}.

Definition count_comments (tokens : list token_type) : Z :=
  Z.of_nat (List.length (filter (fun t => match t with COMMENT => true | _ => false end) tokens)).

(** Does the first line open a docstring?  [False] for no line at all. *)
Definition module_doc (content : list text) : bool :=
  match content with
  | [] => false
  | first :: _ =>
      startswith (strip first) triple_double_quote
      || startswith (strip first) triple_single_quote
  end.

Definition failed_comments : comment_data :=
  {| cd_comment_density := int 0; cd_comment_quality := "ERROR" |}.

Definition analyze_comments (w : world) (file_path : string) : outcome comment_data :=
  try_except
    (tokens <- tokenize w file_path ;;
     let comment_lines := count_comments tokens in
     source <- read w file_path ;;
     let content := readlines source in
     let total_lines := Z.of_nat (List.length content) in
     let has_module_doc := module_doc content in
     comment_metrics comment_lines total_lines has_module_doc)
    is_Exception
    (fun _ => Return failed_comments).

(** ** [adjust_safety] and [get_safety_rating] *)

Definition safety_order : list string := [ "SIMPLE"; "SAFE"; "COMPLEX"; "DANGER" ].

Definition adjust_safety (base_safety : string) (comment_density : Q) : outcome string :=
  try_except
    (idx <- list_index safety_order base_safety ;;
     if num_ge comment_density (int 25)
     then list_getitem safety_order (Z.max 0 (idx - 1))
     else if num_lt comment_density (int 10)
     then list_getitem safety_order
            (Z.min (Z.of_nat (List.length safety_order) - 1) (idx + 1))
     else Return base_safety)
    is_ValueError
    (fun _ => Return base_safety).

(** The [for]/[else] over a tier table: the first rating whose threshold is
    not below the metric, upper-cased; [DANGER] when the loop ends without a
    [break]. *)
Fixpoint base_tier_loop (tiers : dict Z) (metric : Q) : string :=
  match tiers with
  | [] => "DANGER"
  | (rating, threshold) :: rest =>
      if num_le metric (int threshold) then upper rating
      else base_tier_loop rest metric
  end.

(** [CLAUDE_TOLERANCES[file_type][...]]: the tier table of a file type. *)
Definition tier_table (file_type : string) : outcome (dict Z) :=
  by_type <- dict_getitem CLAUDE_TOLERANCES file_type ;;
  dict_getitem by_type
    (if String.eqb file_type "python" then "complexity_tiers" else "size_tiers").

Definition get_safety_rating (file_data : file_data) : outcome string :=
  try_except
    (file_type <- getitem (fd_type file_data) ;;
     metric <- (if String.eqb file_type "python"
                then getitem (fd_complexity file_data)
                else size <- getitem (fd_size file_data) ;; Return (size_kb size)) ;;
     tiers <- tier_table file_type ;;
     let base_safety := base_tier_loop tiers metric in
     if String.eqb file_type "python"
     then adjust_safety base_safety (get (fd_comment_density file_data) (int 0))
     else Return base_safety)
    is_KeyError
    (fun _ => Return "ERROR").

(** ** [get_ai_recommendations] *)

(** [file_data.get('complexity', 0)] for a program file,
    [file_data.get('size', {}).get('kb', 0)] otherwise. *)
Definition recommendation_metric (file_type : string) (file_data : file_data) : Q :=
  if String.eqb file_type "python"
  then get (fd_complexity file_data) (int 0)
  else get (option_map size_kb (fd_size file_data)) (int 0).

(** The loop over the model registry, appending each model whose threshold
    the metric does not exceed. *)
Fixpoint model_loop (registry : dict (dict Z)) (file_type : string)
         (file_data : file_data) (recommendations : list string)
  : outcome (list string) :=
  match registry with
  | [] => Return recommendations
  | (model, specs) :: rest =>
      threshold <- dict_getitem specs
                     (if String.eqb file_type "python"
                      then "python_complexity" else "config_size_kb") ;;
      let metric := recommendation_metric file_type file_data in
      model_loop rest file_type file_data
                 (if num_le metric (int threshold)
                  then recommendations ++ [model] else recommendations)
  end.

Definition get_ai_recommendations (file_data : file_data) : outcome (list string) :=
  try_except
    (let recommendations := [] in
     let file_type := get (fd_type file_data) "unknown" in
     let safety := get (fd_safety file_data) "ERROR" in
     if negb (str_in file_type [ "python"; "config" ])
     then Return [ "Human Review" ]
     else
       recommendations <- model_loop AI_THRESHOLDS file_type file_data recommendations ;;
       if String.eqb safety "DANGER"
       then Return (if str_in "claude-3.5-sonnet" recommendations
                    then [ "claude-3.5-sonnet" ] else [])
       else if String.eqb safety "COMPLEX"
       then Return (filter (fun m => negb (String.eqb m "claude-3.5-haiku")) recommendations)
       else Return recommendations)
    is_Exception
    (fun _ => Return [ "Analysis Failed" ]).

(** ** [analyze_file] *)

(** The record the [except] clause of [analyze_file] returns. *)
Definition failure_record (resolved : string) : file_data :=
  {| fd_path := Some resolved;
     fd_type := Some "error";
     fd_size := Some zero_size;
     fd_tokens := Some 0%Z;
     fd_complexity := Some (int 0);
     fd_comment_density := Some (int 0);
     fd_comment_quality := Some "ERROR";
     fd_safety := Some "ANALYSIS FAILED";
     fd_recommendations := Some [ "Human Review" ] |}.

Definition sum (l : list Z) : Z := fold_left Z.add l 0%Z.

(** The [try] block of [analyze_file]; [None] is Python's [None]. *)
Definition analyze_file_body (w : world) (file_path : string)
  : outcome (option file_data) :=
  if String.eqb (basename file_path) "report.py" then Return None
  else
    let ext := lower (snd (splitext file_path)) in
    let file_type :=
      if str_in ext PYTHON_EXTS then "python"
      else if str_in ext CONFIG_EXTS then "config" else "other" in
    if String.eqb file_type "other" then Return None
    else
      resolved <- resolve w file_path ;;
      size <- get_file_size w file_path ;;
      let result :=
        {| fd_path := Some resolved;
           fd_type := Some file_type;
           fd_size := Some size;
           fd_tokens := Some 0%Z;
           fd_complexity := Some (int 0);
           fd_comment_density := Some (int 0);
           fd_comment_quality := Some "N/A";
           fd_safety := Some "PENDING";
           fd_recommendations := Some [] |} in
      result <- (if String.eqb file_type "python"
                 then
                   tokens <- tokenize w file_path ;;
                   let result := set_tokens result (Z.of_nat (List.length tokens)) in
                   source <- read w file_path ;;
                   blocks <- cc_visit w source ;;
                   let result := set_complexity result (int (sum blocks)) in
                   comment_data <- analyze_comments w file_path ;;
                   Return (update_comments result comment_data)
                 else
                   content <- read w file_path ;;
                   Return (set_tokens result (split_len content))) ;;
      safety <- get_safety_rating result ;;
      let result := set_safety result safety in
      recommendations <- get_ai_recommendations result ;;
      let result := set_recommendations result recommendations in
      Return (Some result).

Definition analyze_file (w : world) (file_path : string) : outcome (option file_data) :=
  try_except
    (analyze_file_body w file_path)
    is_Exception
    (fun _ => resolved <- resolve w file_path ;;
              Return (Some (failure_record resolved))).

(** ** The specification's vocabulary

    The definitions of this module follow the words of the specification,
    to be compared with the functions above. *)

Module Spec.

(** The ordered scale of safety tiers. *)
Inductive tier : Type := SIMPLE | SAFE | COMPLEX | DANGER.

Definition tier_name (t : tier) : string :=
  match t with
  | SIMPLE => "SIMPLE"
  | SAFE => "SAFE"
  | COMPLEX => "COMPLEX"
  | DANGER => "DANGER"
  end.

(** Position on the scale: a higher rank is less safe. *)
Definition rank (t : tier) : nat :=
  match t with
  | SIMPLE => 0
  | SAFE => 1
  | COMPLEX => 2
  | DANGER => 3
  end.

Definition one_step_safer (t : tier) : tier :=
  match t with
  | SIMPLE => SIMPLE
  | SAFE => SIMPLE
  | COMPLEX => SAFE
  | DANGER => COMPLEX
  end.

Definition one_step_less_safe (t : tier) : tier :=
  match t with
  | SIMPLE => SAFE
  | SAFE => COMPLEX
  | COMPLEX => DANGER
  | DANGER => DANGER
  end.

(** Step 2 of the resolver. *)
Definition comment_adjustment (t : tier) (commentDensity : Q) : tier :=
  if Qle_bool 25 commentDensity then one_step_safer t
  else if negb (Qle_bool 10 commentDensity) then one_step_less_safe t
  else t.

(** The recognized file types: program files and configuration files. *)
Inductive file_kind : Type := Program | Config.

(** The value of the [type] key the code uses for a file type. *)
Definition type_name (k : file_kind) : string :=
  match k with
  | Program => "python"
  | Config => "config"
  end.

(** The primary metric of a record: the complexity of a program file, the
    size in KB of a configuration file. *)
Definition primary_metric (k : file_kind) (d : file_data) : option Q :=
  match k with
  | Program => fd_complexity d
  | Config => option_map size_kb (fd_size d)
  end.

(** The ordered tier tables of step 1. *)
Definition tiers (k : file_kind) : list (tier * Z) :=
  match k with
  | Program => [ (SIMPLE, 15); (SAFE, 35); (COMPLEX, 55); (DANGER, 56) ]%Z
  | Config => [ (SIMPLE, 1000); (SAFE, 2500); (COMPLEX, 4000); (DANGER, 4001) ]%Z
  end.

(** Step 1: the first tier whose threshold is at least the metric,
    [DANGER] when the metric exceeds every threshold. *)
Definition base_tier (k : file_kind) (primaryMetric : Q) : tier :=
  match find (fun row => Qle_bool primaryMetric (inject_Z (snd row))) (tiers k) with
  | Some row => fst row
  | None => DANGER
  end.

(** The ceiling of the COMPLEX tier. *)
Definition complex_ceiling (k : file_kind) : Z :=
  match k with
  | Program => 55
  | Config => 4000
  end.

(** The descending table of comment quality tiers. *)
Definition quality_tiers : list (string * Z) :=
  [ ("EXCELLENT", 25); ("GOOD", 15); ("FAIR", 5); ("POOR", 0) ]%Z.

(** The first quality tier whose threshold the density reaches, [POOR] as
    the floor. *)
Definition comment_quality (density : Q) : string :=
  match find (fun row => Qle_bool (inject_Z (snd row)) density) quality_tiers with
  | Some row => fst row
  | None => "POOR"
  end.

(** The registered threshold of a model for a file type. *)
Definition threshold_key (k : file_kind) : string :=
  match k with
  | Program => "python_complexity"
  | Config => "config_size_kb"
  end.

Definition model_threshold (k : file_kind) (model : string) : option Z :=
  match dict_getitem AI_THRESHOLDS model with
  | Return specs =>
      match dict_getitem specs (threshold_key k) with
      | Return threshold => Some threshold
      | Raise _ => None
      end
  | Raise _ => None
  end.

(** The models of the registry, in insertion order. *)
Definition registry_models : list string := map fst AI_THRESHOLDS.

(** The metric filter: the models whose threshold the metric does not
    exceed, in registry order. *)
Definition survivors (k : file_kind) (primaryMetric : Q) : list string :=
  filter (fun model =>
            match model_threshold k model with
            | Some threshold => Qle_bool primaryMetric (inject_Z threshold)
            | None => false
            end)
         registry_models.

(** The model the registry gives the highest (resp. lowest) threshold for
    a file type: the last maximum (resp. minimum) in registry order. *)
Fixpoint extreme (prefer : Z -> Z -> bool) (k : file_kind) (models : list string)
  : option string :=
  match models with
  | [] => None
  | model :: rest =>
      match extreme prefer k rest with
      | None => Some model
      | Some other =>
          match model_threshold k model, model_threshold k other with
          | Some a, Some b => if prefer a b then Some model else Some other
          | _, _ => Some other
          end
      end
  end.

Definition top_capability_model (k : file_kind) : option string :=
  extreme Z.gtb k registry_models.
Definition weakest_capability_model (k : file_kind) : option string :=
  extreme Z.ltb k registry_models.

(** [l] keeps the order of [registry]: it is what remains of [registry]
    after deleting some of its elements. *)
Inductive in_order_of {A : Type} : list A -> list A -> Prop :=
| in_order_nil : forall registry, in_order_of [] registry
| in_order_keep : forall x l registry,
    in_order_of l registry -> in_order_of (x :: l) (x :: registry)
| in_order_skip : forall x l registry,
    in_order_of l registry -> in_order_of l (x :: registry).

End Spec.

(** ** The post-filter of the recommendation filter, as the code writes it *)

(** The last [if]/[elif] of [get_ai_recommendations], as a function of the
    safety value and the metric-filtered list. *)
Definition post_filter (safety : string) (recommendations : list string) : list string :=
  if String.eqb safety "DANGER"
  then (if str_in "claude-3.5-sonnet" recommendations then [ "claude-3.5-sonnet" ] else [])
  else if String.eqb safety "COMPLEX"
  then filter (fun m => negb (String.eqb m "claude-3.5-haiku")) recommendations
  else recommendations.

(** ** The files [analyze_file] skips *)

(** The two early [return None] of [analyze_file]: the script itself, and a
    file whose extension is neither a program's nor a configuration's. *)
Definition skipped (file_path : string) : bool :=
  String.eqb (basename file_path) "report.py"
  || let ext := lower (snd (splitext file_path)) in
     negb (str_in ext PYTHON_EXTS) && negb (str_in ext CONFIG_EXTS).

(** ** Sample inputs *)

Definition sample_size (kb : Q) : size_info :=
  {| size_bytes := 0; size_kb := kb; size_mb := 0 |}.

(** A record as [analyze_file] hands it to the resolver and the filter. *)
Definition sample_record (file_type : string) (kb complexity density : Q) (safety : string)
  : file_data :=
  {| fd_path := Some "/repo/sample";
     fd_type := Some file_type;
     fd_size := Some (sample_size kb);
     fd_tokens := Some 0%Z;
     fd_complexity := Some complexity;
     fd_comment_density := Some density;
     fd_comment_quality := Some "N/A";
     fd_safety := Some safety;
     fd_recommendations := Some [] |}.

(** A program record without the [complexity] key, on which the resolver
    fails. *)
Definition record_without_metric (safety : option string) : file_data :=
  {| fd_path := Some "/repo/sample.py";
     fd_type := Some "python";
     fd_size := None;
     fd_tokens := None;
     fd_complexity := None;
     fd_comment_density := None;
     fd_comment_quality := None;
     fd_safety := safety;
     fd_recommendations := None |}.

(** A record whose [type] is none of the recognized ones. *)
Definition record_of_type (file_type : option string) (complexity : Q) (safety : string)
  : file_data :=
  {| fd_path := Some "/repo/sample";
     fd_type := file_type;
     fd_size := Some (sample_size 1);
     fd_tokens := Some 0%Z;
     fd_complexity := Some complexity;
     fd_comment_density := Some 0;
     fd_comment_quality := Some "N/A";
     fd_safety := Some safety;
     fd_recommendations := Some [] |}.

(** A directory entry [loop.py] that is a symbolic link to itself:
    [os.path.getsize] fails with [OSError] (ELOOP) and, before Python 3.13,
    [Path.resolve] raises [RuntimeError]. *)
Definition symlink_loop : world :=
  {| getsize := fun _ => Raise OSError;
     resolve := fun _ => Raise RuntimeError;
     tokenize := fun _ => Raise OSError;
     read := fun _ => Raise OSError;
     cc_visit := fun _ => Return [] |}.

(** A two-line program file, one comment and one statement, that no
    collaborator fails on. *)
Definition small_program : world :=
  {| getsize := fun _ => Return 13%Z;
     resolve := fun p => Return ("/repo/" ++ p)%string;
     tokenize := fun _ => Return [ OTHER_TOKEN; COMMENT; OTHER_TOKEN; OTHER_TOKEN;
                                   OTHER_TOKEN; OTHER_TOKEN; OTHER_TOKEN; OTHER_TOKEN ];
     read := fun _ => Return [ 35; 32; 110; 111; 116; 101; 10; 120; 32; 61; 32; 49; 10 ]%N;
     cc_visit := fun _ => Return [] |}.

(** A program file that exists but does not tokenize. *)
Definition broken_program : world :=
  {| getsize := fun _ => Return 3%Z;
     resolve := fun p => Return ("/repo/" ++ p)%string;
     tokenize := fun _ => Raise (OtherException "TokenError");
     read := fun _ => Return [ 40; 40; 10 ]%N;
     cc_visit := fun _ => Raise (OtherException "SyntaxError") |}.

(** A three-line program file with one comment: a third of its lines. *)
Definition three_line_program : world :=
  {| getsize := fun _ => Return 19%Z;
     resolve := fun p => Return ("/repo/" ++ p)%string;
     tokenize := fun _ => Return [ OTHER_TOKEN; COMMENT; OTHER_TOKEN; OTHER_TOKEN;
                                   OTHER_TOKEN; OTHER_TOKEN; OTHER_TOKEN; OTHER_TOKEN;
                                   OTHER_TOKEN; OTHER_TOKEN; OTHER_TOKEN; OTHER_TOKEN ];
     read := fun _ => Return [ 35; 32; 110; 111; 116; 101; 10; 120; 32; 61; 32; 49; 10;
                               121; 32; 61; 32; 50; 10 ]%N;
     cc_visit := fun _ => Return [] |}.

(** The text of a file that consists solely of a documentation block: one
    line, a docstring between triple double quotes. *)
Definition docstring_source : text :=
  [ 34; 34; 34; 68; 111; 99; 46; 34; 34; 34; 10 ]%N.

Definition docstring_only : world :=
  {| getsize := fun _ => Return 11%Z;
     resolve := fun p => Return ("/repo/" ++ p)%string;
     tokenize := fun _ => Return [ OTHER_TOKEN; OTHER_TOKEN; OTHER_TOKEN; OTHER_TOKEN ];
     read := fun _ => Return docstring_source;
     cc_visit := fun _ => Return [] |}.

(** An empty program file: no line, and the two tokens the tokenizer
    gives for it. *)
Definition empty_program : world :=
  {| getsize := fun _ => Return 0%Z;
     resolve := fun p => Return ("/repo/" ++ p)%string;
     tokenize := fun _ => Return [ OTHER_TOKEN; OTHER_TOKEN ];
     read := fun _ => Return [];
     cc_visit := fun _ => Return [] |}.

(** ** The last two steps of [analyze_file] *)

(** Lines 196 and 197: the rating is stored under [safety], then the
    recommendations are computed from the record that holds it. *)
Definition rate_and_recommend (result : file_data) : outcome file_data :=
  safety <- get_safety_rating result ;;
  let result := set_safety result safety in
  recommendations <- get_ai_recommendations result ;;
  Return (set_recommendations result recommendations).

(** ** [generate_report]: the rows of the table

    The report is text; its numbers are printed as Python prints an [int]
    or a [float], which the exact values of the records do not tell apart.
    What is embedded is which records get a row and in which order. *)

(** [f and f.get('type') in ('python', 'config')] for an element of
    [files], [None] included.  An empty dictionary is false, and has no
    [type] either. *)
Definition is_valid_file (f : option file_data) : bool :=
  match f with
  | None => false
  | Some d =>
      match fd_type d with
      | Some file_type => str_in file_type [ "python"; "config" ]
      | None => false
      end
  end.

Fixpoint valid_files (files : list (option file_data)) : list file_data :=
  match files with
  | [] => []
  | f :: rest =>
      if is_valid_file f
      then match f with
           | Some d => d :: valid_files rest
           | None => valid_files rest
           end
      else valid_files rest
  end.

(** The sort key [(-x.get('complexity', 0), x['path'])]. *)
Definition sort_key (x : file_data) : outcome (Q * string) :=
  path <- getitem (fd_path x) ;;
  Return ((- get (fd_complexity x) (int 0))%Q, path).

(** [a < b] on two keys, as Python compares tuples: the first components
    decide unless they are equal.  Strings compare by code point, which is
    the byte order of their UTF-8 encoding. *)
Definition key_lt (a b : Q * string) : bool :=
  if Qeq_bool (fst a) (fst b) then String.ltb (snd a) (snd b)
  else num_lt (fst a) (fst b).

(** [sorted] is stable: an element goes after the elements already placed
    that are not greater. *)
Fixpoint insert_by_key (x : (Q * string) * file_data)
         (placed : list ((Q * string) * file_data)) : list ((Q * string) * file_data) :=
  match placed with
  | [] => [ x ]
  | y :: rest =>
      if key_lt (fst x) (fst y) then x :: placed
      else y :: insert_by_key x rest
  end.

Definition sorted_by_key (l : list ((Q * string) * file_data))
  : list ((Q * string) * file_data) :=
  fold_left (fun placed x => insert_by_key x placed) l [].

(** The keys are computed first, in the order of the list; a key that
    raises ends [sorted]. *)
Fixpoint with_keys (l : list file_data) : outcome (list ((Q * string) * file_data)) :=
  match l with
  | [] => Return []
  | x :: rest =>
      key <- sort_key x ;;
      keyed <- with_keys rest ;;
      Return ((key, x) :: keyed)
  end.

(** The records [generate_report] writes a row for, in the order of the
    rows (lines 216 and 225). *)
Definition report_rows (files : list (option file_data)) : outcome (list file_data) :=
  keyed <- with_keys (valid_files files) ;;
  Return (map snd (sorted_by_key keyed)).

(** ** [main]: collecting the files *)

(** [s.endswith('/')]. *)
Fixpoint ends_with_slash (s : string) : bool :=
  match s with
  | EmptyString => false
  | String c EmptyString => Ascii.eqb c "/"
  | String _ rest => ends_with_slash rest
  end.

(** [os.path.join(a, b)] on POSIX. *)
Definition os_path_join (a b : string) : string :=
  if String.prefix "/" b then b
  else if String.eqb a "" || ends_with_slash a then (a ++ b)%string
  else (a ++ "/" ++ b)%string.

(** [if analysis:] on what [analyze_file] returned: [None] is false, and so
    is a dictionary without any key. *)
Definition truthy (analysis : option file_data) : bool :=
  match analysis with
  | None => false
  | Some d =>
      match fd_path d, fd_type d, fd_size d, fd_tokens d, fd_complexity d,
            fd_comment_density d, fd_comment_quality d, fd_safety d,
            fd_recommendations d with
      | None, None, None, None, None, None, None, None, None => false
      | _, _, _, _, _, _, _, _, _ => true
      end
  end.

(** The inner loop of [main] over the file names of one directory. *)
Fixpoint collect_directory (w : world) (root : string) (filenames : list string)
         (files : list file_data) : outcome (list file_data) :=
  match filenames with
  | [] => Return files
  | fn :: rest =>
      if String.eqb fn "report.py" then collect_directory w root rest files
      else
        let ext := lower (snd (splitext fn)) in
        if str_in ext PYTHON_EXTS || str_in ext CONFIG_EXTS
        then
          let full_path := os_path_join root fn in
          analysis <- analyze_file w full_path ;;
          collect_directory w root rest
            (if truthy analysis
             then match analysis with
                  | Some d => files ++ [ d ]
                  | None => files
                  end
             else files)
        else collect_directory w root rest files
  end.

(** The outer loop over what [os.walk('.')] yields: each directory with
    the names of its files. *)
Fixpoint collect_files (w : world) (walk : list (string * list string))
         (files : list file_data) : outcome (list file_data) :=
  match walk with
  | [] => Return files
  | (root, filenames) :: rest =>
      files <- collect_directory w root filenames files ;;
      collect_files w rest files
  end.

(** Where the report goes: creating the directory and opening the file,
    then writing the text. *)
Record report_target : Type := {
  (** [os.getcwd()], [os.makedirs(report_dir, exist_ok=True)] and
      [open(report_path, 'w', encoding='utf-8')] *)
  open_report : outcome unit;
  (** [f.write(text)] and closing the file *)
  write_report : outcome unit
}.

(** How [main] ends: it returns after writing the report with these rows,
    or it calls [exit(1)].  Once the rows are chosen and sorted, writing
    their text reads each record with [get] (and [type], which a row has),
    so it adds no failure of its own. *)
Inductive main_result : Type :=
| ReportWritten (rows : list file_data)
| Exit1.

Definition main (w : world) (walk : list (string * list string)) (target : report_target)
  : main_result :=
  match
    files <- collect_files w walk [] ;;
    _ <- open_report target ;;
    rows <- report_rows (map Some files) ;;
    _ <- write_report target ;;
    Return rows
  with
  | Return rows => ReportWritten rows
  | Raise _ => Exit1
  end.

(** A directory with one configuration file and the link [loop.py]. *)
Definition walk_with_loop : list (string * list string) :=
  [ (".", [ "setup.cfg"; "loop.py" ]) ].

(** A world where everything answers except the path of [loop.py]. *)
Definition loop_among_files : world :=
  {| getsize := fun _ => Return 2048%Z;
     resolve := fun p => if String.eqb p "./loop.py" then Raise RuntimeError
                         else Return ("/repo/" ++ p)%string;
     tokenize := fun _ => Return [ OTHER_TOKEN; OTHER_TOKEN ];
     read := fun _ => Return [ 97; 32; 61; 32; 49; 10 ]%N;
     cc_visit := fun _ => Return [ 3%Z ] |}.

Definition writable : report_target :=
  {| open_report := Return tt; write_report := Return tt |}.

(** ** Vocabulary of the further properties *)

(** A record is rated from a metric when its type is recognized and the
    metric of that type is there. *)
Definition ratable (d : file_data) : Prop :=
  exists k metric,
    fd_type d = Some (Spec.type_name k) /\ Spec.primary_metric k d = Some metric.

(** Every key of the per-file dictionary is set. *)
Definition fully_populated (d : file_data) : Prop :=
  fd_path d <> None /\ fd_type d <> None /\ fd_size d <> None
  /\ fd_tokens d <> None /\ fd_complexity d <> None
  /\ fd_comment_density d <> None /\ fd_comment_quality d <> None
  /\ fd_safety d <> None /\ fd_recommendations d <> None.

(** The file type [analyze_file] gives a path: none for a skipped file. *)
Definition path_kind (file_path : string) : option Spec.file_kind :=
  if skipped file_path then None
  else if str_in (lower (snd (splitext file_path))) PYTHON_EXTS
       then Some Spec.Program
       else Some Spec.Config.

(** The record of a file before it is rated: what the [try] block has
    measured. *)
Definition measured_record (k : Spec.file_kind) (resolved : string) (size : size_info)
           (tokens : Z) (complexity density : Q) (quality : string) : file_data :=
  {| fd_path := Some resolved;
     fd_type := Some (Spec.type_name k);
     fd_size := Some size;
     fd_tokens := Some tokens;
     fd_complexity := Some complexity;
     fd_comment_density := Some density;
     fd_comment_quality := Some quality;
     fd_safety := Some "PENDING";
     fd_recommendations := Some [] |}.

(** The float is not a negative number (a NaN counts as not negative). *)
Definition not_negative (x : Float64.float) : Prop :=
  match x with
  | S754_zero s | S754_infinity s | S754_finite s _ _ => s = false
  | S754_nan => True
  end.

(** A line of [readlines]: characters other than the line feed, then a
    line feed, or no line feed for a last line that is not empty. *)
Definition is_line (line : text) : Prop :=
  exists body,
    ~ In 10%N body
    /\ (line = body ++ [ 10%N ] \/ (line = body /\ body <> [])).

(** [c in s]. *)
Fixpoint has_char (c : ascii) (s : string) : bool :=
  match s with
  | EmptyString => false
  | String d rest => Ascii.eqb d c || has_char c rest
  end.

(** Row [a] may stand before row [b]: its complexity is not smaller, and
    with equal complexities its path is not greater. *)
Definition row_before (a b : file_data) : Prop :=
  (get (fd_complexity b) (int 0) <= get (fd_complexity a) (int 0))%Q
  /\ ((get (fd_complexity a) (int 0) == get (fd_complexity b) (int 0))%Q ->
      forall pa pb, fd_path a = Some pa -> fd_path b = Some pb ->
                    String.leb pa pb = true).

(** The pair [x] may stand before the pair [y]: the key of [y] is not
    smaller. *)
Definition key_before (x y : (Q * string) * file_data) : Prop :=
  key_lt (fst y) (fst x) = false.

(** The names [main] passes on: not the script, and a program or
    configuration extension. *)
Definition wanted (fn : string) : bool :=
  negb (String.eqb fn "report.py")
  && (str_in (lower (snd (splitext fn))) PYTHON_EXTS
      || str_in (lower (snd (splitext fn))) CONFIG_EXTS).

(** The paths [main] hands to [analyze_file], in order. *)
Definition wanted_paths (walk : list (string * list string)) : list string :=
  flat_map (fun entry => map (os_path_join (fst entry)) (filter wanted (snd entry))) walk.

(** Analysing a list of paths in order, keeping what is true. *)
Fixpoint analyze_paths (w : world) (paths : list string) (files : list file_data)
  : outcome (list file_data) :=
  match paths with
  | [] => Return files
  | p :: rest =>
      analysis <- analyze_file w p ;;
      analyze_paths w rest
        (if truthy analysis
         then match analysis with
              | Some d => files ++ [ d ]
              | None => files
              end
         else files)
  end.

(** No file name of the walk has a slash. *)
Definition slash_free (walk : list (string * list string)) : Prop :=
  forall root filenames fn,
    In (root, filenames) walk -> In fn filenames -> has_char "/" fn = false.

(** ** Vocabulary of the accuracy of the density *)

(** [a / b] lies in the interval of [m] and [m + 1], at the place the two
    bits say: on [m], below the middle, on it, or above it. *)
Definition located (a b : Z) (mrs : shr_record) : Prop :=
  (0 < b)%Z /\ (0 <= shr_m mrs)%Z
  /\ (shr_m mrs * b <= a < (shr_m mrs + 1) * b)%Z
  /\ match shr_r mrs, shr_s mrs with
     | false, false => a = (shr_m mrs * b)%Z
     | false, true => (shr_m mrs * b < a)%Z /\ (2 * a < (2 * shr_m mrs + 1) * b)%Z
     | true, false => (2 * a = (2 * shr_m mrs + 1) * b)%Z
     | true, true => ((2 * shr_m mrs + 1) * b < 2 * a)%Z
     end.

Definition pow2 (e : Z) : Q := (2 # 1) ^ e.

(** The relative accuracy [2 ^ -53] of a rounding to nearest, and half the
    smallest positive binary64 number, [2 ^ -1075]. *)
Definition eps : Q := 1 # 9007199254740992.
Definition eta : Q := pow2 (-1075).

(** [x] is within [tol] of [y]. *)
Definition within (x y tol : Q) : Prop := (y - tol <= x <= y + tol)%Q.

(** The percentage of comment tokens among the lines, as an exact
    fraction. *)
Definition exact_percentage (comment_lines total_lines : Z) : Q :=
  (100 * (inject_Z comment_lines / inject_Z total_lines))%Q.

(** The decimal with one digit after the point and the digits [tenths]. *)
Definition one_decimal (tenths : Z) : Q := (inject_Z tenths / 10)%Q.

(** The largest quotient of comment tokens by lines the statements on the
    density consider; the float range ends near 1.8e308. *)
Definition quotient_bound : Z := 10 ^ 280.

(** How far the computed density may be from the exact percentage: half a
    tenth for the rounding to one decimal, and the accuracy [2 ^ -50] of
    the three float operations. *)
Definition density_tolerance (percentage : Q) : Q :=
  ((1 # 20) + (percentage + 1) * (8 * eps))%Q.

(** * Properties *)

(** ** The safety tier resolver *)

Ltac q_cases :=
  repeat match goal with
         | |- context [Qle_bool ?a ?b] =>
             let E := fresh "E" in
             destruct (Qle_bool a b) eqn:E;
             [ apply Qle_bool_iff in E
             | apply not_true_iff_false in E; rewrite Qle_bool_iff in E ]
         end.

(** The code's tier tables are the specification's, with lower-case keys. *)
Lemma tier_table_recognized (k : Spec.file_kind) :
  tier_table (Spec.type_name k)
  = Return (map (fun row => (lower (Spec.tier_name (fst row)), snd row)) (Spec.tiers k)).
Proof. destruct k; reflexivity. Qed.

Lemma base_tier_loop_rows (rows : list (Spec.tier * Z)) (metric : Q) :
  base_tier_loop (map (fun row => (lower (Spec.tier_name (fst row)), snd row)) rows) metric
  = Spec.tier_name
      match find (fun row => Qle_bool metric (inject_Z (snd row))) rows with
      | Some row => fst row
      | None => Spec.DANGER
      end.
Proof.
  induction rows as [| [t threshold] rows IH]; simpl.
  - reflexivity.
  - unfold num_le, int. destruct (Qle_bool metric (inject_Z threshold)).
    + destruct t; reflexivity.
    + exact IH.
Qed.

Lemma base_tier_loop_recognized (k : Spec.file_kind) (table : dict Z) (metric : Q) :
  tier_table (Spec.type_name k) = Return table ->
  base_tier_loop table metric = Spec.tier_name (Spec.base_tier k metric).
Proof.
  rewrite tier_table_recognized. intros [= <-]. apply base_tier_loop_rows.
Qed.

(** On a tier of the scale, [adjust_safety] is the comment adjustment, and
    it never reaches its [except] clause. *)
Lemma adjust_safety_tier (t : Spec.tier) (density : Q) :
  adjust_safety (Spec.tier_name t) density
  = Return (Spec.tier_name (Spec.comment_adjustment t density)).
Proof.
  unfold adjust_safety, Spec.comment_adjustment, num_ge, num_lt, int.
  change (inject_Z 25) with 25%Q. change (inject_Z 10) with 10%Q.
  destruct (Qle_bool 25 density); [| destruct (Qle_bool 10 density)];
    destruct t; reflexivity.
Qed.

Lemma get_safety_rating_recognized (k : Spec.file_kind) (d : file_data) (metric : Q) :
  fd_type d = Some (Spec.type_name k) ->
  Spec.primary_metric k d = Some metric ->
  get_safety_rating d
  = match k with
    | Spec.Program =>
        adjust_safety (Spec.tier_name (Spec.base_tier k metric))
                      (get (fd_comment_density d) (int 0))
    | Spec.Config => Return (Spec.tier_name (Spec.base_tier k metric))
    end.
Proof.
  intros Htype Hmetric. unfold get_safety_rating. rewrite Htype. simpl getitem.
  destruct k; simpl in Hmetric; cbn [bind Spec.type_name String.eqb Ascii.eqb Bool.eqb].
  - rewrite Hmetric. cbn [getitem bind].
    pose proof (tier_table_recognized Spec.Program) as Htable.
    cbn [Spec.type_name] in Htable. rewrite Htable. cbn [bind].
    rewrite base_tier_loop_rows. fold (Spec.base_tier Spec.Program metric).
    rewrite adjust_safety_tier. reflexivity.
  - destruct (fd_size d) as [size |]; [| discriminate].
    simpl in Hmetric. injection Hmetric as <-. cbn [getitem bind].
    pose proof (tier_table_recognized Spec.Config) as Htable.
    cbn [Spec.type_name] in Htable. rewrite Htable. cbn [bind].
    rewrite base_tier_loop_rows. reflexivity.
Qed.

Lemma base_tier_above_ceiling (k : Spec.file_kind) (metric : Q) :
  (inject_Z (Spec.complex_ceiling k) < metric)%Q ->
  Spec.base_tier k metric = Spec.DANGER.
Proof.
  intros H. destruct k; unfold Spec.base_tier; simpl in *; q_cases; try reflexivity;
    unfold inject_Z in *; lra.
Qed.

Lemma base_tier_rank_monotone (k : Spec.file_kind) (m1 m2 : Q) :
  (m1 <= m2)%Q ->
  (Spec.rank (Spec.base_tier k m1) <= Spec.rank (Spec.base_tier k m2))%nat.
Proof.
  intros H. destruct k; unfold Spec.base_tier; simpl; q_cases; simpl; try lia;
    unfold inject_Z in *; lra.
Qed.

Lemma comment_adjustment_rank (t : Spec.tier) (density : Q) :
  ((25 <= density)%Q ->
   Spec.rank (Spec.comment_adjustment t density) = Nat.pred (Spec.rank t))
  /\ ((density < 10)%Q ->
      Spec.rank (Spec.comment_adjustment t density) = Nat.min 3 (S (Spec.rank t)))
  /\ ((10 <= density)%Q -> (density < 25)%Q -> Spec.comment_adjustment t density = t).
Proof.
  unfold Spec.comment_adjustment. q_cases; cbn [negb];
    repeat split; intros; try lra; destruct t; reflexivity.
Qed.

(** C2.  For a recognized file type and its primary metric, the tier table
    of the code lists simple, safe, complex, danger with strictly ascending
    thresholds, and the base tier that [get_safety_rating] computes from it
    is the first tier of the specification's table (15, 35, 55, 56 for a
    program, 1000, 2500, 4000, 4001 KB for a configuration file) whose
    threshold is at least the metric, [DANGER] when there is none; a metric
    strictly above the COMPLEX ceiling (55, resp. 4000 KB) resolves to
    [DANGER]; that base tier is what a configuration file is rated and what
    [adjust_safety] receives for a program file. *)
Theorem base_tier_first_match (k : Spec.file_kind) (d : file_data) (metric : Q) :
  fd_type d = Some (Spec.type_name k) ->
  Spec.primary_metric k d = Some metric ->
  exists table,
    tier_table (Spec.type_name k) = Return table
    /\ map fst table = [ "simple"; "safe"; "complex"; "danger" ]
    /\ StronglySorted Z.lt (map snd table)
    /\ base_tier_loop table metric = Spec.tier_name (Spec.base_tier k metric)
    /\ ((inject_Z (Spec.complex_ceiling k) < metric)%Q ->
        base_tier_loop table metric = "DANGER")
    /\ get_safety_rating d
       = match k with
         | Spec.Program =>
             adjust_safety (base_tier_loop table metric)
                           (get (fd_comment_density d) (int 0))
         | Spec.Config => Return (base_tier_loop table metric)
         end.
Proof.
  intros Htype Hmetric.
  destruct (tier_table (Spec.type_name k)) as [table |] eqn:Htable;
    [| rewrite tier_table_recognized in Htable; discriminate].
  exists table.
  pose proof (base_tier_loop_recognized k table metric Htable) as Hbase.
  split; [reflexivity |].
  split; [rewrite tier_table_recognized in Htable; injection Htable as <-;
          destruct k; reflexivity |].
  split; [rewrite tier_table_recognized in Htable; injection Htable as <-;
          destruct k; simpl; repeat constructor |].
  repeat split.
  - exact Hbase.
  - intros Habove. rewrite Hbase, (base_tier_above_ceiling k metric Habove). reflexivity.
  - rewrite Hbase. apply get_safety_rating_recognized; assumption.
Qed.

(** Scenario C: a configuration file of 5000 KB is rated [DANGER]. *)
Lemma base_tier_first_match_witness :
  get_safety_rating (sample_record "config" 5000 0 0 "PENDING") = Return "DANGER".
Proof.
  destruct (base_tier_first_match Spec.Config (sample_record "config" 5000 0 0 "PENDING")
                                  5000 eq_refl eq_refl)
    as (table & _ & _ & _ & _ & Habove & Hrating).
  rewrite Hrating. f_equal. apply Habove. reflexivity.
Defined.

(** C3.  For a program file the rating is the base tier moved one step
    safer when the comment density is at least 25 (SIMPLE stays SIMPLE), one
    step less safe when it is below 10 (DANGER stays DANGER), and the base
    tier itself otherwise; for a configuration file the rating is the base
    tier.  A record without the [comment_density] key counts as density 0. *)
Theorem comment_adjustment_one_step (k : Spec.file_kind) (d : file_data) (metric : Q) :
  fd_type d = Some (Spec.type_name k) ->
  Spec.primary_metric k d = Some metric ->
  let base := Spec.base_tier k metric in
  let density := get (fd_comment_density d) (int 0) in
  exists table rating,
    tier_table (Spec.type_name k) = Return table
    /\ base_tier_loop table metric = Spec.tier_name base
    /\ get_safety_rating d = Return (Spec.tier_name rating)
    /\ match k with
       | Spec.Program =>
           ((25 <= density)%Q -> Spec.rank rating = Nat.pred (Spec.rank base))
           /\ ((density < 10)%Q -> Spec.rank rating = Nat.min 3 (S (Spec.rank base)))
           /\ ((10 <= density)%Q -> (density < 25)%Q -> rating = base)
       | Spec.Config => rating = base
       end.
Proof.
  intros Htype Hmetric base density.
  rewrite (get_safety_rating_recognized k d metric Htype Hmetric).
  eexists. exists (match k with
                   | Spec.Program => Spec.comment_adjustment base density
                   | Spec.Config => base
                   end).
  split; [apply tier_table_recognized |].
  split; [apply base_tier_loop_rows |].
  destruct k.
  - split; [apply adjust_safety_tier | apply comment_adjustment_rank].
  - split; reflexivity.
Qed.

(** Scenario B: complexity 50 with density 5 is COMPLEX moved to DANGER. *)
Lemma comment_adjustment_one_step_witness :
  get_safety_rating (sample_record "python" 0 50 5 "PENDING") = Return "DANGER".
Proof.
  destruct (comment_adjustment_one_step Spec.Program
              (sample_record "python" 0 50 5 "PENDING") 50 eq_refl eq_refl)
    as (table & rating & _ & _ & Hrating & _ & Hless & _).
  rewrite Hrating. f_equal.
  specialize (Hless eq_refl). destruct rating; try discriminate Hless. reflexivity.
Defined.

(** Scenario A: complexity 10 with density 30 is SIMPLE and stays SIMPLE. *)
Example safety_rating_scenario_a :
  get_safety_rating (sample_record "python" 0 10 30 "PENDING") = Return "SIMPLE".
Proof. reflexivity. Qed.

(** The extra row [danger: 56] decides a metric between 55 and 56; above
    56 the [else] of the loop gives the same answer. *)
Example safety_rating_between_ceilings :
  base_tier_loop [ ("simple", 15); ("safe", 35); ("complex", 55); ("danger", 56) ]%Z (111 # 2)
  = "DANGER"
  /\ base_tier_loop [ ("simple", 15); ("safe", 35); ("complex", 55); ("danger", 56) ]%Z 57
     = "DANGER".
Proof. split; reflexivity. Qed.

(** C6.  For a recognized file type, the base tier the loop resolves is
    monotone in the metric: a larger metric never gives a safer base
    tier.  The comment density plays no part in the lookup. *)
Theorem base_tier_monotone (k : Spec.file_kind) (table : dict Z) (m1 m2 : Q) :
  tier_table (Spec.type_name k) = Return table ->
  (m1 <= m2)%Q ->
  exists t1 t2,
    base_tier_loop table m1 = Spec.tier_name t1
    /\ base_tier_loop table m2 = Spec.tier_name t2
    /\ (Spec.rank t1 <= Spec.rank t2)%nat.
Proof.
  intros Htable Hle.
  exists (Spec.base_tier k m1), (Spec.base_tier k m2).
  repeat split; try (apply base_tier_loop_recognized; exact Htable).
  apply base_tier_rank_monotone; exact Hle.
Qed.

Lemma base_tier_monotone_witness :
  exists t1 t2,
    base_tier_loop [ ("simple", 15); ("safe", 35); ("complex", 55); ("danger", 56) ]%Z 20
    = Spec.tier_name t1
    /\ base_tier_loop [ ("simple", 15); ("safe", 35); ("complex", 55); ("danger", 56) ]%Z 40
       = Spec.tier_name t2
    /\ (Spec.rank t1 <= Spec.rank t2)%nat.
Proof.
  apply (base_tier_monotone Spec.Program _ 20 40 eq_refl). discriminate.
Defined.

(** With the density fixed, the adjusted rating is monotone as well. *)
Lemma comment_adjustment_monotone (t1 t2 : Spec.tier) (density : Q) :
  (Spec.rank t1 <= Spec.rank t2)%nat ->
  (Spec.rank (Spec.comment_adjustment t1 density)
   <= Spec.rank (Spec.comment_adjustment t2 density))%nat.
Proof.
  unfold Spec.comment_adjustment.
  destruct (Qle_bool 25 density); [| destruct (Qle_bool 10 density)];
    destruct t1, t2; simpl; lia.
Qed.

(** The base tier as intervals of the metric, with [c1 < c2 < c3] the
    ceilings of SIMPLE, SAFE and COMPLEX. *)
Lemma base_tier_intervals (k : Spec.file_kind) (metric : Q) :
  let '(c1, c2, c3) :=
    match k with
    | Spec.Program => (15, 35, 55)%Q
    | Spec.Config => (1000, 2500, 4000)%Q
    end in
  ((metric <= c1)%Q -> Spec.base_tier k metric = Spec.SIMPLE)
  /\ ((c1 < metric)%Q -> (metric <= c2)%Q -> Spec.base_tier k metric = Spec.SAFE)
  /\ ((c2 < metric)%Q -> (metric <= c3)%Q -> Spec.base_tier k metric = Spec.COMPLEX)
  /\ ((c3 < metric)%Q -> Spec.base_tier k metric = Spec.DANGER).
Proof.
  destruct k; unfold Spec.base_tier; simpl find; q_cases;
    repeat split; intros; try reflexivity; unfold inject_Z in *; lra.
Qed.

(** [adjust_safety] returns for every string: a rating off the scale comes
    back unchanged through the [except ValueError] clause. *)
Lemma adjust_safety_returns (base_safety : string) (density : Q) :
  exists rating, adjust_safety base_safety density = Return rating.
Proof.
  unfold adjust_safety, safety_order. cbn [list_index].
  destruct (num_ge density (int 25)); [| destruct (num_lt density (int 10))];
    repeat match goal with
           | |- context [String.eqb ?a base_safety] =>
               destruct (String.eqb a base_safety); cbn [bind try_except is_ValueError]
           end;
    eexists; reflexivity.
Qed.

(** The resolver never raises on a record, and its rating is one of the
    four tiers or [ERROR]. *)
Lemma get_safety_rating_range (d : file_data) :
  exists rating,
    get_safety_rating d = Return rating
    /\ In rating [ "SIMPLE"; "SAFE"; "COMPLEX"; "DANGER"; "ERROR" ].
Proof.
  destruct (fd_type d) as [file_type |] eqn:Htype.
  - destruct (String.eqb file_type "python") eqn:Hpy.
    + apply String.eqb_eq in Hpy. subst file_type.
      destruct (fd_complexity d) as [metric |] eqn:Hmetric.
      * rewrite (get_safety_rating_recognized Spec.Program d metric Htype Hmetric).
        rewrite adjust_safety_tier. eexists. split; [reflexivity |].
        destruct (Spec.comment_adjustment _ _); simpl; auto 6.
      * exists "ERROR". unfold get_safety_rating. rewrite Htype, Hmetric.
        split; [reflexivity | simpl; auto 6].
    + destruct (String.eqb file_type "config") eqn:Hcfg.
      * apply String.eqb_eq in Hcfg. subst file_type.
        destruct (fd_size d) as [size |] eqn:Hsize.
        -- rewrite (get_safety_rating_recognized Spec.Config d (size_kb size) Htype);
             [| simpl; rewrite Hsize; reflexivity].
           eexists. split; [reflexivity |].
           destruct (Spec.base_tier _ _); simpl; auto 6.
        -- exists "ERROR". unfold get_safety_rating. rewrite Htype, Hsize.
           split; [reflexivity | simpl; auto 6].
      * exists "ERROR". split; [| simpl; auto 6].
        unfold get_safety_rating. rewrite Htype. cbn [getitem bind]. rewrite Hpy.
        destruct (fd_size d) as [size |]; [| reflexivity]. cbn [getitem bind].
        unfold tier_table, CLAUDE_TOLERANCES. cbn [dict_getitem].
        rewrite String.eqb_sym, Hpy. rewrite String.eqb_sym, Hcfg. reflexivity.
  - exists "ERROR". unfold get_safety_rating. rewrite Htype.
    split; [reflexivity | simpl; auto 6].
Qed.

(** ** The recommendation filter *)

Lemma str_in_In (x : string) (l : list string) : str_in x l = true <-> In x l.
Proof.
  unfold str_in. rewrite existsb_exists. split.
  - intros (y & Hy & Heq). apply String.eqb_eq in Heq. subst y. exact Hy.
  - intros Hx. exists x. split; [exact Hx | apply String.eqb_refl].
Qed.

Lemma recommendation_metric_recognized (k : Spec.file_kind) (d : file_data) :
  recommendation_metric (Spec.type_name k) d = get (Spec.primary_metric k d) (int 0).
Proof. destruct k; reflexivity. Qed.

(** The loop over the registry computes the metric filter. *)
Lemma model_loop_survivors (k : Spec.file_kind) (d : file_data) :
  model_loop AI_THRESHOLDS (Spec.type_name k) d []
  = Return (Spec.survivors k (get (Spec.primary_metric k d) (int 0))).
Proof.
  rewrite <- recommendation_metric_recognized.
  destruct k; cbv -[recommendation_metric Qle_bool inject_Z];
    repeat match goal with
           | |- context [Qle_bool ?a ?b] => destruct (Qle_bool a b)
           end; reflexivity.
Qed.

Lemma get_ai_recommendations_recognized (k : Spec.file_kind) (d : file_data) :
  fd_type d = Some (Spec.type_name k) ->
  get_ai_recommendations d
  = Return (post_filter (get (fd_safety d) "ERROR")
                        (Spec.survivors k (get (Spec.primary_metric k d) (int 0)))).
Proof.
  intros Htype. unfold get_ai_recommendations. rewrite Htype. cbn [get].
  replace (negb (str_in (Spec.type_name k) ["python"; "config"])) with false
    by (destruct k; reflexivity).
  rewrite model_loop_survivors. cbn [bind try_except]. unfold post_filter.
  destruct (String.eqb (get (fd_safety d) "ERROR") "DANGER"); [reflexivity |].
  destruct (String.eqb (get (fd_safety d) "ERROR") "COMPLEX"); reflexivity.
Qed.

Lemma in_order_of_refl {A : Type} (l : list A) : Spec.in_order_of l l.
Proof. induction l; constructor; assumption. Qed.

Lemma in_order_of_filter {A : Type} (p : A -> bool) (l registry : list A) :
  Spec.in_order_of l registry -> Spec.in_order_of (filter p l) registry.
Proof.
  induction 1 as [registry | x l registry _ IH | x l registry _ IH]; simpl.
  - constructor.
  - destruct (p x); constructor; exact IH.
  - constructor; exact IH.
Qed.

Lemma in_order_of_single {A : Type} (x : A) (registry : list A) :
  In x registry -> Spec.in_order_of [x] registry.
Proof.
  induction registry as [| y registry IH]; intros Hin; [contradiction |].
  destruct Hin as [-> | Hin].
  - constructor. constructor.
  - constructor. apply IH. exact Hin.
Qed.

Lemma in_order_of_In {A : Type} (l registry : list A) (x : A) :
  Spec.in_order_of l registry -> In x l -> In x registry.
Proof.
  induction 1 as [registry | y l registry _ IH | y l registry _ IH]; simpl.
  - contradiction.
  - intros [-> | Hin]; [left; reflexivity | right; apply IH; exact Hin].
  - intros Hin. right. apply IH. exact Hin.
Qed.

(** Every surviving model is registered with a threshold the metric does
    not exceed. *)
Lemma survivors_within_threshold (k : Spec.file_kind) (metric : Q) (model : string) :
  In model (Spec.survivors k metric) ->
  In model Spec.registry_models
  /\ exists threshold,
      Spec.model_threshold k model = Some threshold
      /\ (metric <= inject_Z threshold)%Q.
Proof.
  unfold Spec.survivors. rewrite filter_In. intros [Hin Hle]. split; [exact Hin |].
  destruct (Spec.model_threshold k model) as [threshold |]; [| discriminate].
  exists threshold. split; [reflexivity | apply Qle_bool_iff; exact Hle].
Qed.

(** The post-filter only deletes models. *)
Lemma post_filter_keeps_order (safety : string) (l registry : list string) :
  Spec.in_order_of l registry ->
  Spec.in_order_of (post_filter safety l) registry
  /\ forall model, In model (post_filter safety l) -> In model l.
Proof.
  intros Horder. unfold post_filter.
  destruct (String.eqb safety "DANGER").
  - destruct (str_in "claude-3.5-sonnet" l) eqn:Hin.
    + apply str_in_In in Hin. split.
      * apply in_order_of_single. apply (in_order_of_In _ _ _ Horder Hin).
      * intros model [<- | []]. exact Hin.
    + split; [constructor | intros model []].
  - destruct (String.eqb safety "COMPLEX").
    + split; [apply in_order_of_filter; exact Horder |].
      intros model Hin. apply filter_In in Hin. apply Hin.
    + split; [exact Horder | auto].
Qed.

(** C4.  For a recognized file type and any safety value, every model that
    [get_ai_recommendations] returns is registered with a threshold, for
    that file type, that the primary metric does not exceed, and the models
    appear in the order of the registry.  A missing metric counts as 0. *)
Theorem recommendations_within_threshold (k : Spec.file_kind) (d : file_data) :
  fd_type d = Some (Spec.type_name k) ->
  let metric := get (Spec.primary_metric k d) (int 0) in
  exists recommendations,
    get_ai_recommendations d = Return recommendations
    /\ (forall model, In model recommendations ->
          exists threshold,
            Spec.model_threshold k model = Some threshold
            /\ ~ (inject_Z threshold < metric)%Q)
    /\ Spec.in_order_of recommendations Spec.registry_models.
Proof.
  intros Htype metric.
  rewrite (get_ai_recommendations_recognized k d Htype). fold metric.
  eexists. split; [reflexivity |].
  destruct (post_filter_keeps_order (get (fd_safety d) "ERROR")
              (Spec.survivors k metric) Spec.registry_models) as [Horder Hsub].
  { unfold Spec.survivors. apply in_order_of_filter, in_order_of_refl. }
  split; [| exact Horder].
  intros model Hin. apply Hsub in Hin.
  destruct (survivors_within_threshold k metric model Hin) as (_ & threshold & Hthr & Hle).
  exists threshold. split; [exact Hthr | lra].
Qed.

Lemma recommendations_within_threshold_witness :
  exists recommendations,
    get_ai_recommendations (sample_record "python" 0 40 12 "SAFE") = Return recommendations
    /\ (forall model, In model recommendations ->
          exists threshold,
            Spec.model_threshold Spec.Program model = Some threshold
            /\ ~ (inject_Z threshold < 40)%Q)
    /\ Spec.in_order_of recommendations Spec.registry_models.
Proof.
  exact (recommendations_within_threshold Spec.Program
           (sample_record "python" 0 40 12 "SAFE") eq_refl).
Defined.

(** The registry's top-capability model is [claude-3.5-sonnet] and its
    weakest is [claude-3.5-haiku], for either file type. *)
Lemma top_and_weakest_models (k : Spec.file_kind) :
  Spec.top_capability_model k = Some "claude-3.5-sonnet"
  /\ Spec.weakest_capability_model k = Some "claude-3.5-haiku".
Proof. destruct k; split; reflexivity. Qed.

(** C7.  For a recognized file type: rated [DANGER], the filter returns at
    most one model, the top-capability model alone when it survived the
    metric filter and nothing otherwise; rated [COMPLEX], it returns the
    surviving models without the weakest-capability model; rated [SIMPLE] or
    [SAFE], it returns the surviving models unchanged. *)
Theorem post_filter_by_rating (k : Spec.file_kind) (d : file_data) :
  fd_type d = Some (Spec.type_name k) ->
  let remaining := Spec.survivors k (get (Spec.primary_metric k d) (int 0)) in
  exists top weakest recommendations,
    Spec.top_capability_model k = Some top
    /\ Spec.weakest_capability_model k = Some weakest
    /\ get_ai_recommendations d = Return recommendations
    /\ (fd_safety d = Some "DANGER" ->
        (List.length recommendations <= 1)%nat
        /\ (In top remaining -> recommendations = [ top ])
        /\ (~ In top remaining -> recommendations = []))
    /\ (fd_safety d = Some "COMPLEX" ->
        recommendations = filter (fun model => negb (String.eqb model weakest)) remaining)
    /\ (fd_safety d = Some "SIMPLE" \/ fd_safety d = Some "SAFE" ->
        recommendations = remaining).
Proof.
  intros Htype remaining.
  destruct (top_and_weakest_models k) as [Htop Hweak].
  exists "claude-3.5-sonnet", "claude-3.5-haiku".
  rewrite (get_ai_recommendations_recognized k d Htype). fold remaining.
  eexists. split; [exact Htop |]. split; [exact Hweak |]. split; [reflexivity |].
  split; [| split].
  - intros Hs. rewrite Hs. cbn [get]. unfold post_filter. simpl String.eqb.
    destruct (str_in "claude-3.5-sonnet" remaining) eqn:Hin.
    + repeat split; [simpl; lia |].
      intros Hout. apply str_in_In in Hin. contradiction.
    + repeat split; [simpl; lia |].
      intros Hyes. apply str_in_In in Hyes. congruence.
  - intros Hs. rewrite Hs. reflexivity.
  - intros [Hs | Hs]; rewrite Hs; reflexivity.
Qed.

(** Scenario B, continued: complexity 50 rated [DANGER] keeps the top
    model only. *)
Lemma post_filter_by_rating_witness :
  get_ai_recommendations (sample_record "python" 0 50 5 "DANGER")
  = Return [ "claude-3.5-sonnet" ].
Proof.
  destruct (post_filter_by_rating Spec.Program (sample_record "python" 0 50 5 "DANGER")
              eq_refl)
    as (top & weakest & recommendations & Htop & _ & Hrec & Hdanger & _).
  injection Htop as <-.
  destruct (Hdanger eq_refl) as (_ & Hin & _).
  rewrite Hrec, Hin; [reflexivity |]. left. reflexivity.
Defined.

(** C9.  A record whose file type is neither [python] nor [config], a
    missing [type] key included, gets exactly [["Human Review"]], whatever
    its metric and its safety value. *)
Theorem unrecognized_type_human_review (d : file_data) :
  get (fd_type d) "unknown" <> "python" ->
  get (fd_type d) "unknown" <> "config" ->
  get_ai_recommendations d = Return [ "Human Review" ].
Proof.
  intros Hp Hc. unfold get_ai_recommendations.
  apply String.eqb_neq in Hp, Hc. cbn [str_in existsb]. rewrite Hp, Hc. reflexivity.
Qed.

Lemma unrecognized_type_human_review_witness :
  get_ai_recommendations (record_of_type (Some "other") 99 "DANGER")
  = Return [ "Human Review" ]
  /\ get_ai_recommendations (record_of_type None 3 "SIMPLE") = Return [ "Human Review" ].
Proof.
  split; apply unrecognized_type_human_review; discriminate.
Defined.

(** C10.  For a recognized file type, a safety value other than [DANGER]
    and [COMPLEX], the [ERROR] of a failed resolver and a missing [safety]
    key included, leaves the metric-filtered list as it is; that list holds
    registry models only, so it is neither [["Human Review"]] nor
    [["Analysis Failed"]]. *)
Theorem post_filter_ignores_other_ratings (k : Spec.file_kind) (d : file_data) :
  fd_type d = Some (Spec.type_name k) ->
  get (fd_safety d) "ERROR" <> "DANGER" ->
  get (fd_safety d) "ERROR" <> "COMPLEX" ->
  get_ai_recommendations d
  = Return (Spec.survivors k (get (Spec.primary_metric k d) (int 0)))
  /\ get_ai_recommendations d <> Return [ "Human Review" ]
  /\ get_ai_recommendations d <> Return [ "Analysis Failed" ].
Proof.
  intros Htype Hd Hc.
  assert (Hrec : get_ai_recommendations d
                 = Return (Spec.survivors k (get (Spec.primary_metric k d) (int 0)))).
  { rewrite (get_ai_recommendations_recognized k d Htype). unfold post_filter.
    apply String.eqb_neq in Hd, Hc. rewrite Hd, Hc. reflexivity. }
  split; [exact Hrec |].
  rewrite Hrec.
  split; intros [= Heq];
    assert (Hin : In "Human Review" Spec.registry_models
                  \/ In "Analysis Failed" Spec.registry_models)
      by (match type of Heq with
          | _ = [ ?s ] =>
              assert (Hs : In s (Spec.survivors k (get (Spec.primary_metric k d) (int 0))))
                by (rewrite Heq; left; reflexivity);
              apply survivors_within_threshold in Hs; destruct Hs as [Hs _];
              first [left; exact Hs | right; exact Hs]
          end);
    destruct Hin as [Hin | Hin]; simpl in Hin;
    repeat (destruct Hin as [Hin | Hin]; [discriminate Hin |]); exact Hin.
Qed.

(** The resolver fails on a program record without its metric, and the
    filter then recommends every model. *)
Lemma post_filter_ignores_other_ratings_witness :
  get_safety_rating (record_without_metric None) = Return "ERROR"
  /\ get_ai_recommendations (record_without_metric (Some "ERROR"))
     = Return [ "claude-3.5-sonnet"; "claude-3.5-haiku"; "gpt-4-turbo" ].
Proof.
  split; [reflexivity |].
  destruct (post_filter_ignores_other_ratings Spec.Program
              (record_without_metric (Some "ERROR")) eq_refl) as (Hrec & _).
  - discriminate.
  - discriminate.
  - rewrite Hrec. reflexivity.
Defined.

(** The filter never raises on a record, and never reaches its own
    [except] clause: the registry has both threshold keys for every model. *)
Lemma get_ai_recommendations_returns (d : file_data) :
  exists recommendations,
    get_ai_recommendations d = Return recommendations
    /\ recommendations <> [ "Analysis Failed" ].
Proof.
  destruct (str_in (get (fd_type d) "unknown") [ "python"; "config" ]) eqn:Hknown.
  - assert (Hkind : exists k, get (fd_type d) "unknown" = Spec.type_name k).
    { apply str_in_In in Hknown. destruct Hknown as [H | [H | []]].
      - exists Spec.Program. symmetry. exact H.
      - exists Spec.Config. symmetry. exact H. }
    destruct Hkind as [k Hk].
    assert (Htype : fd_type d = Some (Spec.type_name k)).
    { destruct (fd_type d) as [file_type |]; simpl in Hk.
      - rewrite Hk. reflexivity.
      - destruct k; discriminate Hk. }
    rewrite (get_ai_recommendations_recognized k d Htype).
    eexists. split; [reflexivity |]. intros Heq.
    assert (Hin : In "Analysis Failed"
                     (post_filter (get (fd_safety d) "ERROR")
                        (Spec.survivors k (get (Spec.primary_metric k d) (int 0)))))
      by (rewrite Heq; left; reflexivity).
    destruct (post_filter_keeps_order (get (fd_safety d) "ERROR")
                (Spec.survivors k (get (Spec.primary_metric k d) (int 0)))
                Spec.registry_models) as [_ Hsub].
    { unfold Spec.survivors. apply in_order_of_filter, in_order_of_refl. }
    apply Hsub, survivors_within_threshold in Hin. destruct Hin as [Hin _].
    simpl in Hin. repeat (destruct Hin as [Hin | Hin]; [discriminate Hin |]). exact Hin.
  - exists [ "Human Review" ]. unfold get_ai_recommendations. rewrite Hknown.
    split; [reflexivity | discriminate].
Qed.

(** ** Signs of the floats *)

Lemma value_not_negative (x : Float64.float) :
  not_negative x -> (0 <= Float64.value x)%Q.
Proof.
  destruct x as [s | s | | s m e]; simpl; try (intros _; apply Qle_refl).
  intros ->. apply Qmult_le_0_compat.
  - unfold Qle. simpl. lia.
  - apply Qpower_0_le. discriminate.
Qed.

Lemma binary_round_aux_not_negative (m e : Z) (l : location) :
  not_negative (binary_round_aux Float64.prec Float64.emax false m e l).
Proof.
  unfold binary_round_aux.
  destruct (shr_fexp _ _ m e l) as [mrs' e'].
  destruct (shr_fexp _ _ _ e' loc_Exact) as [mrs'' e''].
  destruct (shr_m mrs''); simpl; trivial.
  destruct (Z.leb e'' _); reflexivity.
Qed.

Lemma of_ratio_not_negative (n : Z) (d : positive) :
  (0 <= n)%Z -> not_negative (Float64.of_ratio n d).
Proof.
  intros Hn. destruct n as [| m | m]; [reflexivity | | lia].
  unfold Float64.of_ratio, SFdiv.
  destruct (SFdiv_core_binary _ _ _ _ _ _) as [[mz ez] lz].
  apply binary_round_aux_not_negative.
Qed.

Lemma truediv_not_negative (a b : Z) (q : Float64.float) :
  (0 <= a)%Z -> (0 < b)%Z -> Float64.truediv a b = Return q -> not_negative q.
Proof.
  intros Ha Hb. unfold Float64.truediv. destruct b as [| d | d]; try lia.
  destruct (Float64.is_finite _); [| discriminate].
  intros [= <-]. apply of_ratio_not_negative. exact Ha.
Qed.

Lemma mul_int_not_negative (x : Float64.float) (n : Z) :
  not_negative x -> (0 <= n)%Z -> not_negative (Float64.mul_int x n).
Proof.
  intros Hx Hn. unfold Float64.mul_int, Float64.of_int.
  pose proof (of_ratio_not_negative n 1 Hn) as Hy.
  destruct x as [sx | sx | | sx mx ex], (Float64.of_ratio n 1) as [sy | sy | | sy my ey];
    simpl in *; subst; trivial.
  apply binary_round_aux_not_negative.
Qed.

Lemma round_half_even_not_negative (q : Q) :
  (0 <= q)%Q -> (0 <= Float64.round_half_even q)%Z.
Proof.
  intros Hq. unfold Float64.round_half_even.
  assert (Hf : (0 <= Qfloor q)%Z).
  { change 0%Z with (Qfloor 0). apply Qfloor_resp_le. exact Hq. }
  destruct (Qcompare _ _); [destruct (Z.even _) | |]; lia.
Qed.

Lemma round_value_not_negative (x : Float64.float) (ndigits : nat) :
  not_negative x -> (0 <= Float64.value (Float64.round x ndigits))%Q.
Proof.
  intros Hx. unfold Float64.round.
  destruct (Float64.is_finite x); [| apply value_not_negative; exact Hx].
  apply value_not_negative, of_ratio_not_negative, round_half_even_not_negative.
  apply Qmult_le_0_compat; [apply value_not_negative; exact Hx |].
  unfold Qle. simpl. lia.
Qed.

(** ** The accuracy of the float operations *)

(** One shift to the right halves the unit and keeps the place. *)
Lemma shr_1_located (a b : Z) (mrs : shr_record) :
  located a b mrs -> located a (2 * b) (shr_1 mrs).
Proof.
  destruct mrs as [m r s]. unfold located. cbn [shr_m shr_r shr_s].
  intros (Hb & Hm & Hin & Hloc).
  destruct m as [| p | p]; [| | lia].
  - destruct r, s; cbn [shr_1 shr_m shr_r shr_s orb]; lia.
  - destruct p as [p | p |].
    + rewrite Pos2Z.inj_xI in Hin, Hloc.
      destruct r, s; cbn [shr_1 shr_m shr_r shr_s orb]; lia.
    + rewrite Pos2Z.inj_xO in Hin, Hloc.
      destruct r, s; cbn [shr_1 shr_m shr_r shr_s orb]; lia.
    + destruct r, s; cbn [shr_1 shr_m shr_r shr_s orb]; lia.
Qed.

(** So do [p] shifts, with the unit divided by [2 ^ p]. *)
Lemma iter_shr_1_located (p : positive) (a b : Z) (mrs : shr_record) :
  located a b mrs -> located a (2 ^ Zpos p * b) (iter_pos shr_1 p mrs).
Proof.
  revert a b mrs. induction p as [p IH | p IH |]; intros a b mrs H; cbn [iter_pos].
  - apply shr_1_located, IH, IH in H.
    replace (2 ^ Zpos p~1 * b)%Z with (2 ^ Zpos p * (2 ^ Zpos p * (2 * b)))%Z; [exact H |].
    rewrite (Pos2Z.inj_xI p), Z.pow_add_r, Z.pow_mul_r by lia.
    change (2 ^ 2)%Z with 4%Z. rewrite Z.pow_1_r.
    replace (4 ^ Zpos p)%Z with (2 ^ Zpos p * 2 ^ Zpos p)%Z; [ring |].
    rewrite <- Z.pow_mul_l. reflexivity.
  - apply IH, IH in H.
    replace (2 ^ Zpos p~0 * b)%Z with (2 ^ Zpos p * (2 ^ Zpos p * b))%Z; [exact H |].
    rewrite (Pos2Z.inj_xO p), Z.pow_mul_r by lia.
    change (2 ^ 2)%Z with 4%Z.
    replace (4 ^ Zpos p)%Z with (2 ^ Zpos p * 2 ^ Zpos p)%Z; [ring |].
    rewrite <- Z.pow_mul_l. reflexivity.
  - apply shr_1_located in H. exact H.
Qed.

(** [digits2_pos] counts the binary digits. *)
Lemma digits2_pos_bounds (p : positive) :
  (2 ^ (Zpos (digits2_pos p) - 1) <= Zpos p < 2 ^ Zpos (digits2_pos p))%Z.
Proof.
  induction p as [p IH | p IH |]; cbn [digits2_pos].
  - rewrite Pos2Z.inj_succ, (Pos2Z.inj_xI p).
    replace (Z.succ (Zpos (digits2_pos p)) - 1)%Z
      with (Z.succ (Zpos (digits2_pos p) - 1))%Z by lia.
    rewrite !Z.pow_succ_r by lia. lia.
  - rewrite Pos2Z.inj_succ, (Pos2Z.inj_xO p).
    replace (Z.succ (Zpos (digits2_pos p)) - 1)%Z
      with (Z.succ (Zpos (digits2_pos p) - 1))%Z by lia.
    rewrite !Z.pow_succ_r by lia. lia.
  - simpl. lia.
Qed.

Lemma Zdigits2_not_negative (m : Z) : (0 <= Zdigits2 m)%Z.
Proof. destruct m; simpl; lia. Qed.

Lemma Zdigits2_upper (m : Z) : (0 <= m)%Z -> (m + 1 <= 2 ^ Zdigits2 m)%Z.
Proof.
  destruct m as [| p | p]; intros Hm; [simpl; lia | | lia].
  pose proof (digits2_pos_bounds p). cbn [Zdigits2]. lia.
Qed.

Lemma Zdigits2_lower (m : Z) : (0 < m)%Z -> (2 ^ (Zdigits2 m - 1) <= m)%Z.
Proof.
  destruct m as [| p | p]; intros Hm; [lia | | lia].
  pose proof (digits2_pos_bounds p). cbn [Zdigits2]. lia.
Qed.

Lemma Zdigits2_le (m k : Z) : (0 <= k)%Z -> (0 <= m < 2 ^ k)%Z -> (Zdigits2 m <= k)%Z.
Proof.
  intros Hk [Hm Hlt].
  destruct (Z.eq_dec m 0) as [-> | Hne]; [simpl; lia |].
  pose proof (Zdigits2_lower m ltac:(lia)) as Hlow.
  pose proof (Zdigits2_not_negative m) as Hd.
  destruct (Z_le_gt_dec (Zdigits2 m) k) as [Hle | Hgt]; [exact Hle |].
  assert (2 ^ k <= 2 ^ (Zdigits2 m - 1))%Z by (apply Z.pow_le_mono_r; lia).
  lia.
Qed.

(** Rounding to nearest, ties to even, moves by at most half a unit. *)
Lemma round_nearest_even_located (a b : Z) (mrs : shr_record) :
  located a b mrs ->
  let mr := round_nearest_even (shr_m mrs) (loc_of_shr_record mrs) in
  (shr_m mrs <= mr <= shr_m mrs + 1)%Z
  /\ (- b <= 2 * (mr * b - a) <= b)%Z.
Proof.
  destruct mrs as [m r s]. unfold located. cbn [shr_m shr_r shr_s].
  intros (Hb & Hm & Hin & Hloc).
  destruct r, s; cbn [loc_of_shr_record round_nearest_even]; try lia.
  destruct (Z.even m); lia.
Qed.

(** The remainder of a division as a place between two quotients. *)
Lemma new_location_located (a b : Z) :
  (0 <= a)%Z -> (0 < b)%Z ->
  located a b (shr_record_of_loc (fst (Z.div_eucl a b)) (new_location b (snd (Z.div_eucl a b)))).
Proof.
  intros Ha Hb.
  pose proof (Z_div_mod a b ltac:(lia)) as Hdiv.
  destruct (Z.div_eucl a b) as [q r]. destruct Hdiv as [Heq Hr]. cbn [fst snd].
  assert (Hq : (0 <= q)%Z) by nia.
  unfold new_location, new_location_even, new_location_odd, located.
  destruct (Z.even b) eqn:Heven.
  - destruct (Z.eqb_spec r 0) as [-> | Hne].
    + cbn [shr_record_of_loc shr_m shr_r shr_s]. lia.
    + destruct (Z.compare_spec (2 * r) b) as [Hc | Hc | Hc];
        cbn [shr_record_of_loc shr_m shr_r shr_s]; lia.
  - assert (Hodd : forall k, (2 * k <> b)%Z).
    { intros k Hk. rewrite <- Hk, Z.even_mul in Heven. discriminate. }
    destruct (Z.eqb_spec r 0) as [-> | Hne].
    + cbn [shr_record_of_loc shr_m shr_r shr_s]. lia.
    + destruct (Z.compare_spec (2 * r + 1) b) as [Hc | Hc | Hc];
        cbn [shr_record_of_loc shr_m shr_r shr_s]; try lia.
      specialize (Hodd r). lia.
Qed.

(** The exponent of the format for a number with its highest digit at
    position [e]. *)
Lemma fexp_binary64 (e : Z) :
  fexp Float64.prec Float64.emax e = Z.max (e - 53) (-1074).
Proof. reflexivity. Qed.

(** The two shifts of [binary_round_aux]: the first brings the mantissa to
    the exponent of the format, the rounding moves it by at most half a
    unit there, and the second only halves a mantissa that the rounding has
    carried to [2 ^ 53]. *)
Lemma binary_round_aux_rounded (a b m e : Z) (l : location) :
  located a b (shr_record_of_loc m l) ->
  (e <= fexp Float64.prec Float64.emax (Zdigits2 m + e))%Z ->
  let e1 := fexp Float64.prec Float64.emax (Zdigits2 m + e) in
  exists mr : Z,
    (0 <= mr)%Z
    /\ (- (2 ^ (e1 - e) * b) <= 2 * (mr * (2 ^ (e1 - e) * b) - a) <= 2 ^ (e1 - e) * b)%Z
    /\ ((mr = 0%Z /\ binary_round_aux Float64.prec Float64.emax false m e l = S754_zero false)
        \/ exists (m2 : positive) (e2 : Z),
             (e1 <= e2)%Z /\ (Zpos m2 * 2 ^ (e2 - e1) = mr)%Z
             /\ binary_round_aux Float64.prec Float64.emax false m e l
                = if (e2 <=? 971)%Z then S754_finite false m2 e2 else S754_infinity false).
Proof.
  intros Hloc He e1.
  assert (Hm : (0 <= m)%Z /\ (0 < b)%Z /\ (m * b <= a < (m + 1) * b)%Z).
  { destruct Hloc as (Hb & Hm & Hin & _). destruct l as [| []]; cbn in Hm, Hin; lia. }
  destruct Hm as (Hm & Hb & Hin).
  pose proof (Zdigits2_not_negative m) as Hd.
  pose proof (Zdigits2_upper m Hm) as Hup.
  assert (He1 : (-1074 <= e1)%Z) by (unfold e1; rewrite fexp_binary64; lia).
  assert (Hn : (0 <= e1 - e)%Z) by (unfold e1; lia).
  assert (Hdn : (Zdigits2 m <= e1 - e + 53)%Z) by (unfold e1; rewrite fexp_binary64; lia).
  unfold binary_round_aux, shr_fexp. fold e1.
  (* the first shift *)
  assert (Hfirst : exists mrs1,
             shr (shr_record_of_loc m l) e (e1 - e) = (mrs1, e1)
             /\ located a (2 ^ (e1 - e) * b) mrs1).
  { unfold shr. destruct (e1 - e)%Z as [| p | p] eqn:Hp; [| | lia].
    - exists (shr_record_of_loc m l). split; [f_equal; lia |].
      rewrite Z.pow_0_r, Z.mul_1_l. exact Hloc.
    - exists (iter_pos shr_1 p (shr_record_of_loc m l)). split; [f_equal; lia |].
      apply iter_shr_1_located. exact Hloc. }
  destruct Hfirst as (mrs1 & -> & Hloc1).
  set (B := (2 ^ (e1 - e) * b)%Z) in *.
  assert (HB : (0 < 2 ^ (e1 - e))%Z) by (apply Z.pow_pos_nonneg; lia).
  destruct (round_nearest_even_located a B mrs1 Hloc1) as (Hmr & Herr).
  set (mr := round_nearest_even (shr_m mrs1) (loc_of_shr_record mrs1)) in *.
  assert (Hm1 : (0 <= shr_m mrs1 < 2 ^ 53)%Z).
  { destruct Hloc1 as (_ & Hm1 & Hin1 & _). split; [exact Hm1 |].
    assert (shr_m mrs1 * 2 ^ (e1 - e) < 2 ^ Zdigits2 m)%Z by (unfold B in Hin1; nia).
    assert (2 ^ Zdigits2 m <= 2 ^ (e1 - e + 53))%Z by (apply Z.pow_le_mono_r; lia).
    rewrite Z.pow_add_r in * by lia. nia. }
  exists mr. split; [lia |]. split; [exact Herr |].
  destruct (Z.eq_dec mr 0) as [Hzero | Hnz].
  - left. split; [exact Hzero |]. rewrite Hzero. cbn [Zdigits2 Z.add].
    unfold shr_record_of_loc, shr. rewrite fexp_binary64.
    destruct (Z.max (e1 - 53) (-1074) - e1)%Z eqn:Hp; try reflexivity. lia.
  - right.
    destruct (Z.eq_dec mr (2 ^ 53)) as [Htop | Hlow].
    + exists (Z.to_pos (2 ^ 52)), (e1 + 1)%Z.
      split; [lia |]. split; [rewrite Htop; replace (e1 + 1 - e1)%Z with 1%Z by lia; reflexivity |].
      rewrite Htop. change (Zdigits2 (2 ^ 53)) with 54%Z.
      rewrite fexp_binary64. replace (Z.max (54 + e1 - 53) (-1074) - e1)%Z with 1%Z by lia.
      reflexivity.
    + assert (Hpos : (0 < mr < 2 ^ 53)%Z) by lia.
      exists (Z.to_pos mr), e1.
      split; [lia |]. split; [rewrite Z.sub_diag, Z.mul_1_r, Z2Pos.id; lia |].
      pose proof (Zdigits2_le mr 53 ltac:(lia) ltac:(lia)) as Hdig.
      rewrite fexp_binary64.
      unfold shr_record_of_loc, shr.
      destruct (Z.max (Zdigits2 mr + e1 - 53) (-1074) - e1)%Z eqn:Hp; [| lia |];
        cbn [shr_m]; destruct mr; try lia; reflexivity.
Qed.

Lemma pow2_pos (e : Z) : (0 < pow2 e)%Q.
Proof. apply Qpower_0_lt. reflexivity. Qed.

Lemma pow2_plus (e1 e2 : Z) : (pow2 (e1 + e2) == pow2 e1 * pow2 e2)%Q.
Proof. apply Qpower_plus. discriminate. Qed.

Lemma pow2_Z (n : Z) : (0 <= n)%Z -> (pow2 n == inject_Z (2 ^ n))%Q.
Proof. intros Hn. unfold pow2. rewrite (Zpower_Qpower 2 n Hn). reflexivity. Qed.

Lemma pow2_le (e1 e2 : Z) : (e1 <= e2)%Z -> (pow2 e1 <= pow2 e2)%Q.
Proof.
  intros H. replace e2 with (e1 + (e2 - e1))%Z by lia. rewrite pow2_plus.
  assert (1 <= pow2 (e2 - e1))%Q by (apply Qpower_1_le; [discriminate | lia]).
  pose proof (pow2_pos e1). nra.
Qed.

Lemma eps_pow2 : (eps == pow2 (-53))%Q.
Proof. reflexivity. Qed.

Lemma eta_small : (0 < eta)%Q /\ (eta <= 1 # 1024)%Q.
Proof.
  split; [apply pow2_pos |].
  change (1 # 1024)%Q with (pow2 (-10)). apply pow2_le. lia.
Qed.

Lemma Q_of_Z_le (x y : Z) : (x <= y)%Z -> (inject_Z x <= inject_Z y)%Q.
Proof. intros H. rewrite <- Zle_Qle. exact H. Qed.

Lemma quotient_times (a b : Z) : (0 < b)%Z -> (inject_Z a / inject_Z b * inject_Z b == inject_Z a)%Q.
Proof.
  intros Hb. field. intros H. 
  assert (inject_Z 0 < inject_Z b)%Q by (rewrite <- Zlt_Qlt; exact Hb).
  change (inject_Z 0) with 0%Q in *. lra.
Qed.

(** The rounded number is within the relative accuracy [eps] of the
    number [a / b * 2 ^ e] it is computed from, or within [eta] of it below
    the normal range; it is infinite only for a number of at least
    [2 ^ 971]. *)
Lemma binary_round_aux_error (a b m e : Z) (l : location) :
  located a b (shr_record_of_loc m l) ->
  (e <= fexp Float64.prec Float64.emax (Zdigits2 m + e))%Z ->
  let X := (inject_Z a / inject_Z b * pow2 e)%Q in
  let res := binary_round_aux Float64.prec Float64.emax false m e l in
  (Float64.is_finite res = true /\ within (Float64.value res) X (X * eps + eta))
  \/ (res = S754_infinity false /\ (pow2 971 <= X)%Q).
Proof.
  intros Hloc He X res.
  destruct (binary_round_aux_rounded a b m e l Hloc He) as (mr & Hmr & Herr & Hres).
  assert (Hm : (0 <= m)%Z /\ (0 < b)%Z /\ (m * b <= a)%Z).
  { destruct Hloc as (Hb & Hm & Hin & _). destruct l as [| []]; cbn in Hm, Hin; lia. }
  destruct Hm as (Hm & Hb & Hin).
  set (e1 := fexp Float64.prec Float64.emax (Zdigits2 m + e)) in *.
  assert (Hn : (0 <= e1 - e)%Z) by lia.
  pose proof (pow2_pos e) as HPe.
  pose proof (pow2_Z (e1 - e) Hn) as HN.
  assert (F3 : (pow2 e1 == inject_Z (2 ^ (e1 - e)) * pow2 e)%Q).
  { replace e1 with ((e1 - e) + e)%Z at 1 by lia. rewrite pow2_plus, HN. reflexivity. }
  clear HN.
  assert (HNpos : (1 <= inject_Z (2 ^ (e1 - e)))%Q).
  { change 1%Q with (inject_Z 1). apply Q_of_Z_le.
    assert (0 < 2 ^ (e1 - e))%Z by (apply Z.pow_pos_nonneg; lia). lia. }
  pose proof (quotient_times a b Hb) as HY.
  assert (Hb' : (0 < inject_Z b)%Q) by (change 0%Q with (inject_Z 0); rewrite <- Zlt_Qlt; exact Hb).
  assert (Ha' : (inject_Z m * inject_Z b <= inject_Z a)%Q)
    by (rewrite <- inject_Z_mult; apply Q_of_Z_le; exact Hin).
  assert (Hm' : (0 <= inject_Z m)%Q) by (change 0%Q with (inject_Z 0); apply Q_of_Z_le; exact Hm).
  assert (Hmr' : (0 <= inject_Z mr)%Q) by (change 0%Q with (inject_Z 0); apply Q_of_Z_le; exact Hmr).
  destruct Herr as [Hlo Hhi].
  assert (Hlo' : (2 * inject_Z a <= 2 * inject_Z mr * inject_Z (2 ^ (e1 - e)) * inject_Z b
                                   + inject_Z (2 ^ (e1 - e)) * inject_Z b)%Q).
  { change 2%Q with (inject_Z 2).
    rewrite <- !inject_Z_mult, <- inject_Z_plus. apply Q_of_Z_le. lia. }
  assert (Hhi' : (2 * inject_Z mr * inject_Z (2 ^ (e1 - e)) * inject_Z b
                  <= 2 * inject_Z a + inject_Z (2 ^ (e1 - e)) * inject_Z b)%Q).
  { change 2%Q with (inject_Z 2).
    rewrite <- !inject_Z_mult, <- inject_Z_plus. apply Q_of_Z_le. lia. }
  clear Hlo Hhi.
  set (Y := (inject_Z a / inject_Z b)%Q) in *.
  set (N := inject_Z (2 ^ (e1 - e))) in *.
  set (M := inject_Z mr) in *.
  set (Pe := pow2 e) in *.
  set (b' := inject_Z b) in *.
  assert (HYm : (inject_Z m <= Y)%Q).
  { apply (Qmult_le_r _ _ b' Hb'). rewrite HY. exact Ha'. }
  assert (F1a : (2 * Y <= 2 * M * N + N)%Q).
  { apply (Qmult_le_r _ _ b' Hb').
    setoid_replace (2 * Y * b')%Q with (2 * (Y * b'))%Q by ring. rewrite HY.
    setoid_replace ((2 * M * N + N) * b')%Q with (2 * M * N * b' + N * b')%Q by ring.
    exact Hlo'. }
  assert (F1b : (2 * M * N <= 2 * Y + N)%Q).
  { apply (Qmult_le_r _ _ b' Hb').
    setoid_replace ((2 * Y + N) * b')%Q with (2 * (Y * b') + N * b')%Q by ring. rewrite HY.
    exact Hhi'. }
  assert (HX0 : (0 <= X)%Q).
  { unfold X. fold Y Pe. assert (0 <= Y)%Q by lra. nra. }
  assert (F2 : (N * Pe <= 2 * (X * eps + eta))%Q).
  { unfold e1 in Hn, F3. rewrite fexp_binary64 in Hn, F3.
    destruct (Z.max_spec (Zdigits2 m + e - 53) (-1074)) as [[Hcmp Hmax] | [Hcmp Hmax]].
    - fold e1 in F3. rewrite Hmax in F3.
      assert (Hsub : (pow2 (-1074) == 2 * eta)%Q) by reflexivity.
      assert (0 <= X * eps)%Q by (unfold eps; nra).
      rewrite Hsub in F3. set (t := eta) in *. clearbody t. lra.
    - assert (Hmpos : (0 < m)%Z).
      { destruct (Z.eq_dec m 0) as [-> | Hne]; [simpl in *; lia | lia]. }
      pose proof (Zdigits2_lower m Hmpos) as Hlow.
      assert (Hpow : (2 ^ (e1 - e) * 2 ^ 52 <= m)%Z).
      { rewrite <- Z.pow_add_r by lia.
        replace (e1 - e + 52)%Z with (Zdigits2 m - 1)%Z; [exact Hlow |].
        unfold e1. rewrite fexp_binary64. lia. }
      apply Q_of_Z_le in Hpow. rewrite inject_Z_mult in Hpow. fold N in Hpow.
      change (inject_Z (2 ^ 52)) with (4503599627370496 # 1)%Q in Hpow.
      assert (N * (4503599627370496 # 1) <= Y)%Q by lra.
      assert (0 <= eta)%Q by (apply Qlt_le_weak, eta_small).
      assert (0 <= (Y - N * (4503599627370496 # 1)) * Pe)%Q
        by (apply Qmult_le_0_compat; lra).
      unfold X. fold Y Pe. unfold eps.
      set (t := eta) in *. clearbody t.
      clear - H H0 H1 HPe. clearbody Y Pe N. lra. }
  assert (Hwithin : within (M * pow2 e1) X (X * eps + eta)).
  { unfold within. rewrite F3. fold N Pe. unfold X. fold Y Pe.
    unfold X in F2. fold Y Pe in F2.
    assert (G1 : (0 <= (2 * M * N + N - 2 * Y) * Pe)%Q)
      by (apply Qmult_le_0_compat; lra).
    assert (G2 : (0 <= (2 * Y + N - 2 * M * N) * Pe)%Q)
      by (apply Qmult_le_0_compat; lra).
    set (t := eta) in *. clearbody t. unfold eps in *.
    clear - F2 G1 G2. clearbody Y Pe N M. split; lra. }
  destruct Hres as [[Hzero Hres] | (m2 & e2 & He2 & Hm2 & Hres)].
  - left. fold res in Hres. rewrite Hres. split; [reflexivity |].
    unfold within in *. cbn [Float64.value].
    unfold M in Hwithin. rewrite Hzero in Hwithin.
    setoid_replace (inject_Z 0 * pow2 e1)%Q with 0%Q in Hwithin by ring. exact Hwithin.
  - fold res in Hres.
    assert (Hval : (inject_Z (Zpos m2) * pow2 e2 == M * pow2 e1)%Q).
    { unfold M. rewrite <- Hm2, inject_Z_mult, <- (pow2_Z (e2 - e1)) by lia.
      replace e2 with ((e2 - e1) + e1)%Z at 1 by lia. rewrite pow2_plus. ring. }
    destruct (e2 <=? 971)%Z eqn:Hleb.
    + left. rewrite Hres. split; [reflexivity |].
      unfold within in *. cbn [Float64.value]. fold (pow2 e2). rewrite Hval. exact Hwithin.
    + right. split; [exact Hres |].
      apply Z.leb_gt in Hleb.
      assert (Hbig : (2 * pow2 971 <= M * pow2 e1)%Q).
      { rewrite <- Hval.
        assert (pow2 972 <= pow2 e2)%Q by (apply pow2_le; lia).
        assert (pow2 972 == 2 * pow2 971)%Q.
        { replace 972%Z with (1 + 971)%Z by lia. rewrite pow2_plus. reflexivity. }
        assert (1 <= inject_Z (Zpos m2))%Q
          by (change 1%Q with (inject_Z 1); apply Q_of_Z_le; lia).
        pose proof (pow2_pos e2). nra. }
      assert (1 <= pow2 971)%Q by (change 1%Q with (pow2 0); apply pow2_le; lia).
      destruct eta_small as [Heta0 Heta1].
      unfold within in Hwithin. unfold eps in *.
      set (t := eta) in *. clearbody t. set (P := pow2 971) in *. clearbody P. lra.
Qed.

Lemma Zdigits2_ge (q k : Z) : (0 <= k)%Z -> (2 ^ k <= q)%Z -> (k + 1 <= Zdigits2 q)%Z.
Proof.
  intros Hk Hq.
  assert (0 < 2 ^ k)%Z by (apply Z.pow_pos_nonneg; lia).
  pose proof (Zdigits2_upper q ltac:(lia)) as Hup.
  pose proof (Zdigits2_not_negative q) as Hd.
  destruct (Z_le_gt_dec (k + 1) (Zdigits2 q)) as [Hle | Hgt]; [exact Hle |].
  assert (2 ^ Zdigits2 q <= 2 ^ k)%Z by (apply Z.pow_le_mono_r; lia).
  lia.
Qed.

(** The quotient of two positive integers, rounded to binary64. *)
Lemma of_ratio_error (n d : positive) :
  let X := (inject_Z (Zpos n) / inject_Z (Zpos d))%Q in
  let res := Float64.of_ratio (Zpos n) d in
  (Float64.is_finite res = true /\ within (Float64.value res) X (X * eps + eta))
  \/ (res = S754_infinity false /\ (pow2 971 <= X)%Q).
Proof.
  intros X res. unfold res, Float64.of_ratio, SFdiv, SFdiv_core_binary.
  rewrite !Z.add_0_r, Z.sub_0_r.
  set (d1 := Zdigits2 (Zpos n)). set (d2 := Zdigits2 (Zpos d)).
  set (e' := Z.min (fexp Float64.prec Float64.emax (d1 - d2)) 0).
  set (s := (0 - e')%Z).
  assert (Hs : (0 <= s)%Z) by (unfold s, e'; lia).
  set (m' := match s with Zpos _ => Z.shiftl (Zpos n) s | Z0 => Zpos n | Zneg _ => 0%Z end).
  assert (Hm' : m' = (Zpos n * 2 ^ s)%Z).
  { unfold m'. destruct s as [| p | p] eqn:Hp; [rewrite Z.pow_0_r; lia | | lia].
    rewrite Z.shiftl_mul_pow2 by lia. reflexivity. }
  clearbody m'.
  assert (Hpow : (0 < 2 ^ s)%Z) by (apply Z.pow_pos_nonneg; lia).
  assert (Hm'0 : (0 <= m')%Z) by nia.
  pose proof (new_location_located m' (Zpos d) Hm'0 ltac:(lia)) as Hloc.
  pose proof (Z_div_mod m' (Zpos d) ltac:(lia)) as Hdiv.
  destruct (Z.div_eucl m' (Zpos d)) as [q r]. cbn [fst snd] in Hloc.
  destruct Hdiv as [Heq Hr].
  assert (HX : (inject_Z m' / inject_Z (Zpos d) * pow2 e' == X)%Q).
  { unfold X. rewrite Hm', inject_Z_mult, <- (pow2_Z s Hs).
    assert (Hinv : (pow2 s * pow2 e' == 1)%Q).
    { rewrite <- pow2_plus. replace (s + e')%Z with 0%Z by (unfold s; lia). reflexivity. }
    set (ps := pow2 s) in *. set (pe := pow2 e') in *.
    field_simplify_eq; [| discriminate].
    setoid_replace (inject_Z (Zpos n) * ps * pe)%Q with (inject_Z (Zpos n) * (ps * pe))%Q by ring.
    rewrite Hinv. ring. }
  assert (He : (e' <= fexp Float64.prec Float64.emax (Zdigits2 q + e'))%Z).
  { rewrite fexp_binary64.
    destruct (Z_le_gt_dec e' (-1074)) as [Hsub | Hnorm]; [lia |].
    assert (He' : (e' <= d1 - d2 - 53)%Z).
    { unfold e' in *. rewrite fexp_binary64 in *. lia. }
    pose proof (Zdigits2_lower (Zpos n) ltac:(lia)) as Hn.
    pose proof (Zdigits2_upper (Zpos d) ltac:(lia)) as Hd.
    fold d1 in Hn. fold d2 in Hd.
    pose proof (Zdigits2_not_negative (Zpos d)) as Hd2. fold d2 in Hd2.
    assert (Hd1 : (1 <= d1)%Z) by (unfold d1; simpl; lia).
    assert (Hq : (2 ^ 52 <= q)%Z).
    { assert (Hk : (2 ^ 52 * 2 ^ d2 <= m')%Z).
      { rewrite Hm', <- Z.pow_add_r by lia.
        apply Z.le_trans with (2 ^ (d1 - 1 + s))%Z;
          [apply Z.pow_le_mono_r; unfold s; lia |].
        rewrite Z.pow_add_r by lia.
        apply Z.mul_le_mono_nonneg_r; [lia | exact Hn]. }
      assert (2 ^ 52 * Zpos d < Zpos d * q + Zpos d)%Z by nia.
      nia. }
    pose proof (Zdigits2_ge q 52 ltac:(lia) Hq). lia. }
  destruct (binary_round_aux_error m' (Zpos d) q e' (new_location (Zpos d) r) Hloc He)
    as [[Hfin Hwithin] | [Hinf Hbig]].
  - left. split; [exact Hfin |]. unfold within in *. rewrite HX in Hwithin. exact Hwithin.
  - right. split; [exact Hinf |]. rewrite HX in Hbig. exact Hbig.
Qed.

(** The product of a positive float by 100, rounded to binary64. *)
Lemma mul_int_100_error (m : positive) (e : Z) :
  let X := (100 * Float64.value (S754_finite false m e))%Q in
  let res := Float64.mul_int (S754_finite false m e) 100 in
  (Float64.is_finite res = true /\ within (Float64.value res) X (X * eps + eta))
  \/ (res = S754_infinity false /\ (pow2 971 <= X)%Q).
Proof.
  intros X res. unfold res, Float64.mul_int.
  change (Float64.of_int 100) with (S754_finite false 7036874417766400 (-46)).
  cbn [SFmul xorb].
  set (a := Zpos (m * 7036874417766400)).
  assert (Ha : (2 ^ 52 <= a)%Z) by (unfold a; rewrite Pos2Z.inj_mul; lia).
  assert (Hloc : located a 1 (shr_record_of_loc a loc_Exact)).
  { unfold located. cbn [shr_record_of_loc shr_m shr_r shr_s]. lia. }
  assert (He : (e + -46 <= fexp Float64.prec Float64.emax (Zdigits2 a + (e + -46)))%Z).
  { rewrite fexp_binary64. pose proof (Zdigits2_ge a 52 ltac:(lia) Ha). lia. }
  assert (HX : (inject_Z a / inject_Z 1 * pow2 (e + -46) == X)%Q).
  { unfold X, a. cbn [Float64.value]. fold (pow2 e).
    rewrite Pos2Z.inj_mul, inject_Z_mult, pow2_plus.
    assert (Hc : (inject_Z 7036874417766400 * pow2 (-46) == 100)%Q) by reflexivity.
    set (p := pow2 e) in *. set (c := pow2 (-46)) in *.
    change (inject_Z 1) with 1%Q.
    setoid_replace (inject_Z (Zpos m) * inject_Z 7036874417766400 / 1 * (p * c))%Q
      with (inject_Z (Zpos m) * p * (inject_Z 7036874417766400 * c))%Q by field.
    rewrite Hc. ring. }
  destruct (binary_round_aux_error a 1 a (e + -46) loc_Exact Hloc He)
    as [[Hfin Hwithin] | [Hinf Hbig]].
  - left. split; [exact Hfin |]. unfold within in *. rewrite HX in Hwithin. exact Hwithin.
  - right. split; [exact Hinf |]. rewrite HX in Hbig. exact Hbig.
Qed.

(** Rounding half to even moves a number by at most one half. *)
Lemma round_half_even_within (q : Q) :
  within (inject_Z (Float64.round_half_even q)) q (1 # 2).
Proof.
  unfold within, Float64.round_half_even.
  pose proof (Qfloor_le q) as Hlo. pose proof (Qlt_floor q) as Hhi.
  rewrite inject_Z_plus in Hhi. change (inject_Z 1) with 1%Q in Hhi.
  destruct (Qcompare (q - inject_Z (Qfloor q)) (1 # 2)) eqn:Hc.
  - apply Qeq_alt in Hc.
    destruct (Z.even (Qfloor q)); [| rewrite inject_Z_plus; change (inject_Z 1) with 1%Q]; lra.
  - apply Qlt_alt in Hc. lra.
  - apply Qgt_alt in Hc. rewrite inject_Z_plus. change (inject_Z 1) with 1%Q. lra.
Qed.

Lemma eta_tiny : (0 < eta)%Q /\ (eta <= 1 # 1267650600228229401496703205376)%Q.
Proof.
  split; [apply pow2_pos |].
  change (1 # 1267650600228229401496703205376)%Q with (pow2 (-100)). apply pow2_le. lia.
Qed.

Lemma quotient_bound_in_range :
  (1 <= inject_Z quotient_bound)%Q /\ (1000 * inject_Z quotient_bound <= pow2 971)%Q.
Proof.
  split.
  - change 1%Q with (inject_Z 1). apply Q_of_Z_le. unfold quotient_bound.
    apply Z.leb_le. vm_compute. reflexivity.
  - rewrite (pow2_Z 971) by lia. change 1000%Q with (inject_Z 1000).
    rewrite <- inject_Z_mult. apply Q_of_Z_le. apply Z.leb_le. vm_compute. reflexivity.
Qed.

Lemma not_negative_finite (x : Float64.float) :
  not_negative x -> Float64.is_finite x = true ->
  x = S754_zero false \/ exists m e, x = S754_finite false m e.
Proof.
  destruct x as [s | s | | s m e]; simpl; intros Hs Hf; try discriminate.
  - left. subst. reflexivity.
  - right. subst. eauto.
Qed.

(** [round(x, 1)] of a float that is not negative and not large: a float
    next to the one-digit decimal nearest to [x]. *)
Lemma round_1_error (x : Float64.float) :
  not_negative x -> Float64.is_finite x = true ->
  (2 * Float64.value x < pow2 971)%Q ->
  exists tenths : Z,
    (0 <= tenths)%Z
    /\ within (one_decimal tenths) (Float64.value x) (1 # 20)
    /\ within (Float64.value (Float64.round x 1)) (one_decimal tenths)
              (one_decimal tenths * (2 * eps)).
Proof.
  intros Hneg Hfin Hsmall.
  pose proof (value_not_negative x Hneg) as Hx0.
  unfold Float64.round. rewrite Hfin.
  change (Pos.of_nat (10 ^ 1)) with 10%positive.
  set (k := Float64.round_half_even (Float64.value x * inject_Z 10)).
  assert (Hk0 : (0 <= k)%Z).
  { apply round_half_even_not_negative. change (inject_Z 10) with 10%Q. lra. }
  pose proof (round_half_even_within (Float64.value x * inject_Z 10)) as Hk. fold k in Hk.
  change (inject_Z 10) with 10%Q in Hk.
  exists k. split; [exact Hk0 |].
  assert (Hdec : within (one_decimal k) (Float64.value x) (1 # 20)).
  { unfold within, one_decimal in *. set (v := Float64.value x) in *. clearbody v.
    set (K := inject_Z k) in *. clearbody K.
    split.
    - apply Qle_shift_div_l; [reflexivity | lra].
    - apply Qle_shift_div_r; [reflexivity | lra]. }
  split; [exact Hdec |].
  destruct k as [| kp | kp]; [| | lia].
  - cbn [Float64.of_ratio Float64.value]. unfold within, one_decimal.
    setoid_replace (inject_Z 0 / 10)%Q with 0%Q by reflexivity. lra.
  - pose proof (of_ratio_error kp 10) as Herr. cbn zeta in Herr.
    change (inject_Z 10) with 10%Q in Herr.
    fold (one_decimal (Zpos kp)) in Herr.
    assert (Hone : (1 # 10 <= one_decimal (Zpos kp))%Q).
    { unfold one_decimal. apply Qle_shift_div_l; [reflexivity |].
      change (1 # 10)%Q with (1 / 10)%Q.
      setoid_replace (1 / 10 * 10)%Q with (inject_Z 1) by reflexivity.
      apply Q_of_Z_le. lia. }
    destruct eta_tiny as [Heta0 Heta1].
    destruct Herr as [[_ Hw] | [_ Hbig]].
    + unfold within in *. unfold eps in *.
      set (t := eta) in *. clearbody t.
      set (D := Float64.value (Float64.of_ratio (Zpos kp) 10)) in *. clearbody D.
      set (T := one_decimal (Zpos kp)) in *. clearbody T. lra.
    + exfalso. unfold within in Hdec.
      set (T := one_decimal (Zpos kp)) in *. clearbody T.
      set (v := Float64.value x) in *. clearbody v.
      assert (1 <= pow2 971)%Q by (change 1%Q with (pow2 0); apply pow2_le; lia).
      set (P := pow2 971) in *. clearbody P. lra.
Qed.

(** The density the analyzer computes for a file with lines: the division
    returns, and the result is a float next to a one-digit decimal that is
    within 0.05 of the exact percentage, up to the accuracy of the three
    float operations. *)
Lemma density_accuracy (c t : Z) :
  (0 <= c)%Z -> (0 < t)%Z -> (c <= quotient_bound * t)%Z ->
  exists (ratio : Float64.float) (tenths : Z),
    Float64.truediv c t = Return ratio
    /\ (0 <= tenths)%Z
    /\ let density := Float64.value (Float64.round (Float64.mul_int ratio 100) 1) in
       within density (one_decimal tenths) (one_decimal tenths * (2 * eps))
       /\ within (one_decimal tenths) (exact_percentage c t)
                 ((1 # 20) + (exact_percentage c t + 1) * (4 * eps))
       /\ within density (exact_percentage c t)
                 ((1 # 20) + (exact_percentage c t + 1) * (8 * eps)).
Proof.
  intros Hc Ht Hbound.
  destruct quotient_bound_in_range as [Hbig1 Hbig2].
  destruct eta_tiny as [Heta0 Heta1].
  assert (Ht' : (0 < inject_Z t)%Q) by (change 0%Q with (inject_Z 0); rewrite <- Zlt_Qlt; exact Ht).
  assert (Hq0 : (0 <= inject_Z c / inject_Z t)%Q).
  { apply Qle_shift_div_l; [exact Ht' |]. rewrite Qmult_0_l.
    change 0%Q with (inject_Z 0). apply Q_of_Z_le. exact Hc. }
  assert (Hq1 : (inject_Z c / inject_Z t <= inject_Z quotient_bound)%Q).
  { apply Qle_shift_div_r; [exact Ht' |]. rewrite <- inject_Z_mult. apply Q_of_Z_le. exact Hbound. }
  unfold exact_percentage.
  set (q := (inject_Z c / inject_Z t)%Q) in *.
  set (Big := inject_Z quotient_bound) in *.
  assert (HP : (1 <= pow2 971)%Q) by (change 1%Q with (pow2 0); apply pow2_le; lia).
  destruct t as [| d | d]; [lia | | lia].
  destruct c as [| n | n]; [| | lia].
  - exists (S754_zero false), 0%Z.
    split; [reflexivity |]. split; [lia |].
    change (Float64.value (Float64.round (Float64.mul_int (S754_zero false) 100) 1)) with 0%Q.
    assert (Hq : (q == 0)%Q) by (unfold q; change (inject_Z 0) with 0%Q; unfold Qdiv; ring).
    assert (Hd : (one_decimal 0 == 0)%Q) by reflexivity.
    unfold within, eps. rewrite Hq, Hd. repeat split; lra.
  - pose proof (of_ratio_error n d) as Hdiv. cbn zeta in Hdiv. fold q in Hdiv.
    pose proof (of_ratio_not_negative (Zpos n) d ltac:(lia)) as Hneg.
    destruct Hdiv as [[Hfin Hr] | [_ Hover]];
      [| exfalso; clearbody q Big; set (P := pow2 971) in *; clearbody P; lra].
    exists (Float64.of_ratio (Zpos n) d).
    assert (Hdivides : Float64.truediv (Zpos n) (Zpos d) = Return (Float64.of_ratio (Zpos n) d)).
    { unfold Float64.truediv. cbn zeta. rewrite Hfin. reflexivity. }
    set (ratio := Float64.of_ratio (Zpos n) d) in *.
    destruct (not_negative_finite ratio Hneg Hfin) as [Hzero | (m & e & Hm)].
    + exists 0%Z. split; [exact Hdivides |]. split; [lia |].
      rewrite Hzero in *.
      change (Float64.value (Float64.round (Float64.mul_int (S754_zero false) 100) 1)) with 0%Q.
      change (Float64.value (S754_zero false)) with 0%Q in Hr.
      assert (Hd : (one_decimal 0 == 0)%Q) by reflexivity.
      unfold within, eps in *. rewrite Hd.
      clearbody q Big. set (t := eta) in *. clearbody t. repeat split; lra.
    + pose proof (mul_int_100_error m e) as Hmul. cbn zeta in Hmul. rewrite <- Hm in Hmul.
      pose proof (mul_int_not_negative ratio 100 Hneg ltac:(lia)) as Hnegp.
      set (r := Float64.value ratio) in *.
      set (prod := Float64.mul_int ratio 100) in *.
      unfold within, eps in Hr.
      destruct Hmul as [[Hfinp Hx] | [_ Hover]];
        [| exfalso; clearbody q Big r; set (P := pow2 971) in *; clearbody P;
           set (t := eta) in *; clearbody t; lra].
      unfold within, eps in Hx.
      assert (Hsmall : (2 * Float64.value prod < pow2 971)%Q).
      { set (x := Float64.value prod) in *.
        clearbody q Big r x. set (P := pow2 971) in *. clearbody P.
        set (t := eta) in *. clearbody t. lra. }
      destruct (round_1_error prod Hnegp Hfinp Hsmall) as (tenths & Htenths & Hdec & Hround).
      exists tenths. split; [exact Hdivides |]. split; [exact Htenths |].
      cbn zeta. split; [exact Hround |].
      unfold within, eps in *.
      set (x := Float64.value prod) in *.
      set (D := Float64.value (Float64.round prod 1)) in *.
      set (T := one_decimal tenths) in *.
      clearbody q Big r x D T. set (t := eta) in *. clearbody t.
      repeat split; lra.
Qed.

(** ** The comment analyzer *)

(** [analyze_comments] never raises: its [except Exception] clause returns
    the pair of density 0 and quality ERROR. *)
Lemma analyze_comments_returns (w : world) (file_path : string) :
  exists data, analyze_comments w file_path = Return data.
Proof.
  unfold analyze_comments.
  destruct (tokens <- tokenize w file_path ;; _) as [data | e];
    eexists; reflexivity.
Qed.

(** The loop over the code's comment tiers picks the first match of the
    specification's descending table. *)
Lemma comment_tier_loop_quality (density : Q) :
  comment_tier_loop [ ("excellent", 25); ("good", 15); ("fair", 5); ("poor", 0) ]%Z
                    density "POOR"
  = Spec.comment_quality density.
Proof.
  unfold Spec.comment_quality, comment_tier_loop, num_ge, int. simpl find.
  q_cases; reflexivity.
Qed.

(** The tiers as intervals of the density. *)
Lemma comment_quality_intervals (density : Q) :
  ((25 <= density)%Q -> Spec.comment_quality density = "EXCELLENT")
  /\ ((15 <= density)%Q -> (density < 25)%Q -> Spec.comment_quality density = "GOOD")
  /\ ((5 <= density)%Q -> (density < 15)%Q -> Spec.comment_quality density = "FAIR")
  /\ ((density < 5)%Q -> Spec.comment_quality density = "POOR").
Proof.
  unfold Spec.comment_quality. simpl find.
  q_cases; repeat split; intros; try reflexivity; unfold inject_Z in *; lra.
Qed.

Lemma comment_metrics_no_lines (comment_lines : Z) (has_module_doc : bool) :
  comment_metrics comment_lines 0 has_module_doc
  = Return {| cd_comment_density := int 0;
              cd_comment_quality := if has_module_doc then "EXCELLENT" else "POOR" |}.
Proof. destruct has_module_doc; reflexivity. Qed.

Lemma comment_metrics_lines (comment_lines total_lines : Z) (has_module_doc : bool)
      (ratio : Float64.float) :
  (0 < total_lines)%Z ->
  Float64.truediv comment_lines total_lines = Return ratio ->
  let density := Float64.value (Float64.round (Float64.mul_int ratio 100) 1) in
  comment_metrics comment_lines total_lines has_module_doc
  = Return {| cd_comment_density := density;
              cd_comment_quality := Spec.comment_quality density |}.
Proof.
  intros Hpos Hdiv density. unfold comment_metrics.
  replace (total_lines >? 0)%Z with true by (symmetry; apply Z.gtb_lt; lia).
  rewrite Hdiv. cbn [bind]. fold density.
  change (dict_getitem CLAUDE_TOLERANCES "python")
    with (Return [ ("complexity_tiers",
                    [ ("simple", 15); ("safe", 35); ("complex", 55); ("danger", 56) ]%Z);
                   ("comment_tiers",
                    [ ("excellent", 25); ("good", 15); ("fair", 5); ("poor", 0) ]%Z) ]).
  cbn [bind].
  change (dict_getitem _ "comment_tiers")
    with (Return [ ("excellent", 25); ("good", 15); ("fair", 5); ("poor", 0) ]%Z).
  cbn [bind]. rewrite comment_tier_loop_quality.
  replace (total_lines =? 0)%Z with false by (symmetry; apply Z.eqb_neq; lia).
  reflexivity.
Qed.

(** A file without lines has no first line to open a docstring: read from
    a file, the override of [analyze_comments] for an empty file never
    applies. *)
Lemma module_doc_needs_a_line (content : list text) :
  module_doc content = true -> (0 < List.length content)%nat.
Proof. destruct content; [discriminate | simpl; lia]. Qed.

Lemma count_comments_not_negative (tokens : list token_type) :
  (0 <= count_comments tokens)%Z.
Proof. unfold count_comments. lia. Qed.


(** What [analyze_comments] returns for a file that tokenizes and reads. *)
Lemma analyze_comments_success (w : world) (file_path : string)
      (tokens : list token_type) (source : text) :
  tokenize w file_path = Return tokens ->
  read w file_path = Return source ->
  let comment_lines := count_comments tokens in
  let total_lines := Z.of_nat (List.length (readlines source)) in
  (total_lines = 0%Z ->
   analyze_comments w file_path
   = Return {| cd_comment_density := int 0; cd_comment_quality := "POOR" |})
  /\ ((0 < total_lines)%Z ->
      (comment_lines <= quotient_bound * total_lines)%Z ->
      exists (density : Q) (tenths : Z),
        analyze_comments w file_path
        = Return {| cd_comment_density := density;
                    cd_comment_quality := Spec.comment_quality density |}
        /\ (0 <= density)%Q
        /\ (0 <= tenths)%Z
        /\ within density (one_decimal tenths) (one_decimal tenths * (2 * eps))
        /\ within (one_decimal tenths) (exact_percentage comment_lines total_lines)
                  ((1 # 20) + (exact_percentage comment_lines total_lines + 1) * (4 * eps))
        /\ within density (exact_percentage comment_lines total_lines)
                  (density_tolerance (exact_percentage comment_lines total_lines))).
Proof.
  intros Htok Hread comment_lines total_lines.
  unfold analyze_comments. rewrite Htok, Hread. cbn [bind].
  fold comment_lines. fold total_lines. split.
  - intros Hzero. rewrite Hzero, comment_metrics_no_lines.
    destruct (module_doc (readlines source)) eqn:Hdoc; [| reflexivity].
    apply module_doc_needs_a_line in Hdoc. unfold total_lines in Hzero. lia.
  - intros Hpos Hbound.
    destruct (density_accuracy comment_lines total_lines
                (count_comments_not_negative tokens) Hpos Hbound)
      as (ratio & tenths & Hdiv & Htenths & Hdec & Hnear & Hacc).
    exists (Float64.value (Float64.round (Float64.mul_int ratio 100) 1)), tenths.
    rewrite (comment_metrics_lines _ _ _ ratio Hpos Hdiv). cbn [try_except].
    split; [reflexivity |].
    split.
    { apply round_value_not_negative, mul_int_not_negative; [| lia].
      apply (truediv_not_negative _ _ _ (count_comments_not_negative tokens) Hpos Hdiv). }
    split; [exact Htenths |].
    split; [exact Hdec |]. split; [exact Hnear | exact Hacc].
Qed.



(** The same file by evaluation: the density is the binary64 number
    33.3, which is not the unrounded percentage, and 333 are its tenths. *)
Example analyze_comments_three_line_program :
  exists density,
    analyze_comments three_line_program "b.py"
    = Return {| cd_comment_density := density; cd_comment_quality := "EXCELLENT" |}
    /\ (density == 2343279181116211 # 70368744177664)%Q
    /\ within density (one_decimal 333) (one_decimal 333 * (2 * eps))
    /\ ~ (density == exact_percentage 1 3)%Q.
Proof.
  eexists. split; [vm_compute; reflexivity |].
  split; [reflexivity |]. split; [split; vm_compute; discriminate | vm_compute; discriminate].
Qed.

(** C8.  The override for a file without lines and with a leading
    documentation block never applies: the analyzer looks for the
    docstring in the first line only when there is one, so a file without
    lines never has the flag set and gets density 0 and quality POOR.
    The file the override is meant for, one that consists solely of a
    documentation block, has one line: its first line opens a docstring,
    and it gets density 0 and quality POOR, not EXCELLENT. *)
Theorem docstring_only_file_rated_poor :
  (forall (w : world) (file_path : string) (tokens : list token_type) (source : text),
      tokenize w file_path = Return tokens ->
      read w file_path = Return source ->
      Z.of_nat (List.length (readlines source)) = 0%Z ->
      module_doc (readlines source) = false
      /\ analyze_comments w file_path
         = Return {| cd_comment_density := int 0; cd_comment_quality := "POOR" |})
  /\ (forall source : text,
        module_doc (readlines source) = true ->
        (0 < Z.of_nat (List.length (readlines source)))%Z)
  /\ module_doc (readlines docstring_source) = true
  /\ analyze_comments docstring_only "doc.py"
     = Return {| cd_comment_density := int 0; cd_comment_quality := "POOR" |}
  /\ analyze_comments empty_program "empty.py"
     = Return {| cd_comment_density := int 0; cd_comment_quality := "POOR" |}.
Proof.
  split.
  { intros w file_path tokens source Htok Hread Hzero. split.
    - destruct (module_doc (readlines source)) eqn:Hdoc; [| reflexivity].
      apply module_doc_needs_a_line in Hdoc. lia.
    - apply (analyze_comments_success w file_path tokens source Htok Hread). exact Hzero. }
  split.
  { intros source Hdoc. apply module_doc_needs_a_line in Hdoc. lia. }
  split; [reflexivity |]. split; reflexivity.
Qed.

(** ** The facade *)

Lemma analyze_file_body_skipped (w : world) (file_path : string) :
  skipped file_path = true -> analyze_file_body w file_path = Return None.
Proof.
  unfold skipped, analyze_file_body.
  destruct (String.eqb (basename file_path) "report.py"); [reflexivity |].
  cbn [orb]. cbv zeta.
  destruct (str_in (lower (snd (splitext file_path))) PYTHON_EXTS); [discriminate |].
  destruct (str_in (lower (snd (splitext file_path))) CONFIG_EXTS); [discriminate |].
  reflexivity.
Qed.

(** A file that is not skipped has its path resolved first, and a failure
    of that call is a failure of the [try] block. *)
Lemma analyze_file_body_unresolved (w : world) (file_path : string) (e : exn) :
  skipped file_path = false ->
  resolve w file_path = Raise e ->
  analyze_file_body w file_path = Raise e.
Proof.
  unfold skipped, analyze_file_body. intros Hskip Hresolve.
  destruct (String.eqb (basename file_path) "report.py"); [discriminate |].
  cbn [orb] in Hskip. cbv zeta in *.
  destruct (str_in (lower (snd (splitext file_path))) PYTHON_EXTS).
  - cbn [String.eqb Ascii.eqb Bool.eqb]. rewrite Hresolve. reflexivity.
  - destruct (str_in (lower (snd (splitext file_path))) CONFIG_EXTS); [| discriminate].
    cbn [String.eqb Ascii.eqb Bool.eqb]. rewrite Hresolve. reflexivity.
Qed.

(** Every exception of the [try] block is caught, and the handler returns
    the failure record when it can resolve the path. *)
Lemma analyze_file_failure_record (w : world) (file_path resolved : string) (e : exn) :
  analyze_file_body w file_path = Raise e ->
  resolve w file_path = Return resolved ->
  analyze_file w file_path = Return (Some (failure_record resolved)).
Proof.
  intros Hbody Hresolve. unfold analyze_file. rewrite Hbody. cbn [try_except is_Exception].
  rewrite Hresolve. reflexivity.
Qed.

(** The failure record: rating ANALYSIS FAILED, human review, and zero in
    every numeric field. *)
Lemma failure_record_fields (resolved : string) :
  let r := failure_record resolved in
  fd_safety r = Some "ANALYSIS FAILED"
  /\ fd_recommendations r = Some [ "Human Review" ]
  /\ fd_size r = Some {| size_bytes := 0; size_kb := 0; size_mb := 0 |}
  /\ fd_tokens r = Some 0%Z
  /\ fd_complexity r = Some 0%Q
  /\ fd_comment_density r = Some 0%Q.
Proof. repeat split. Qed.

(** [analyze_file] returns whenever the path resolves: a skipped file gives
    [None], a failure of the [try] block gives the failure record. *)
Lemma analyze_file_returns_when_resolved (w : world) (file_path resolved : string) :
  resolve w file_path = Return resolved ->
  exists result,
    analyze_file w file_path = Return result
    /\ (analyze_file_body w file_path = Return result
        \/ result = Some (failure_record resolved)).
Proof.
  intros Hresolve.
  destruct (analyze_file_body w file_path) as [result | e] eqn:Hbody.
  - exists result. unfold analyze_file. rewrite Hbody. split; [reflexivity | left; reflexivity].
  - exists (Some (failure_record resolved)). split; [| right; reflexivity].
    apply (analyze_file_failure_record w file_path resolved e Hbody Hresolve).
Qed.

(** [analyze_file] raises exactly when the file is not skipped and its path
    does not resolve: the handler resolves the path again. *)
Lemma analyze_file_raises_iff (w : world) (file_path : string) (e : exn) :
  analyze_file w file_path = Raise e
  <-> skipped file_path = false /\ resolve w file_path = Raise e.
Proof.
  split.
  - intros Hraise.
    destruct (skipped file_path) eqn:Hskip.
    + unfold analyze_file in Hraise.
      rewrite (analyze_file_body_skipped w file_path Hskip) in Hraise. discriminate.
    + split; [reflexivity |].
      destruct (resolve w file_path) as [resolved | e'] eqn:Hresolve.
      * destruct (analyze_file_returns_when_resolved w file_path resolved Hresolve)
          as (result & Hres & _).
        rewrite Hres in Hraise. discriminate.
      * unfold analyze_file in Hraise.
        rewrite (analyze_file_body_unresolved w file_path e' Hskip Hresolve) in Hraise.
        cbn [try_except is_Exception] in Hraise. rewrite Hresolve in Hraise.
        cbn [bind] in Hraise.
        injection Hraise as ->. reflexivity.
  - intros [Hskip Hresolve]. unfold analyze_file.
    rewrite (analyze_file_body_unresolved w file_path e Hskip Hresolve).
    cbn [try_except is_Exception]. rewrite Hresolve. reflexivity.
Qed.

(** A program file that does not tokenize gets the failure record. *)
Example analyze_file_broken_program :
  analyze_file broken_program "pkg/broken.py"
  = Return (Some (failure_record "/repo/pkg/broken.py")).
Proof. reflexivity. Qed.

(** A program file every collaborator answers for: one comment on two
    lines is density 50, quality EXCELLENT; no block, complexity 0, rating
    SIMPLE, every model recommended. *)
Example analyze_file_small_program :
  exists result,
    analyze_file small_program "pkg/a.py" = Return (Some result)
    /\ fd_path result = Some "/repo/pkg/a.py"
    /\ fd_type result = Some "python"
    /\ fd_tokens result = Some 8%Z
    /\ fd_comment_quality result = Some "EXCELLENT"
    /\ fd_safety result = Some "SIMPLE"
    /\ fd_recommendations result
       = Some [ "claude-3.5-sonnet"; "claude-3.5-haiku"; "gpt-4-turbo" ].
Proof. eexists. repeat split. Qed.

(** The script itself and files of other types are skipped. *)
Example analyze_file_skips :
  analyze_file small_program "tools/report.py" = Return None
  /\ analyze_file small_program "README.md" = Return None
  /\ analyze_file small_program ".py" = Return None.
Proof. repeat split. Qed.

(** C1.  [analyze_file] is meant to be total, every failure ending in the
    failure record.  On a path that does not resolve it is not: for the
    self-referential link [loop.py], [Path.resolve] raises in the [try]
    block, the handler calls it again to fill the [path] field, and the
    second exception leaves [analyze_file]. *)
Theorem analyze_file_propagates_unresolved_path :
  skipped "./loop.py" = false
  /\ analyze_file_body symlink_loop "./loop.py" = Raise RuntimeError
  /\ analyze_file symlink_loop "./loop.py" = Raise RuntimeError.
Proof. repeat split. Qed.

(** * Further properties *)

(** ** The resolver on any record *)

Lemma tier_name_not_error (t : Spec.tier) : Spec.tier_name t <> "ERROR".
Proof. destruct t; discriminate. Qed.

Lemma get_safety_rating_unratable (d : file_data) :
  ~ ratable d -> get_safety_rating d = Return "ERROR".
Proof.
  intros Hnot. unfold get_safety_rating.
  destruct (fd_type d) as [file_type |] eqn:Htype; [| reflexivity].
  cbn [getitem bind].
  destruct (String.eqb file_type "python") eqn:Hpy.
  - apply String.eqb_eq in Hpy. subst file_type.
    destruct (fd_complexity d) as [metric |] eqn:Hmetric; [| reflexivity].
    exfalso. apply Hnot. exists Spec.Program, metric. split; assumption.
  - destruct (fd_size d) as [size |] eqn:Hsize; [| reflexivity].
    cbn [getitem bind].
    destruct (String.eqb file_type "config") eqn:Hcfg.
    + apply String.eqb_eq in Hcfg. subst file_type.
      exfalso. apply Hnot. exists Spec.Config, (size_kb size).
      split; [assumption | simpl; rewrite Hsize; reflexivity].
    + unfold tier_table, CLAUDE_TOLERANCES. cbn [dict_getitem].
      rewrite String.eqb_sym, Hpy. rewrite String.eqb_sym, Hcfg. reflexivity.
Qed.

Lemma get_safety_rating_ratable (k : Spec.file_kind) (d : file_data) (metric : Q) :
  fd_type d = Some (Spec.type_name k) ->
  Spec.primary_metric k d = Some metric ->
  get_safety_rating d
  = Return (Spec.tier_name
              match k with
              | Spec.Program =>
                  Spec.comment_adjustment (Spec.base_tier k metric)
                                          (get (fd_comment_density d) (int 0))
              | Spec.Config => Spec.base_tier k metric
              end).
Proof.
  intros Htype Hmetric.
  rewrite (get_safety_rating_recognized k d metric Htype Hmetric).
  destruct k; [apply adjust_safety_tier | reflexivity].
Qed.

(** X1.  [get_safety_rating] never raises on a record; its rating is one of
    SIMPLE, SAFE, COMPLEX, DANGER and ERROR, and it is ERROR exactly when
    the type key is missing or unrecognized or the metric of the type is
    missing. *)
Theorem safety_rating_error_iff (d : file_data) :
  exists rating,
    get_safety_rating d = Return rating
    /\ In rating [ "SIMPLE"; "SAFE"; "COMPLEX"; "DANGER"; "ERROR" ]
    /\ (rating = "ERROR" <-> ~ ratable d).
Proof.
  destruct (fd_type d) as [file_type |] eqn:Htype.
  - assert (Hdec : ratable d \/ ~ ratable d).
    { destruct (String.eqb file_type "python") eqn:Hpy.
      - apply String.eqb_eq in Hpy. subst file_type.
        destruct (fd_complexity d) as [metric |] eqn:Hmetric.
        + left. exists Spec.Program, metric. split; assumption.
        + right. intros (k & metric & Hk & Hm). rewrite Htype in Hk.
          destruct k; [simpl in Hm; congruence | discriminate Hk].
      - destruct (String.eqb file_type "config") eqn:Hcfg.
        + apply String.eqb_eq in Hcfg. subst file_type.
          destruct (fd_size d) as [size |] eqn:Hsize.
          * left. exists Spec.Config, (size_kb size).
            split; [assumption | simpl; rewrite Hsize; reflexivity].
          * right. intros (k & metric & Hk & Hm). rewrite Htype in Hk.
            destruct k; [discriminate Hk | simpl in Hm; rewrite Hsize in Hm; discriminate].
        + right. intros (k & metric & Hk & _). rewrite Htype in Hk.
          injection Hk as Hk. subst file_type.
          destruct k; simpl in *; discriminate. }
    destruct Hdec as [(k & metric & Hk & Hm) | Hnot].
    + rewrite (get_safety_rating_ratable k d metric Hk Hm).
      eexists. split; [reflexivity |]. split.
      * match goal with |- In (Spec.tier_name ?t) _ => destruct t end; simpl; auto 6.
      * split; [intros Herr; apply tier_name_not_error in Herr; contradiction |].
        intros Hnot. exfalso. apply Hnot. exists k, metric. split; assumption.
    + rewrite (get_safety_rating_unratable d Hnot). exists "ERROR".
      split; [reflexivity |]. split; [simpl; auto 6 |]. split; auto.
  - exists "ERROR". unfold get_safety_rating. rewrite Htype.
    split; [reflexivity |]. split; [simpl; auto 6 |]. split; [| reflexivity].
    intros _ (k & metric & Hk & _). rewrite Htype in Hk. discriminate.
Qed.

Lemma list_index_absent (l : list string) (x : string) :
  ~ In x l -> list_index l x = Raise ValueError.
Proof.
  induction l as [| y l IH]; intros Hout; simpl; [reflexivity |].
  destruct (String.eqb y x) eqn:E.
  - apply String.eqb_eq in E. exfalso. apply Hout. left. exact E.
  - rewrite IH; [reflexivity |]. intros Hin. apply Hout. right. exact Hin.
Qed.

Lemma list_index_raises (l : list string) (x : string) (e : exn) :
  list_index l x = Raise e -> e = ValueError.
Proof.
  induction l as [| y l IH]; simpl.
  - intros [= <-]. reflexivity.
  - destruct (String.eqb y x); [discriminate |].
    destruct (list_index l x) as [i | e']; simpl; [discriminate |].
    intros [= <-]. apply IH. reflexivity.
Qed.

(** X2.  [adjust_safety] gives back a rating that is not on the scale (the
    [ValueError] of [index] is caught), whatever the density, and it gives
    back any rating when the density is at least 10 and below 25. *)
Theorem adjust_safety_unchanged (base_safety : string) (density : Q) :
  ~ In base_safety safety_order \/ (10 <= density /\ density < 25)%Q ->
  adjust_safety base_safety density = Return base_safety.
Proof.
  intros [Hout | [Hlo Hhi]]; unfold adjust_safety.
  - rewrite (list_index_absent _ _ Hout). reflexivity.
  - destruct (list_index safety_order base_safety) as [idx | e] eqn:Hidx.
    + cbn [bind try_except]. unfold num_ge, num_lt, int.
      change (inject_Z 25) with 25%Q. change (inject_Z 10) with 10%Q.
      destruct (Qle_bool 25 density) eqn:Q1; [apply Qle_bool_iff in Q1; lra |].
      destruct (Qle_bool 10 density) eqn:Q2; [reflexivity |].
      apply not_true_iff_false in Q2. rewrite Qle_bool_iff in Q2. lra.
    + apply list_index_raises in Hidx. subst e. reflexivity.
Qed.

Lemma adjust_safety_unchanged_witness :
  adjust_safety "ERROR" 3 = Return "ERROR"
  /\ adjust_safety "DANGER" 12 = Return "DANGER".
Proof.
  split; apply adjust_safety_unchanged.
  - left. simpl. intros [H | [H | [H | [H | []]]]]; discriminate H.
  - right. split; [discriminate | reflexivity].
Defined.

Lemma comment_adjustment_rank_monotone (t1 t2 : Spec.tier) (density1 density2 : Q) :
  (Spec.rank t1 <= Spec.rank t2)%nat ->
  (density2 <= density1)%Q ->
  (Spec.rank (Spec.comment_adjustment t1 density1)
   <= Spec.rank (Spec.comment_adjustment t2 density2))%nat.
Proof.
  intros Hrank Hdensity. unfold Spec.comment_adjustment.
  q_cases; cbn [negb]; try lra; destruct t1, t2; simpl in *; lia.
Qed.

(** X3.  For two records of the same recognized type, the one with the
    larger metric and, for program files, the smaller comment density is
    never rated safer. *)
Theorem rating_monotone (k : Spec.file_kind) (d1 d2 : file_data) (m1 m2 : Q) :
  fd_type d1 = Some (Spec.type_name k) ->
  fd_type d2 = Some (Spec.type_name k) ->
  Spec.primary_metric k d1 = Some m1 ->
  Spec.primary_metric k d2 = Some m2 ->
  (m1 <= m2)%Q ->
  (k = Spec.Program ->
   (get (fd_comment_density d2) (int 0) <= get (fd_comment_density d1) (int 0))%Q) ->
  exists t1 t2,
    get_safety_rating d1 = Return (Spec.tier_name t1)
    /\ get_safety_rating d2 = Return (Spec.tier_name t2)
    /\ (Spec.rank t1 <= Spec.rank t2)%nat.
Proof.
  intros Ht1 Ht2 Hm1 Hm2 Hle Hdensity.
  rewrite (get_safety_rating_ratable k d1 m1 Ht1 Hm1).
  rewrite (get_safety_rating_ratable k d2 m2 Ht2 Hm2).
  eexists. eexists. split; [reflexivity |]. split; [reflexivity |].
  pose proof (base_tier_rank_monotone k m1 m2 Hle) as Hbase.
  destruct k.
  - apply comment_adjustment_rank_monotone; [exact Hbase | apply Hdensity; reflexivity].
  - exact Hbase.
Qed.

Lemma rating_monotone_witness :
  exists t1 t2,
    get_safety_rating (sample_record "python" 0 20 30 "PENDING") = Return (Spec.tier_name t1)
    /\ get_safety_rating (sample_record "python" 0 40 5 "PENDING") = Return (Spec.tier_name t2)
    /\ (Spec.rank t1 <= Spec.rank t2)%nat.
Proof.
  apply (rating_monotone Spec.Program
           (sample_record "python" 0 20 30 "PENDING")
           (sample_record "python" 0 40 5 "PENDING") 20 40
           eq_refl eq_refl eq_refl eq_refl).
  - discriminate.
  - intros _. discriminate.
Defined.

(** ** The filter on any record *)

Lemma survivors_antitone (k : Spec.file_kind) (m1 m2 : Q) (model : string) :
  (m1 <= m2)%Q -> In model (Spec.survivors k m2) -> In model (Spec.survivors k m1).
Proof.
  intros Hle. unfold Spec.survivors. rewrite !filter_In. intros [Hin Hthr].
  split; [exact Hin |].
  destruct (Spec.model_threshold k model) as [threshold |]; [| discriminate].
  apply Qle_bool_iff. apply Qle_bool_iff in Hthr. lra.
Qed.

Lemma post_filter_incl (safety : string) (l1 l2 : list string) :
  incl l2 l1 -> incl (post_filter safety l2) (post_filter safety l1).
Proof.
  intros Hincl. unfold post_filter.
  destruct (String.eqb safety "DANGER").
  - destruct (str_in "claude-3.5-sonnet" l2) eqn:H2; [| intros x []].
    apply str_in_In in H2. apply Hincl in H2. apply str_in_In in H2. rewrite H2.
    apply incl_refl.
  - destruct (String.eqb safety "COMPLEX"); [| exact Hincl].
    intros x Hx. apply filter_In in Hx. apply filter_In.
    split; [apply Hincl; apply Hx | apply Hx].
Qed.

Lemma post_filter_NoDup (safety : string) (l : list string) :
  NoDup l -> NoDup (post_filter safety l).
Proof.
  intros Hl. unfold post_filter.
  destruct (String.eqb safety "DANGER").
  - destruct (str_in "claude-3.5-sonnet" l); repeat constructor. intros [].
  - destruct (String.eqb safety "COMPLEX"); [apply NoDup_filter |]; exact Hl.
Qed.

Lemma survivors_NoDup (k : Spec.file_kind) (metric : Q) : NoDup (Spec.survivors k metric).
Proof.
  unfold Spec.survivors. apply NoDup_filter.
  repeat constructor; simpl; intuition discriminate.
Qed.

Lemma ceiling_is_top_threshold (k : Spec.file_kind) :
  Spec.model_threshold k "claude-3.5-sonnet" = Some (Spec.complex_ceiling k)
  /\ forall model threshold,
      Spec.model_threshold k model = Some threshold ->
      (threshold <= Spec.complex_ceiling k)%Z.
Proof.
  split; [destruct k; reflexivity |].
  intros model threshold. unfold Spec.model_threshold, AI_THRESHOLDS.
  cbn [dict_getitem].
  repeat match goal with
         | |- context [String.eqb ?a model] => destruct (String.eqb a model)
         end;
    destruct k; simpl; intros [= <-]; lia.
Qed.

Lemma top_model_survives_iff (k : Spec.file_kind) (metric : Q) :
  In "claude-3.5-sonnet" (Spec.survivors k metric)
  <-> (metric <= inject_Z (Spec.complex_ceiling k))%Q.
Proof.
  unfold Spec.survivors. rewrite filter_In.
  destruct (ceiling_is_top_threshold k) as [-> _]. rewrite Qle_bool_iff.
  split; [intros [_ H]; exact H | intros H; split; [left; reflexivity | exact H]].
Qed.

Lemma survivors_empty_iff (k : Spec.file_kind) (metric : Q) :
  Spec.survivors k metric = [] <-> (inject_Z (Spec.complex_ceiling k) < metric)%Q.
Proof.
  split.
  - intros Hempty. apply Qnot_le_lt. intros Hle.
    apply top_model_survives_iff in Hle. rewrite Hempty in Hle. exact Hle.
  - intros Habove.
    destruct (Spec.survivors k metric) as [| model rest] eqn:Hs; [reflexivity |].
    assert (Hin : In model (Spec.survivors k metric)) by (rewrite Hs; left; reflexivity).
    apply survivors_within_threshold in Hin.
    destruct Hin as (_ & threshold & Hthr & Hle).
    destruct (ceiling_is_top_threshold k) as [_ Htop].
    apply Htop in Hthr. exfalso.
    assert (inject_Z threshold <= inject_Z (Spec.complex_ceiling k))%Q
      by (rewrite <- Zle_Qle; exact Hthr).
    lra.
Qed.

Lemma post_filter_keeps_top (safety : string) (l : list string) :
  In "claude-3.5-sonnet" (post_filter safety l) <-> In "claude-3.5-sonnet" l.
Proof.
  unfold post_filter.
  destruct (String.eqb safety "DANGER").
  - destruct (str_in "claude-3.5-sonnet" l) eqn:Hin.
    + apply str_in_In in Hin. split; [intros _; exact Hin | intros _; left; reflexivity].
    + split; [intros [] |]. intros H. apply str_in_In in H. congruence.
  - destruct (String.eqb safety "COMPLEX"); [| reflexivity].
    rewrite filter_In. split; [intros [H _]; exact H | intros H; split; [exact H | reflexivity]].
Qed.

(** X4.  For a recognized file type and any safety value, the
    recommendations contain the top model [claude-3.5-sonnet] exactly when
    the metric is at most the highest threshold of the registry (55, resp.
    4000 KB), and they are empty exactly when the metric is above it. *)
Theorem top_model_recommended_iff (k : Spec.file_kind) (d : file_data) :
  fd_type d = Some (Spec.type_name k) ->
  let metric := get (Spec.primary_metric k d) (int 0) in
  exists recommendations,
    get_ai_recommendations d = Return recommendations
    /\ (In "claude-3.5-sonnet" recommendations
        <-> (metric <= inject_Z (Spec.complex_ceiling k))%Q)
    /\ (recommendations = [] <-> (inject_Z (Spec.complex_ceiling k) < metric)%Q).
Proof.
  intros Htype metric.
  rewrite (get_ai_recommendations_recognized k d Htype). fold metric.
  eexists. split; [reflexivity |]. split.
  - rewrite post_filter_keeps_top. apply top_model_survives_iff.
  - rewrite <- survivors_empty_iff. split.
    + intros Hempty.
      destruct (Spec.survivors k metric) as [| model rest] eqn:Hs; [reflexivity |].
      exfalso.
      assert (Htop : In "claude-3.5-sonnet" (Spec.survivors k metric)).
      { apply top_model_survives_iff.
        assert (Hin : In model (Spec.survivors k metric)) by (rewrite Hs; left; reflexivity).
        apply survivors_within_threshold in Hin.
        destruct Hin as (_ & threshold & Hthr & Hle).
        destruct (ceiling_is_top_threshold k) as [_ Hmax].
        apply Hmax in Hthr.
        assert (inject_Z threshold <= inject_Z (Spec.complex_ceiling k))%Q
          by (rewrite <- Zle_Qle; exact Hthr).
        lra. }
      rewrite <- Hs in Hempty.
      apply (post_filter_keeps_top (get (fd_safety d) "ERROR")) in Htop.
      rewrite Hempty in Htop. exact Htop.
    + intros ->. unfold post_filter.
      destruct (String.eqb _ "DANGER"); [reflexivity |].
      destruct (String.eqb _ "COMPLEX"); reflexivity.
Qed.

Lemma top_model_recommended_iff_witness :
  exists recommendations,
    get_ai_recommendations (sample_record "config" 4200 0 0 "DANGER") = Return recommendations
    /\ (In "claude-3.5-sonnet" recommendations <-> (4200 <= 4000)%Q)
    /\ (recommendations = [] <-> (4000 < 4200)%Q).
Proof.
  exact (top_model_recommended_iff Spec.Config
           (sample_record "config" 4200 0 0 "DANGER") eq_refl).
Defined.

(** X5.  For two records of the same recognized type and the same safety
    value, every model recommended for the larger metric is recommended for
    the smaller one. *)
Theorem recommendations_shrink_with_metric (k : Spec.file_kind) (d1 d2 : file_data) :
  fd_type d1 = Some (Spec.type_name k) ->
  fd_type d2 = Some (Spec.type_name k) ->
  get (fd_safety d1) "ERROR" = get (fd_safety d2) "ERROR" ->
  (get (Spec.primary_metric k d1) (int 0) <= get (Spec.primary_metric k d2) (int 0))%Q ->
  exists r1 r2,
    get_ai_recommendations d1 = Return r1
    /\ get_ai_recommendations d2 = Return r2
    /\ incl r2 r1.
Proof.
  intros Ht1 Ht2 Hsafety Hle.
  rewrite (get_ai_recommendations_recognized k d1 Ht1).
  rewrite (get_ai_recommendations_recognized k d2 Ht2).
  eexists. eexists. split; [reflexivity |]. split; [reflexivity |].
  rewrite Hsafety. apply post_filter_incl.
  intros model. apply survivors_antitone. exact Hle.
Qed.

Lemma recommendations_shrink_with_metric_witness :
  exists r1 r2,
    get_ai_recommendations (sample_record "python" 0 30 12 "SAFE") = Return r1
    /\ get_ai_recommendations (sample_record "python" 0 50 12 "SAFE") = Return r2
    /\ incl r2 r1.
Proof.
  apply (recommendations_shrink_with_metric Spec.Program
           (sample_record "python" 0 30 12 "SAFE")
           (sample_record "python" 0 50 12 "SAFE") eq_refl eq_refl eq_refl).
  discriminate.
Defined.

(** X6.  [get_ai_recommendations] never raises on a record and never
    reaches its [except] clause: the list it returns has no model twice,
    does not hold [Analysis Failed], and holds [Human Review] exactly when
    the type key is missing or unrecognized. *)
Theorem recommendations_well_formed (d : file_data) :
  exists recommendations,
    get_ai_recommendations d = Return recommendations
    /\ NoDup recommendations
    /\ ~ In "Analysis Failed" recommendations
    /\ (In "Human Review" recommendations
        <-> ~ In (get (fd_type d) "unknown") [ "python"; "config" ]).
Proof.
  destruct (str_in (get (fd_type d) "unknown") [ "python"; "config" ]) eqn:Hknown.
  - assert (Hin := Hknown). apply str_in_In in Hin.
    assert (Hkind : exists k, fd_type d = Some (Spec.type_name k)).
    { destruct (fd_type d) as [file_type |]; simpl in Hin.
      - destruct Hin as [H | [H | []]]; subst file_type;
          [exists Spec.Program | exists Spec.Config]; reflexivity.
      - destruct Hin as [H | [H | []]]; discriminate H. }
    destruct Hkind as [k Htype].
    rewrite (get_ai_recommendations_recognized k d Htype).
    eexists. split; [reflexivity |].
    split; [apply post_filter_NoDup, survivors_NoDup |].
    assert (Hmodels : forall model,
               In model (post_filter (get (fd_safety d) "ERROR")
                           (Spec.survivors k (get (Spec.primary_metric k d) (int 0)))) ->
               In model Spec.registry_models).
    { intros model Hm.
      destruct (post_filter_keeps_order (get (fd_safety d) "ERROR")
                  (Spec.survivors k (get (Spec.primary_metric k d) (int 0)))
                  Spec.registry_models) as [_ Hsub].
      { unfold Spec.survivors. apply in_order_of_filter, in_order_of_refl. }
      apply Hsub, survivors_within_threshold in Hm. apply Hm. }
    split.
    + intros Hbad. apply Hmodels in Hbad. simpl in Hbad. intuition discriminate.
    + split; [| intros Hout; contradiction].
      intros Hbad. apply Hmodels in Hbad. simpl in Hbad. intuition discriminate.
  - exists [ "Human Review" ]. unfold get_ai_recommendations. rewrite Hknown.
    split; [reflexivity |]. split; [repeat constructor; intros [] |].
    split; [simpl; intuition discriminate |].
    split; [| intros _; left; reflexivity].
    intros _ Hin. apply str_in_In in Hin. congruence.
Qed.

(** ** Rating, then recommending *)

Lemma get_ai_recommendations_rated (k : Spec.file_kind) (d : file_data) (safety : string) :
  fd_type d = Some (Spec.type_name k) ->
  get_ai_recommendations (set_safety d safety)
  = Return (post_filter safety (Spec.survivors k (get (Spec.primary_metric k d) (int 0)))).
Proof.
  intros Htype.
  rewrite (get_ai_recommendations_recognized k (set_safety d safety) Htype).
  destruct k; reflexivity.
Qed.

Lemma rate_and_recommend_ratable (k : Spec.file_kind) (d : file_data) (metric : Q) :
  fd_type d = Some (Spec.type_name k) ->
  Spec.primary_metric k d = Some metric ->
  let rating :=
    Spec.tier_name
      match k with
      | Spec.Program =>
          Spec.comment_adjustment (Spec.base_tier k metric)
                                  (get (fd_comment_density d) (int 0))
      | Spec.Config => Spec.base_tier k metric
      end in
  rate_and_recommend d
  = Return (set_recommendations (set_safety d rating)
              (post_filter rating (Spec.survivors k metric))).
Proof.
  intros Htype Hmetric rating. unfold rate_and_recommend.
  rewrite (get_safety_rating_ratable k d metric Htype Hmetric). cbn [bind].
  fold rating. rewrite (get_ai_recommendations_rated k d rating Htype).
  rewrite Hmetric. reflexivity.
Qed.

Lemma post_filter_on_tier (t : Spec.tier) (l : list string) :
  post_filter (Spec.tier_name t) l
  = match t with
    | Spec.DANGER =>
        if str_in "claude-3.5-sonnet" l then [ "claude-3.5-sonnet" ] else []
    | Spec.COMPLEX => filter (fun m => negb (String.eqb m "claude-3.5-haiku")) l
    | _ => l
    end.
Proof. destruct t; reflexivity. Qed.

Lemma post_filter_rank_antitone (t1 t2 : Spec.tier) (l : list string) :
  (Spec.rank t2 <= Spec.rank t1)%nat ->
  incl (post_filter (Spec.tier_name t1) l) (post_filter (Spec.tier_name t2) l).
Proof.
  intros Hrank. rewrite !post_filter_on_tier.
  assert (Hfilter : incl (filter (fun m => negb (String.eqb m "claude-3.5-haiku")) l) l)
    by (intros m Hm; apply filter_In in Hm; apply Hm).
  assert (Htop : forall l', (In "claude-3.5-sonnet" l -> In "claude-3.5-sonnet" l') ->
                            incl (if str_in "claude-3.5-sonnet" l
                                  then [ "claude-3.5-sonnet" ] else []) l').
  { intros l' Hl'. destruct (str_in "claude-3.5-sonnet" l) eqn:Hin; [| intros m []].
    apply str_in_In in Hin. intros m [<- | []]. apply Hl'. exact Hin. }
  destruct t1, t2; simpl in Hrank; try lia;
    try apply incl_refl; try exact Hfilter; apply Htop; auto.
  intros Hin. apply filter_In. split; [exact Hin | reflexivity].
Qed.

(** X7.  For two program records with the same complexity, rated and then
    filtered as [analyze_file] does, the one with the higher comment density
    keeps every model recommended for the other: better comments never
    cost a recommendation. *)
Theorem better_comments_keep_models (d1 d2 : file_data) (complexity : Q) :
  fd_type d1 = Some "python" ->
  fd_type d2 = Some "python" ->
  fd_complexity d1 = Some complexity ->
  fd_complexity d2 = Some complexity ->
  (get (fd_comment_density d1) (int 0) <= get (fd_comment_density d2) (int 0))%Q ->
  exists r1 r2 l1 l2,
    rate_and_recommend d1 = Return r1
    /\ rate_and_recommend d2 = Return r2
    /\ fd_recommendations r1 = Some l1
    /\ fd_recommendations r2 = Some l2
    /\ incl l1 l2.
Proof.
  intros Ht1 Ht2 Hc1 Hc2 Hdensity.
  rewrite (rate_and_recommend_ratable Spec.Program d1 complexity Ht1 Hc1).
  rewrite (rate_and_recommend_ratable Spec.Program d2 complexity Ht2 Hc2).
  do 4 eexists. repeat (split; [reflexivity |]).
  apply post_filter_rank_antitone.
  apply comment_adjustment_rank_monotone; [lia | exact Hdensity].
Qed.

Lemma better_comments_keep_models_witness :
  exists r1 r2 l1 l2,
    rate_and_recommend (sample_record "python" 0 40 5 "PENDING") = Return r1
    /\ rate_and_recommend (sample_record "python" 0 40 30 "PENDING") = Return r2
    /\ fd_recommendations r1 = Some l1
    /\ fd_recommendations r2 = Some l2
    /\ incl l1 l2.
Proof.
  apply (better_comments_keep_models
           (sample_record "python" 0 40 5 "PENDING")
           (sample_record "python" 0 40 30 "PENDING") 40
           eq_refl eq_refl eq_refl eq_refl).
  discriminate.
Defined.

(** X8.  A record that cannot be rated is rated ERROR; it is then
    recommended [Human Review] when its type is missing or unrecognized,
    but every model of the registry when only the metric of a recognized
    type is missing, because the filter reads a missing metric as 0. *)
Theorem unratable_record_recommendations (d : file_data) :
  ~ ratable d ->
  rate_and_recommend d
  = Return (set_recommendations (set_safety d "ERROR")
              (if str_in (get (fd_type d) "unknown") [ "python"; "config" ]
               then Spec.registry_models
               else [ "Human Review" ])).
Proof.
  intros Hnot. unfold rate_and_recommend.
  rewrite (get_safety_rating_unratable d Hnot). cbn [bind].
  destruct (str_in (get (fd_type d) "unknown") [ "python"; "config" ]) eqn:Hknown.
  - assert (Hin := Hknown). apply str_in_In in Hin.
    assert (Hkind : exists k, fd_type d = Some (Spec.type_name k)).
    { destruct (fd_type d) as [file_type |]; simpl in Hin.
      - destruct Hin as [H | [H | []]]; subst file_type;
          [exists Spec.Program | exists Spec.Config]; reflexivity.
      - destruct Hin as [H | [H | []]]; discriminate H. }
    destruct Hkind as [k Htype].
    rewrite (get_ai_recommendations_rated k d "ERROR" Htype).
    assert (Hmissing : Spec.primary_metric k d = None).
    { destruct (Spec.primary_metric k d) as [metric |] eqn:Hm; [| reflexivity].
      exfalso. apply Hnot. exists k, metric. split; assumption. }
    rewrite Hmissing. destruct k; reflexivity.
  - unfold get_ai_recommendations.
    change (fd_type (set_safety d "ERROR")) with (fd_type d).
    rewrite Hknown. reflexivity.
Qed.

Lemma unratable_record_recommendations_witness :
  rate_and_recommend (record_without_metric None)
  = Return (set_recommendations (set_safety (record_without_metric None) "ERROR")
              [ "claude-3.5-sonnet"; "claude-3.5-haiku"; "gpt-4-turbo" ])
  /\ fd_recommendations (set_recommendations
                           (set_safety (record_of_type (Some "other") 3 "PENDING") "ERROR")
                           [ "Human Review" ])
     = Some [ "Human Review" ].
Proof.
  split; [| reflexivity].
  apply (unratable_record_recommendations (record_without_metric None)).
  intros (k & metric & Hk & Hm). destruct k; simpl in *; discriminate.
Defined.

(** ** What [analyze_file] returns *)

Lemma path_kind_cases (file_path : string) (k : Spec.file_kind) :
  path_kind file_path = Some k ->
  String.eqb (basename file_path) "report.py" = false
  /\ str_in (lower (snd (splitext file_path))) PYTHON_EXTS
     = match k with Spec.Program => true | Spec.Config => false end
  /\ (k = Spec.Config -> str_in (lower (snd (splitext file_path))) CONFIG_EXTS = true).
Proof.
  unfold path_kind, skipped.
  destruct (String.eqb (basename file_path) "report.py"); [discriminate |].
  cbn [orb]. cbv zeta.
  destruct (str_in (lower (snd (splitext file_path))) PYTHON_EXTS).
  - cbn [negb andb]. intros [= <-]. repeat split. discriminate.
  - destruct (str_in (lower (snd (splitext file_path))) CONFIG_EXTS);
      cbn [negb andb]; [| discriminate].
    intros [= <-]. repeat split.
Qed.

Lemma path_kind_skipped (file_path : string) :
  path_kind file_path = None <-> skipped file_path = true.
Proof.
  unfold path_kind. destruct (skipped file_path).
  - split; reflexivity.
  - destruct (str_in _ PYTHON_EXTS); split; discriminate.
Qed.

(** The [try] block on a program file, step by step. *)
Lemma analyze_file_body_program (w : world) (file_path : string) :
  path_kind file_path = Some Spec.Program ->
  analyze_file_body w file_path
  = (resolved <- resolve w file_path ;;
     size <- get_file_size w file_path ;;
     tokens <- tokenize w file_path ;;
     source <- read w file_path ;;
     blocks <- cc_visit w source ;;
     data <- analyze_comments w file_path ;;
     result <- rate_and_recommend
                 (measured_record Spec.Program resolved size
                    (Z.of_nat (List.length tokens)) (int (sum blocks))
                    (cd_comment_density data) (cd_comment_quality data)) ;;
     Return (Some result)).
Proof.
  intros Hkind. apply path_kind_cases in Hkind. destruct Hkind as (Hname & Hpy & _).
  unfold analyze_file_body. rewrite Hname. cbv zeta. rewrite Hpy.
  cbn [String.eqb Ascii.eqb Bool.eqb].
  destruct (resolve w file_path) as [resolved |]; [| reflexivity]. cbn [bind].
  destruct (get_file_size w file_path) as [size |]; [| reflexivity]. cbn [bind].
  destruct (tokenize w file_path) as [tokens |]; [| reflexivity]. cbn [bind].
  destruct (read w file_path) as [source |]; [| reflexivity]. cbn [bind].
  destruct (cc_visit w source) as [blocks |]; [| reflexivity]. cbn [bind].
  destruct (analyze_comments w file_path) as [data |]; [| reflexivity]. cbn [bind].
  unfold rate_and_recommend, measured_record, update_comments, set_complexity, set_tokens.
  cbn [fd_path fd_type fd_size fd_tokens fd_complexity fd_comment_density
       fd_comment_quality fd_safety fd_recommendations Spec.type_name].
  destruct (get_safety_rating _) as [safety |]; [| reflexivity]. cbn [bind].
  destruct (get_ai_recommendations _) as [recommendations |]; reflexivity.
Qed.

(** The [try] block on a configuration file. *)
Lemma analyze_file_body_config (w : world) (file_path : string) :
  path_kind file_path = Some Spec.Config ->
  analyze_file_body w file_path
  = (resolved <- resolve w file_path ;;
     size <- get_file_size w file_path ;;
     content <- read w file_path ;;
     result <- rate_and_recommend
                 (measured_record Spec.Config resolved size
                    (split_len content) (int 0) (int 0) "N/A") ;;
     Return (Some result)).
Proof.
  intros Hkind. apply path_kind_cases in Hkind.
  destruct Hkind as (Hname & Hpy & Hcfg). specialize (Hcfg eq_refl).
  unfold analyze_file_body. rewrite Hname. cbv zeta. rewrite Hpy, Hcfg.
  cbn [String.eqb Ascii.eqb Bool.eqb].
  destruct (resolve w file_path) as [resolved |]; [| reflexivity]. cbn [bind].
  destruct (get_file_size w file_path) as [size |]; [| reflexivity]. cbn [bind].
  destruct (read w file_path) as [content |]; [| reflexivity]. cbn [bind].
  unfold rate_and_recommend, measured_record, set_tokens.
  cbn [fd_path fd_type fd_size fd_tokens fd_complexity fd_comment_density
       fd_comment_quality fd_safety fd_recommendations Spec.type_name].
  destruct (get_safety_rating _) as [safety |]; [| reflexivity]. cbn [bind].
  destruct (get_ai_recommendations _) as [recommendations |]; reflexivity.
Qed.

Ltac split_binds H :=
  repeat match type of H with
         | context [bind ?m _] =>
             let E := fresh "E" in
             destruct m eqn:E; cbn [bind try_except is_Exception] in H
         end.

Lemma analyze_file_body_not_none (w : world) (file_path : string) (k : Spec.file_kind) :
  path_kind file_path = Some k -> analyze_file_body w file_path <> Return None.
Proof.
  intros Hkind Hnone.
  destruct k;
    [rewrite (analyze_file_body_program w file_path Hkind) in Hnone
    | rewrite (analyze_file_body_config w file_path Hkind) in Hnone];
    split_binds Hnone; discriminate.
Qed.

(** X9.  [analyze_file] returns [None] exactly for a skipped path (the
    script [report.py] itself, or an extension that is neither a program's
    nor a configuration's), and then without asking the file system. *)
Theorem analyze_file_none_iff_skipped (w : world) (file_path : string) :
  analyze_file w file_path = Return None <-> skipped file_path = true.
Proof.
  split.
  - intros Hnone. destruct (path_kind file_path) as [k |] eqn:Hkind.
    + exfalso. unfold analyze_file in Hnone.
      destruct (analyze_file_body w file_path) as [result | e] eqn:Hbody.
      * cbn [try_except] in Hnone. rewrite Hnone in Hbody.
        exact (analyze_file_body_not_none w file_path k Hkind Hbody).
      * cbn [try_except is_Exception] in Hnone.
        destruct (resolve w file_path); discriminate.
    + apply path_kind_skipped. exact Hkind.
  - intros Hskip. unfold analyze_file.
    rewrite (analyze_file_body_skipped w file_path Hskip). reflexivity.
Qed.

Lemma rate_and_recommend_measured (k : Spec.file_kind) (resolved : string) (size : size_info)
      (tokens : Z) (complexity density : Q) (quality : string) :
  let m := measured_record k resolved size tokens complexity density quality in
  let metric := match k with Spec.Program => complexity | Spec.Config => size_kb size end in
  let rating :=
    Spec.tier_name
      match k with
      | Spec.Program => Spec.comment_adjustment (Spec.base_tier k metric) density
      | Spec.Config => Spec.base_tier k metric
      end in
  rate_and_recommend m
  = Return (set_recommendations (set_safety m rating)
              (post_filter rating (Spec.survivors k metric))).
Proof.
  intros m metric rating.
  assert (Hm : Spec.primary_metric k m = Some metric) by (destruct k; reflexivity).
  rewrite (rate_and_recommend_ratable k m metric eq_refl Hm). reflexivity.
Qed.

(** What a record that is not the failure record tells about its file. *)
Lemma analyze_file_body_inversion (w : world) (file_path : string) (r : file_data) :
  analyze_file_body w file_path = Return (Some r) ->
  exists k resolved size tokens complexity density quality,
    path_kind file_path = Some k
    /\ resolve w file_path = Return resolved
    /\ get_file_size w file_path = Return size
    /\ rate_and_recommend
         (measured_record k resolved size tokens complexity density quality)
       = Return r
    /\ match k with
       | Spec.Program =>
           exists token_list source blocks data,
             tokenize w file_path = Return token_list
             /\ read w file_path = Return source
             /\ cc_visit w source = Return blocks
             /\ analyze_comments w file_path = Return data
             /\ tokens = Z.of_nat (List.length token_list)
             /\ complexity = int (sum blocks)
             /\ density = cd_comment_density data
             /\ quality = cd_comment_quality data
       | Spec.Config =>
           exists content,
             read w file_path = Return content
             /\ tokens = split_len content
             /\ complexity = int 0 /\ density = int 0 /\ quality = "N/A"
       end.
Proof.
  intros Hbody.
  destruct (path_kind file_path) as [k |] eqn:Hkind.
  - destruct k.
    + rewrite (analyze_file_body_program w file_path Hkind) in Hbody.
      split_binds Hbody; try discriminate. injection Hbody as <-.
      do 7 eexists. split; [reflexivity |]. split; [reflexivity |].
      split; [reflexivity |]. split; [eassumption |].
      do 4 eexists. repeat (split; [eassumption || reflexivity |]). reflexivity.
    + rewrite (analyze_file_body_config w file_path Hkind) in Hbody.
      split_binds Hbody; try discriminate. injection Hbody as <-.
      do 7 eexists. split; [reflexivity |]. split; [reflexivity |].
      split; [reflexivity |]. split; [eassumption |].
      eexists. repeat (split; [eassumption || reflexivity |]). reflexivity.
  - apply path_kind_skipped in Hkind.
    rewrite (analyze_file_body_skipped w file_path Hkind) in Hbody. discriminate.
Qed.

Lemma analyze_file_inversion (w : world) (file_path : string) (r : file_data) :
  analyze_file w file_path = Return (Some r) ->
  exists resolved,
    resolve w file_path = Return resolved
    /\ (analyze_file_body w file_path = Return (Some r)
        \/ r = failure_record resolved).
Proof.
  unfold analyze_file. intros Hr.
  destruct (analyze_file_body w file_path) as [result | e] eqn:Hbody.
  - cbn [try_except] in Hr. injection Hr as ->.
    destruct (analyze_file_body_inversion w file_path r Hbody)
      as (k & resolved & size & tokens & complexity & density & quality & _ & Hres & _).
    exists resolved. split; [exact Hres | left; reflexivity].
  - cbn [try_except is_Exception] in Hr.
    destruct (resolve w file_path) as [resolved |]; [| discriminate].
    cbn [bind] in Hr. injection Hr as <-.
    exists resolved. split; [reflexivity | right; reflexivity].
Qed.

(** X10.  A record that [analyze_file] returns has all nine keys; its path
    is the resolved path; its type is [python], [config] or [error], and
    it is [error] exactly for the failure record. *)
Theorem analyze_file_result_populated (w : world) (file_path : string) (r : file_data) :
  analyze_file w file_path = Return (Some r) ->
  exists resolved file_type,
    resolve w file_path = Return resolved
    /\ fd_path r = Some resolved
    /\ fully_populated r
    /\ fd_type r = Some file_type
    /\ In file_type [ "python"; "config"; "error" ]
    /\ (file_type = "error" <-> r = failure_record resolved).
Proof.
  intros Hr.
  destruct (analyze_file_inversion w file_path r Hr) as (resolved & Hres & [Hbody | ->]).
  - destruct (analyze_file_body_inversion w file_path r Hbody)
      as (k & resolved' & size & tokens & complexity & density & quality
          & _ & Hres' & _ & Hrate & _).
    rewrite Hres in Hres'. injection Hres' as <-.
    rewrite rate_and_recommend_measured in Hrate. injection Hrate as <-.
    exists resolved, (Spec.type_name k).
    split; [exact Hres |]. split; [reflexivity |].
    split; [unfold fully_populated; simpl; repeat split; discriminate |].
    split; [reflexivity |].
    split; [destruct k; simpl; auto |].
    split; [destruct k; discriminate |].
    intros Heq. apply (f_equal fd_type) in Heq. destruct k; discriminate Heq.
  - exists resolved, "error".
    split; [exact Hres |]. split; [reflexivity |].
    split; [unfold fully_populated; simpl; repeat split; discriminate |].
    split; [reflexivity |]. split; [simpl; auto |]. split; reflexivity.
Qed.

Lemma analyze_file_result_populated_witness :
  exists resolved file_type,
    resolve broken_program "pkg/broken.py" = Return resolved
    /\ fd_path (failure_record "/repo/pkg/broken.py") = Some resolved
    /\ fully_populated (failure_record "/repo/pkg/broken.py")
    /\ fd_type (failure_record "/repo/pkg/broken.py") = Some file_type
    /\ In file_type [ "python"; "config"; "error" ]
    /\ (file_type = "error"
        <-> failure_record "/repo/pkg/broken.py" = failure_record resolved).
Proof.
  exact (analyze_file_result_populated broken_program "pkg/broken.py"
           (failure_record "/repo/pkg/broken.py") eq_refl).
Defined.

(** X11.  A record of type [python] or [config] that [analyze_file]
    returns is rated SIMPLE, SAFE, COMPLEX or DANGER, never ERROR, and it
    is consistent: rating and recommending it again returns the same
    record. *)
Theorem analysed_record_is_stable (w : world) (file_path : string) (r : file_data) :
  analyze_file w file_path = Return (Some r) ->
  fd_type r <> Some "error" ->
  exists k t,
    path_kind file_path = Some k
    /\ fd_type r = Some (Spec.type_name k)
    /\ fd_safety r = Some (Spec.tier_name t)
    /\ get_safety_rating r = Return (Spec.tier_name t)
    /\ rate_and_recommend r = Return r.
Proof.
  intros Hr Htype.
  destruct (analyze_file_inversion w file_path r Hr) as (resolved & Hres & [Hbody | ->]);
    [| exfalso; apply Htype; reflexivity].
  destruct (analyze_file_body_inversion w file_path r Hbody)
    as (k & resolved' & size & tokens & complexity & density & quality
        & Hkind & _ & _ & Hrate & _).
  rewrite rate_and_recommend_measured in Hrate. injection Hrate as <-.
  eexists k, _. split; [exact Hkind |]. split; [reflexivity |].
  split; [reflexivity |].
  set (metric := match k with Spec.Program => complexity | Spec.Config => size_kb size end).
  match goal with
  | |- get_safety_rating ?r = _ /\ _ =>
      assert (Hm : Spec.primary_metric k r = Some metric) by (destruct k; reflexivity);
      pose proof (get_safety_rating_ratable k r metric eq_refl Hm) as Hsafe;
      pose proof (rate_and_recommend_ratable k r metric eq_refl Hm) as Hagain
  end.
  split; [exact Hsafe |]. rewrite Hagain. reflexivity.
Qed.

Lemma analysed_record_is_stable_witness :
  exists r k t,
    analyze_file small_program "pkg/a.py" = Return (Some r)
    /\ path_kind "pkg/a.py" = Some k
    /\ fd_type r = Some (Spec.type_name k)
    /\ fd_safety r = Some (Spec.tier_name t)
    /\ get_safety_rating r = Return (Spec.tier_name t)
    /\ rate_and_recommend r = Return r.
Proof.
  eexists.
  destruct (analysed_record_is_stable small_program "pkg/a.py" _ eq_refl) as (k & t & H).
  - discriminate.
  - exists k, t. split; [reflexivity | exact H].
Defined.

(** X12.  A record of type [config] that [analyze_file] returns has
    complexity 0, comment density 0 and comment quality [N/A]; its tokens
    are the words of the file, and its rating is the base tier of its size
    in KB, without comment adjustment. *)
Theorem config_record_fields (w : world) (file_path : string) (r : file_data) :
  analyze_file w file_path = Return (Some r) ->
  fd_type r = Some "config" ->
  exists content size,
    read w file_path = Return content
    /\ get_file_size w file_path = Return size
    /\ fd_size r = Some size
    /\ fd_tokens r = Some (split_len content)
    /\ fd_complexity r = Some (int 0)
    /\ fd_comment_density r = Some (int 0)
    /\ fd_comment_quality r = Some "N/A"
    /\ fd_safety r = Some (Spec.tier_name (Spec.base_tier Spec.Config (size_kb size))).
Proof.
  intros Hr Htype.
  destruct (analyze_file_inversion w file_path r Hr) as (resolved & Hres & [Hbody | ->]);
    [| discriminate Htype].
  destruct (analyze_file_body_inversion w file_path r Hbody)
    as (k & resolved' & size & tokens & complexity & density & quality
        & _ & _ & Hsize & Hrate & Hk).
  rewrite rate_and_recommend_measured in Hrate. injection Hrate as <-.
  destruct k; [discriminate Htype |].
  destruct Hk as (content & Hread & -> & -> & -> & ->).
  exists content, size. repeat split; assumption.
Qed.

Lemma config_record_fields_witness :
  exists r content size,
    analyze_file small_program "conf/app.toml" = Return (Some r)
    /\ read small_program "conf/app.toml" = Return content
    /\ get_file_size small_program "conf/app.toml" = Return size
    /\ fd_size r = Some size
    /\ fd_tokens r = Some (split_len content)
    /\ fd_complexity r = Some (int 0)
    /\ fd_comment_density r = Some (int 0)
    /\ fd_comment_quality r = Some "N/A"
    /\ fd_safety r = Some (Spec.tier_name (Spec.base_tier Spec.Config (size_kb size))).
Proof.
  eexists.
  destruct (config_record_fields small_program "conf/app.toml" _ eq_refl eq_refl)
    as (content & size & H).
  exists content, size. split; [reflexivity | exact H].
Defined.

Lemma get_file_size_unreadable (w : world) (path : string) :
  getsize w path = Raise OSError -> get_file_size w path = Return zero_size.
Proof. intros H. unfold get_file_size. rewrite H. reflexivity. Qed.

(** X13.  When the size of a configuration file cannot be read
    ([OSError]), the analysis goes on with size 0: the file is rated SIMPLE
    and every model of the registry is recommended. *)
Theorem unreadable_size_rated_simple
        (w : world) (file_path resolved : string) (content : text) :
  path_kind file_path = Some Spec.Config ->
  resolve w file_path = Return resolved ->
  getsize w file_path = Raise OSError ->
  read w file_path = Return content ->
  exists r,
    analyze_file w file_path = Return (Some r)
    /\ fd_size r = Some zero_size
    /\ fd_safety r = Some "SIMPLE"
    /\ fd_recommendations r = Some Spec.registry_models.
Proof.
  intros Hkind Hres Hsize Hread. unfold analyze_file.
  rewrite (analyze_file_body_config w file_path Hkind), Hres.
  rewrite (get_file_size_unreadable w file_path Hsize), Hread. cbn [bind].
  rewrite rate_and_recommend_measured. cbn [bind try_except].
  eexists. split; [reflexivity |]. repeat split.
Qed.

Lemma unreadable_size_rated_simple_witness :
  exists r,
    analyze_file
      {| getsize := fun _ => Raise OSError;
         resolve := resolve small_program;
         tokenize := tokenize small_program;
         read := read small_program;
         cc_visit := cc_visit small_program |} "etc/app.yaml" = Return (Some r)
    /\ fd_size r = Some zero_size
    /\ fd_safety r = Some "SIMPLE"
    /\ fd_recommendations r = Some Spec.registry_models.
Proof.
  apply (unreadable_size_rated_simple _ "etc/app.yaml" "/repo/etc/app.yaml"
           [ 35; 32; 110; 111; 116; 101; 10; 120; 32; 61; 32; 49; 10 ]%N);
    reflexivity.
Defined.



(** X15.  [get_file_size] turns an [OSError] of [os.path.getsize] into the
    size 0 and lets any other exception through; when the size is read, it
    is stored unchanged under [bytes], and the KB and MB of a size that is
    not negative are not negative.  The only other outcome is the
    [OverflowError] of the division. *)
Theorem get_file_size_outcomes (w : world) (path : string) :
  (getsize w path = Raise OSError -> get_file_size w path = Return zero_size)
  /\ (forall e, getsize w path = Raise e -> e <> OSError ->
                get_file_size w path = Raise e)
  /\ (forall bytes_size,
        getsize w path = Return bytes_size ->
        get_file_size w path = Raise OverflowError
        \/ exists size,
            get_file_size w path = Return size
            /\ size_bytes size = bytes_size
            /\ ((0 <= bytes_size)%Z -> (0 <= size_kb size)%Q /\ (0 <= size_mb size)%Q)).
Proof.
  unfold get_file_size. repeat split.
  - intros ->. reflexivity.
  - intros e -> He. destruct e; try reflexivity. contradiction.
  - intros bytes_size ->. cbn [bind].
    destruct (Float64.truediv bytes_size 1024) as [kb | e1] eqn:Hkb.
    + destruct (Float64.truediv bytes_size (1024 ^ 2)) as [mb | e2] eqn:Hmb.
      * right. eexists. split; [reflexivity |]. split; [reflexivity |].
        intros Hpos. cbn [size_kb size_mb]. split.
        -- apply round_value_not_negative.
           apply (truediv_not_negative bytes_size 1024 kb Hpos); [lia | exact Hkb].
        -- apply round_value_not_negative.
           apply (truediv_not_negative bytes_size (1024 ^ 2) mb Hpos); [lia | exact Hmb].
      * left. cbn [bind try_except].
        unfold Float64.truediv in Hmb. simpl in Hmb.
        destruct (Float64.is_finite _); [discriminate |].
        injection Hmb as <-. reflexivity.
    + left. cbn [bind try_except].
      unfold Float64.truediv in Hkb.
      destruct (Float64.is_finite _); [discriminate |].
      injection Hkb as <-. reflexivity.
Qed.

(** ** The comment analyzer on any file *)

Lemma comment_metrics_outcomes (comment_lines total_lines : Z) (has_module_doc : bool) :
  (0 <= comment_lines)%Z ->
  (0 <= total_lines)%Z ->
  (total_lines = 0%Z -> has_module_doc = false) ->
  (exists e, comment_metrics comment_lines total_lines has_module_doc = Raise e)
  \/ exists density,
      comment_metrics comment_lines total_lines has_module_doc
      = Return {| cd_comment_density := density;
                  cd_comment_quality := Spec.comment_quality density |}
      /\ (0 <= density)%Q.
Proof.
  intros Hc Ht Hdoc.
  destruct (Z.eq_dec total_lines 0) as [-> | Hne].
  - right. exists (int 0). rewrite comment_metrics_no_lines, (Hdoc eq_refl).
    split; [reflexivity | apply Qle_refl].
  - assert (Hpos : (0 < total_lines)%Z) by lia.
    destruct (Float64.truediv comment_lines total_lines) as [ratio | e] eqn:Hdiv.
    + right. eexists. split.
      * apply (comment_metrics_lines _ _ _ ratio Hpos Hdiv).
      * apply round_value_not_negative, mul_int_not_negative; [| lia].
        apply (truediv_not_negative _ _ _ Hc Hpos Hdiv).
    + left. exists e. unfold comment_metrics.
      replace (total_lines >? 0)%Z with true by (symmetry; apply Z.gtb_lt; lia).
      rewrite Hdiv. reflexivity.
Qed.

Lemma analyze_comments_shape (w : world) (file_path : string) :
  exists data,
    analyze_comments w file_path = Return data
    /\ (0 <= cd_comment_density data)%Q
    /\ In (cd_comment_quality data) [ "EXCELLENT"; "GOOD"; "FAIR"; "POOR"; "ERROR" ]
    /\ (data = failed_comments
        \/ cd_comment_quality data = Spec.comment_quality (cd_comment_density data))
    /\ ((exists e, tokenize w file_path = Raise e) \/ (exists e, read w file_path = Raise e) ->
        data = failed_comments).
Proof.
  assert (Hfailed : (0 <= cd_comment_density failed_comments)%Q
                    /\ In (cd_comment_quality failed_comments)
                          [ "EXCELLENT"; "GOOD"; "FAIR"; "POOR"; "ERROR" ]
                    /\ (failed_comments = failed_comments
                        \/ cd_comment_quality failed_comments
                           = Spec.comment_quality (cd_comment_density failed_comments)))
    by (split; [apply Qle_refl | split; [simpl; auto 6 | left; reflexivity]]).
  unfold analyze_comments.
  destruct (tokenize w file_path) as [tokens | e1] eqn:Htok.
  - destruct (read w file_path) as [source | e2] eqn:Hread.
    + cbn [bind].
      destruct (comment_metrics_outcomes
                  (count_comments tokens)
                  (Z.of_nat (List.length (readlines source)))
                  (module_doc (readlines source))) as [[e He] | (density & Hd & Hpos)].
      * unfold count_comments. lia.
      * lia.
      * intros Hzero. destruct (module_doc (readlines source)) eqn:Hdoc; [| reflexivity].
        apply module_doc_needs_a_line in Hdoc. lia.
      * rewrite He. exists failed_comments. cbn [try_except is_Exception].
        split; [reflexivity |]. repeat split; apply Hfailed.
      * rewrite Hd. eexists. cbn [try_except]. split; [reflexivity |].
        cbn [cd_comment_density cd_comment_quality].
        split; [exact Hpos |]. split.
        -- unfold Spec.comment_quality. simpl find.
           repeat match goal with
                  | |- context [Qle_bool ?a ?b] => destruct (Qle_bool a b)
                  end; simpl; auto 6.
        -- split; [right; reflexivity |].
           intros [[e He] | [e He]]; discriminate He.
    + exists failed_comments. cbn [bind try_except is_Exception].
      split; [reflexivity |]. repeat split; apply Hfailed.
  - exists failed_comments. cbn [bind try_except is_Exception].
    split; [reflexivity |]. repeat split; apply Hfailed.
Qed.



(** X17.  The comment quality tells how the resolver adjusts a tier of the
    scale: EXCELLENT always moves it one step safer, GOOD leaves it, POOR
    always moves it one step less safe; FAIR (5 to 15) straddles the
    penalty threshold 10, so a FAIR file is penalized below 10 and left
    alone from 10 on. *)
Theorem quality_predicts_adjustment (t : Spec.tier) (density : Q) :
  let quality :=
    comment_tier_loop [ ("excellent", 25); ("good", 15); ("fair", 5); ("poor", 0) ]%Z
                      density "POOR" in
  (quality = "EXCELLENT" ->
   adjust_safety (Spec.tier_name t) density
   = Return (Spec.tier_name (Spec.one_step_safer t)))
  /\ (quality = "GOOD" ->
      adjust_safety (Spec.tier_name t) density = Return (Spec.tier_name t))
  /\ (quality = "POOR" ->
      adjust_safety (Spec.tier_name t) density
      = Return (Spec.tier_name (Spec.one_step_less_safe t)))
  /\ (quality = "FAIR" ->
      adjust_safety (Spec.tier_name t) density
      = Return (Spec.tier_name
                  (if Qle_bool 10 density then t else Spec.one_step_less_safe t))).
Proof.
  intros quality. subst quality.
  rewrite comment_tier_loop_quality, adjust_safety_tier.
  unfold Spec.comment_quality, Spec.comment_adjustment. simpl find.
  q_cases; cbn [negb fst]; repeat split; intros H; try discriminate H;
    try reflexivity; unfold inject_Z in *; lra.
Qed.

(** ** Lines of a text *)

Lemma readlines_from_concat (s current : text) :
  List.concat (readlines_from s current) = rev current ++ s.
Proof.
  revert current. induction s as [| c rest IH]; intros current; simpl.
  - destruct current; simpl; rewrite ?app_nil_r; reflexivity.
  - destruct (c =? 10)%N.
    + simpl. rewrite IH. simpl. rewrite <- app_assoc. reflexivity.
    + rewrite IH. simpl. rewrite <- app_assoc. reflexivity.
Qed.

Lemma readlines_from_lines (s current : text) :
  ~ In 10%N current -> Forall is_line (readlines_from s current).
Proof.
  revert current. induction s as [| c rest IH]; intros current Hcur; simpl.
  - destruct current as [| c' current']; [constructor |].
    constructor; [| constructor].
    exists (rev (c' :: current')). split; [rewrite <- in_rev; exact Hcur |].
    right. split; [reflexivity |].
    intros Hnil. apply (f_equal (@List.length N)) in Hnil.
    rewrite length_rev in Hnil. discriminate.
  - destruct (c =? 10)%N eqn:Hc.
    + apply N.eqb_eq in Hc. subst c. constructor.
      * exists (rev current). split; [rewrite <- in_rev; exact Hcur |].
        left. reflexivity.
      * apply IH. intros [].
    + apply IH. apply N.eqb_neq in Hc. intros [Heq | Hin]; [congruence | auto].
Qed.

(** [readlines] loses nothing: the lines put together are the text; every
    line is not empty and has its only line feed at its end; and there is
    no line exactly when the text is empty. *)
Lemma readlines_round_trip (s : text) :
  List.concat (readlines s) = s
  /\ Forall is_line (readlines s)
  /\ (readlines s = [] <-> s = []).
Proof.
  unfold readlines. split; [apply readlines_from_concat |].
  split; [apply readlines_from_lines; intros [] |].
  split.
  - intros Hnil. pose proof (readlines_from_concat s []) as Hcat.
    rewrite Hnil in Hcat. simpl in Hcat. symmetry. exact Hcat.
  - intros ->. reflexivity.
Qed.

(** X18.  The quality EXCELLENT always comes from a density of at least
    25: read from a file, the override for a file without lines and with a
    leading docstring never applies, because a file without lines has no
    first line.  An empty file that tokenizes gets density 0 and quality
    POOR; one that does not tokenize gets density 0 and quality ERROR. *)
Theorem excellent_needs_density (w : world) (file_path : string) (data : comment_data) :
  analyze_comments w file_path = Return data ->
  (cd_comment_quality data = "EXCELLENT" <-> (25 <= cd_comment_density data)%Q)
  /\ (read w file_path = Return [] ->
      (forall tokens, tokenize w file_path = Return tokens ->
                      data = {| cd_comment_density := int 0; cd_comment_quality := "POOR" |})
      /\ (forall e, tokenize w file_path = Raise e -> data = failed_comments)).
Proof.
  intros Hdata.
  destruct (analyze_comments_shape w file_path) as (data' & Hdata' & _ & _ & Hshape & Hfail).
  rewrite Hdata in Hdata'. injection Hdata' as <-.
  split.
  - destruct Hshape as [-> | ->].
    + simpl. split; [discriminate | intros H; exfalso; revert H; unfold int, inject_Z; lra].
    + destruct (comment_quality_intervals (cd_comment_density data))
        as (Hex & Hgood & Hfair & Hpoor).
      split; [| exact Hex].
      intros Hq. apply Qnot_lt_le. intros Hlt.
      destruct (Qlt_le_dec (cd_comment_density data) 5) as [H5 | H5];
        [rewrite (Hpoor H5) in Hq; discriminate |].
      destruct (Qlt_le_dec (cd_comment_density data) 15) as [H15 | H15];
        [rewrite (Hfair H5 H15) in Hq; discriminate |].
      rewrite (Hgood H15 Hlt) in Hq. discriminate.
  - intros Hread. split.
    + intros tokens Htok.
      destruct (analyze_comments_success w file_path tokens [] Htok Hread) as [Hnone _].
      rewrite (Hnone eq_refl) in Hdata. injection Hdata as <-. reflexivity.
    + intros e Htok. apply Hfail. left. exists e. exact Htok.
Qed.

(** A program whose comments are half of its lines is EXCELLENT with a
    density of at least 25, and an empty file that tokenizes is POOR. *)
Lemma excellent_needs_density_witness :
  (exists data,
      analyze_comments small_program "a.py" = Return data
      /\ cd_comment_quality data = "EXCELLENT"
      /\ (25 <= cd_comment_density data)%Q)
  /\ analyze_comments empty_program "empty.py"
     = Return {| cd_comment_density := int 0; cd_comment_quality := "POOR" |}.
Proof.
  split.
  - eexists. split; [reflexivity |]. split; [reflexivity |].
    apply (excellent_needs_density small_program "a.py" _ eq_refl). reflexivity.
  - destruct (analyze_comments empty_program "empty.py") as [data | e] eqn:Hdata;
      [| vm_compute in Hdata; discriminate].
    destruct (excellent_needs_density empty_program "empty.py" data Hdata) as [_ Hempty].
    destruct (Hempty eq_refl) as [Hpoor _].
    rewrite (Hpoor _ eq_refl). reflexivity.
Defined.

(** ** Paths *)

Lemma string_length_append (s1 s2 : string) :
  String.length (s1 ++ s2)%string = (String.length s1 + String.length s2)%nat.
Proof. induction s1; simpl; [reflexivity | rewrite IHs1; reflexivity]. Qed.

Lemma string_append_nil_r (s : string) : (s ++ "")%string = s.
Proof. induction s; simpl; [reflexivity | rewrite IHs; reflexivity]. Qed.

Lemma string_append_assoc (s1 s2 s3 : string) :
  ((s1 ++ s2) ++ s3)%string = (s1 ++ (s2 ++ s3))%string.
Proof. induction s1; simpl; [reflexivity | rewrite IHs1; reflexivity]. Qed.

Lemma substring_whole (s : string) : substring 0 (String.length s) s = s.
Proof. induction s; simpl; [reflexivity | rewrite IHs; reflexivity]. Qed.

Lemma substring_skip (pre s : string) (n m : nat) :
  substring (String.length pre + n) m (pre ++ s)%string = substring n m s.
Proof. induction pre; simpl; [reflexivity | exact IHpre]. Qed.

Lemma substring_split (s : string) (n : nat) :
  (n <= String.length s)%nat ->
  (substring 0 n s ++ substring n (String.length s - n) s)%string = s.
Proof.
  revert n. induction s as [| c s IH]; intros n Hn; simpl in *.
  - destruct n; reflexivity.
  - destruct n as [| n]; simpl.
    + rewrite substring_whole. reflexivity.
    + rewrite IH; [reflexivity | lia].
Qed.

Lemma rfind_from_range (c : ascii) (s : string) (i last : Z) :
  rfind_from c s i last = last
  \/ (i <= rfind_from c s i last < i + Z.of_nat (String.length s))%Z.
Proof.
  revert i last. induction s as [| d rest IH]; intros i last; simpl String.length.
  - left. reflexivity.
  - cbn [rfind_from].
    destruct (IH (i + 1)%Z (if Ascii.eqb d c then i else last)) as [-> | Hr].
    + destruct (Ascii.eqb d c); [right; lia | left; reflexivity].
    + right. lia.
Qed.

Lemma rfind_range (c : ascii) (s : string) :
  (-1 <= rfind c s < Z.of_nat (String.length s))%Z.
Proof.
  unfold rfind. destruct (rfind_from_range c s 0 (-1)) as [-> | H]; lia.
Qed.

Lemma rfind_from_app (c : ascii) (s1 s2 : string) (i last : Z) :
  rfind_from c (s1 ++ s2)%string i last
  = rfind_from c s2 (i + Z.of_nat (String.length s1)) (rfind_from c s1 i last).
Proof.
  revert i last. induction s1 as [| d s1 IH]; intros i last; simpl.
  - rewrite Z.add_0_r. reflexivity.
  - rewrite IH. f_equal. lia.
Qed.

Lemma rfind_from_absent (c : ascii) (s : string) (i last : Z) :
  has_char c s = false -> rfind_from c s i last = last.
Proof.
  revert i last. induction s as [| d rest IH]; intros i last; simpl; [reflexivity |].
  intros H. apply orb_false_iff in H. destruct H as [-> Hrest].
  apply IH. exact Hrest.
Qed.

Lemma rfind_from_present (c : ascii) (s : string) (i last : Z) :
  has_char c s = true ->
  rfind_from c s i last = (i + rfind c s)%Z /\ (0 <= rfind c s)%Z.
Proof.
  unfold rfind. revert i last. induction s as [| d rest IH]; intros i last; simpl.
  - discriminate.
  - intros H. destruct (has_char c rest) eqn:Hrest.
    + destruct (IH (i + 1)%Z (if Ascii.eqb d c then i else last) eq_refl) as [-> _].
      destruct (IH 1%Z (if Ascii.eqb d c then 0%Z else (-1)%Z) eq_refl) as [-> H0].
      lia.
    + rewrite !(rfind_from_absent c rest _ _ Hrest).
      rewrite orb_false_r in H. rewrite H. lia.
Qed.

Lemma rfind_absent_iff (c : ascii) (s : string) :
  has_char c s = false <-> rfind c s = (-1)%Z.
Proof.
  split.
  - intros H. unfold rfind. apply rfind_from_absent. exact H.
  - intros H. destruct (has_char c s) eqn:Hc; [| reflexivity].
    destruct (rfind_from_present c s 0 (-1) Hc) as [_ H0]. lia.
Qed.

(** The last occurrence splits the string. *)
Lemma rfind_split (c : ascii) (s : string) :
  (0 <= rfind c s)%Z ->
  exists pre post,
    s = (pre ++ String c post)%string
    /\ rfind c s = Z.of_nat (String.length pre)
    /\ has_char c post = false.
Proof.
  induction s as [| d rest IH]; intros Hr.
  - unfold rfind in Hr. simpl in Hr. lia.
  - destruct (has_char c rest) eqn:Hrest.
    + destruct (rfind_from_present c rest 0 (-1) Hrest) as [_ H0].
      destruct (IH H0) as (pre & post & Hs & Hlen & Hpost).
      exists (String d pre), post. split; [simpl; rewrite <- Hs; reflexivity |].
      split; [| exact Hpost].
      unfold rfind. cbn [rfind_from].
      destruct (rfind_from_present c rest (0 + 1) (if Ascii.eqb d c then 0%Z else (-1)%Z) Hrest)
        as [-> _].
      rewrite Hlen. simpl String.length. lia.
    + unfold rfind in *. cbn [rfind_from] in *.
      rewrite (rfind_from_absent c rest _ _ Hrest) in *.
      destruct (Ascii.eqb d c) eqn:Hd; [| lia].
      apply Ascii.eqb_eq in Hd. subst d.
      exists "", rest. repeat split; assumption.
Qed.

Lemma has_char_app (c : ascii) (s1 s2 : string) :
  has_char c (s1 ++ s2)%string = has_char c s1 || has_char c s2.
Proof.
  induction s1; simpl; [reflexivity | rewrite IHs1, orb_assoc; reflexivity].
Qed.

Lemma slice_from_app (pre s : string) (k : Z) :
  (0 <= k)%Z ->
  slice_from (pre ++ s)%string (Z.of_nat (String.length pre) + k) = slice_from s k.
Proof.
  intros Hk. unfold slice_from.
  replace (Z.to_nat (Z.of_nat (String.length pre) + k))
    with (String.length pre + Z.to_nat k)%nat by lia.
  rewrite string_length_append, substring_skip. f_equal. lia.
Qed.

Lemma slice_from_zero (s : string) : slice_from s 0 = s.
Proof. unfold slice_from. simpl. rewrite Nat.sub_0_r. apply substring_whole. Qed.

Lemma has_non_dot_shift (pre s : string) (a b : Z) (fuel : nat) :
  (0 <= a)%Z ->
  has_non_dot (pre ++ s)%string (Z.of_nat (String.length pre) + a)
              (Z.of_nat (String.length pre) + b) fuel
  = has_non_dot s a b fuel.
Proof.
  revert a. induction fuel as [| fuel IH]; intros a Ha; [reflexivity |].
  cbn [has_non_dot].
  replace (Z.of_nat (String.length pre) + a <? Z.of_nat (String.length pre) + b)%Z
    with (a <? b)%Z
    by (destruct (Z.ltb_spec a b), (Z.ltb_spec (Z.of_nat (String.length pre) + a)
                                               (Z.of_nat (String.length pre) + b));
        try reflexivity; lia).
  replace (Z.to_nat (Z.of_nat (String.length pre) + a))
    with (String.length pre + Z.to_nat a)%nat by lia.
  rewrite substring_skip.
  replace (Z.of_nat (String.length pre) + a + 1)%Z
    with (Z.of_nat (String.length pre) + (a + 1))%Z by lia.
  rewrite IH by lia. reflexivity.
Qed.

Lemma has_non_dot_fuel (p : string) (a b : Z) (fuel1 fuel2 : nat) :
  (Z.to_nat (b - a) <= fuel1)%nat ->
  (Z.to_nat (b - a) <= fuel2)%nat ->
  has_non_dot p a b fuel1 = has_non_dot p a b fuel2.
Proof.
  revert a fuel2. induction fuel1 as [| fuel1 IH]; intros a fuel2 H1 H2.
  - destruct fuel2 as [| fuel2]; [reflexivity |]. cbn [has_non_dot].
    replace (a <? b)%Z with false by (symmetry; apply Z.ltb_ge; lia). reflexivity.
  - destruct fuel2 as [| fuel2]; cbn [has_non_dot].
    + replace (a <? b)%Z with false by (symmetry; apply Z.ltb_ge; lia). reflexivity.
    + destruct (Z.ltb_spec a b); [| reflexivity].
      destruct (negb _); [reflexivity |].
      apply IH; lia.
Qed.

Lemma ends_with_slash_split (s : string) :
  ends_with_slash s = true -> exists pre, s = (pre ++ "/")%string.
Proof.
  induction s as [| c rest IH]; [discriminate |].
  destruct rest as [| c' rest'].
  - simpl. intros H. apply Ascii.eqb_eq in H. subst c. exists "". reflexivity.
  - intros H. change (ends_with_slash (String c' rest') = true) in H.
    destruct (IH H) as [pre Hpre]. exists (String c pre). simpl. rewrite <- Hpre.
    reflexivity.
Qed.

Lemma ends_with_slash_app (s : string) : ends_with_slash (s ++ "/")%string = true.
Proof.
  induction s as [| c rest IH]; [reflexivity |].
  simpl. destruct (rest ++ "/")%string eqn:E; [| exact IH].
  destruct rest; discriminate E.
Qed.

Lemma rfind_slash_of_directory (pre : string) :
  pre = "" \/ ends_with_slash pre = true ->
  rfind "/" pre = (Z.of_nat (String.length pre) - 1)%Z.
Proof.
  intros [-> | H]; [reflexivity |].
  destruct (ends_with_slash_split pre H) as [pre' ->].
  unfold rfind. rewrite rfind_from_app, string_length_append. simpl. lia.
Qed.

(** A path made of a directory part and a file name has the base name and
    the extension of the file name. *)
Lemma component_of_path (pre fn : string) :
  pre = "" \/ ends_with_slash pre = true ->
  has_char "/" fn = false ->
  basename (pre ++ fn)%string = fn
  /\ snd (splitext (pre ++ fn)%string) = snd (splitext fn).
Proof.
  intros Hpre Hfn.
  assert (Hsep : rfind "/" (pre ++ fn)%string = (Z.of_nat (String.length pre) - 1)%Z).
  { unfold rfind. rewrite rfind_from_app, (rfind_from_absent _ _ _ _ Hfn).
    apply rfind_slash_of_directory. exact Hpre. }
  assert (Hsep' : rfind "/" fn = (-1)%Z) by (apply rfind_absent_iff; exact Hfn).
  split.
  - unfold basename. rewrite Hsep.
    replace (Z.of_nat (String.length pre) - 1 + 1)%Z
      with (Z.of_nat (String.length pre) + 0)%Z by lia.
    rewrite slice_from_app by lia. apply slice_from_zero.
  - unfold splitext. rewrite Hsep, Hsep'.
    destruct (has_char "." fn) eqn:Hdot.
    + assert (Hd : rfind "." (pre ++ fn)%string
                   = (Z.of_nat (String.length pre) + rfind "." fn)%Z
                   /\ (0 <= rfind "." fn)%Z).
      { unfold rfind at 1. rewrite rfind_from_app.
        destruct (rfind_from_present "." fn (0 + Z.of_nat (String.length pre))
                    (rfind_from "." pre 0 (-1)) Hdot) as [-> H0].
        split; [lia | exact H0]. }
      destruct Hd as [-> H0].
      replace (Z.of_nat (String.length pre) + rfind "." fn
               >? Z.of_nat (String.length pre) - 1)%Z with true
        by (symmetry; apply Z.gtb_lt; lia).
      replace (rfind "." fn >? -1)%Z with true by (symmetry; apply Z.gtb_lt; lia).
      replace (Z.of_nat (String.length pre) - 1 + 1)%Z
        with (Z.of_nat (String.length pre) + 0)%Z by lia.
      rewrite has_non_dot_shift by lia.
      pose proof (rfind_range "." fn) as Hrange.
      rewrite (has_non_dot_fuel fn 0 (rfind "." fn) _ (String.length fn))
        by (rewrite ?string_length_append; lia).
      change (-1 + 1)%Z with 0%Z.
      destruct (has_non_dot fn 0 (rfind "." fn) (String.length fn)); [| reflexivity].
      cbn [snd]. apply slice_from_app. exact H0.
    + assert (Hd : (rfind "." (pre ++ fn)%string <= Z.of_nat (String.length pre) - 1)%Z).
      { unfold rfind. rewrite rfind_from_app, (rfind_from_absent _ _ _ _ Hdot).
        pose proof (rfind_range "." pre). unfold rfind in *. lia. }
      replace (rfind "." (pre ++ fn)%string >? Z.of_nat (String.length pre) - 1)%Z
        with false by (symmetry; rewrite Z.gtb_ltb; apply Z.ltb_ge; lia).
      apply rfind_absent_iff in Hdot. rewrite Hdot. reflexivity.
Qed.

(** [os.path.splitext] splits without losing anything: root and extension
    put together are the path; the extension is empty or a dot followed by
    characters that are neither a dot nor a slash. *)
Lemma splitext_round_trip (p : string) :
  (fst (splitext p) ++ snd (splitext p))%string = p
  /\ (snd (splitext p) = ""
      \/ exists rest,
          snd (splitext p) = String "." rest
          /\ has_char "." rest = false
          /\ has_char "/" rest = false).
Proof.
  unfold splitext.
  destruct (rfind "." p >? rfind "/" p)%Z eqn:Hgt;
    [| split; [apply string_append_nil_r | left; reflexivity]].
  destruct (has_non_dot _ _ _ _);
    [| split; [apply string_append_nil_r | left; reflexivity]].
  apply Z.gtb_lt in Hgt.
  pose proof (rfind_range "/" p) as Hsep. pose proof (rfind_range "." p) as Hdot.
  cbn [fst snd]. split.
  - unfold slice_to, slice_from. apply substring_split. lia.
  - right. destruct (rfind_split "." p) as (pre & post & Hp & Hlen & Hpost); [lia |].
    exists post.
    assert (Hext : slice_from p (rfind "." p) = String "." post).
    { rewrite Hlen. rewrite Hp at 1.
      replace (Z.of_nat (String.length pre)) with (Z.of_nat (String.length pre) + 0)%Z by lia.
      rewrite slice_from_app by lia. apply slice_from_zero. }
    split; [exact Hext |]. split; [exact Hpost |].
    destruct (has_char "/" (String "." post)) eqn:Hslash;
      [| simpl in Hslash; exact Hslash].
    exfalso. revert Hgt. rewrite Hlen. rewrite Hp. unfold rfind at 1.
    rewrite rfind_from_app.
    destruct (rfind_from_present "/" (String "." post)
                (0 + Z.of_nat (String.length pre)) (rfind_from "/" pre 0 (-1)) Hslash)
      as [-> H0].
    lia.
Qed.

(** [os.path.basename] gives the last component: the path is a directory
    part, empty or ending with a slash, followed by the base name, and the
    base name has no slash. *)
Lemma basename_last_component (p : string) :
  exists pre,
    p = (pre ++ basename p)%string
    /\ (pre = "" \/ ends_with_slash pre = true)
    /\ has_char "/" (basename p) = false.
Proof.
  unfold basename.
  destruct (has_char "/" p) eqn:Hslash.
  - destruct (rfind_from_present "/" p 0 (-1) Hslash) as [_ H0].
    destruct (rfind_split "/" p H0) as (pre & post & Hp & Hlen & Hpost).
    exists (pre ++ "/")%string.
    assert (Hbase : slice_from p (rfind "/" p + 1) = post).
    { rewrite Hlen. rewrite Hp at 1.
      change (String "/" post) with ("/" ++ post)%string.
      rewrite <- string_append_assoc.
      replace (Z.of_nat (String.length pre) + 1)%Z
        with (Z.of_nat (String.length (pre ++ "/")%string) + 0)%Z
        by (rewrite string_length_append; simpl; lia).
      rewrite slice_from_app by lia. apply slice_from_zero. }
    rewrite Hbase. split; [rewrite string_append_assoc; exact Hp |].
    split; [right; apply ends_with_slash_app | exact Hpost].
  - exists "". assert (Hr := Hslash). apply rfind_absent_iff in Hr. rewrite Hr.
    change (-1 + 1)%Z with 0%Z. rewrite slice_from_zero.
    split; [reflexivity |]. split; [left; reflexivity | exact Hslash].
Qed.

Lemma os_path_join_directory (root fn : string) :
  has_char "/" fn = false ->
  exists pre,
    os_path_join root fn = (pre ++ fn)%string
    /\ (pre = "" \/ ends_with_slash pre = true).
Proof.
  intros Hfn. unfold os_path_join.
  assert (Hprefix : String.prefix "/" fn = false).
  { destruct fn as [| c rest]; [reflexivity |]. cbn [has_char] in Hfn.
    apply orb_false_iff in Hfn. destruct Hfn as [Hc _]. cbn [String.prefix].
    destruct (ascii_dec "/" c) as [<- | Hne]; [| reflexivity].
    rewrite Ascii.eqb_refl in Hc. discriminate Hc. }
  rewrite Hprefix.
  destruct (String.eqb root "") eqn:Hroot.
  - apply String.eqb_eq in Hroot. subst root. exists "". split; [reflexivity | left; reflexivity].
  - cbn [orb]. destruct (ends_with_slash root) eqn:Hend.
    + exists root. split; [reflexivity | right; exact Hend].
    + exists (root ++ "/")%string. split.
      * rewrite string_append_assoc. reflexivity.
      * right. apply ends_with_slash_app.
Qed.

(** X19.  For a file name without a slash, as [os.walk] gives them, the
    path [main] builds with [os.path.join] has that name as its base name
    and the same extension, so [analyze_file] skips the path exactly when
    [main] would not have passed the name: the two filters agree. *)
Theorem main_filter_agrees (root fn : string) :
  has_char "/" fn = false ->
  let full_path := os_path_join root fn in
  let ext := lower (snd (splitext fn)) in
  basename full_path = fn
  /\ snd (splitext full_path) = snd (splitext fn)
  /\ skipped full_path
     = (String.eqb fn "report.py"
        || negb (str_in ext PYTHON_EXTS || str_in ext CONFIG_EXTS)).
Proof.
  intros Hfn full_path ext.
  destruct (os_path_join_directory root fn Hfn) as (pre & Hjoin & Hpre).
  destruct (component_of_path pre fn Hpre Hfn) as [Hbase Hext].
  subst full_path. rewrite Hjoin.
  split; [exact Hbase |]. split; [exact Hext |].
  unfold skipped. rewrite Hbase, Hext. fold ext.
  destruct (str_in ext PYTHON_EXTS), (str_in ext CONFIG_EXTS); reflexivity.
Qed.

Lemma main_filter_agrees_witness :
  basename (os_path_join "./pkg" "tool.PY") = "tool.PY"
  /\ snd (splitext (os_path_join "./pkg" "tool.PY")) = snd (splitext "tool.PY")
  /\ skipped (os_path_join "./pkg" "tool.PY")
     = (String.eqb "tool.PY" "report.py"
        || negb (str_in (lower (snd (splitext "tool.PY"))) PYTHON_EXTS
                 || str_in (lower (snd (splitext "tool.PY"))) CONFIG_EXTS)).
Proof.
  apply (main_filter_agrees "./pkg" "tool.PY"). reflexivity.
Defined.

(** ** The rows of the report *)

Lemma valid_files_In (files : list (option file_data)) (d : file_data) :
  In d (valid_files files)
  <-> In (Some d) files /\ is_valid_file (Some d) = true.
Proof.
  induction files as [| f rest IH]; cbn [valid_files In]; [tauto |].
  destruct f as [d' |].
  - destruct (is_valid_file (Some d')) eqn:Hv; cbn [In]; rewrite IH.
    + split.
      * intros [<- | [Hin Hd]]; [split; [left; reflexivity | exact Hv] | tauto].
      * intros [[[= <-] | Hin] Hd]; [left; reflexivity | right; tauto].
    + split; [tauto |]. intros [[[= <-] | Hin] Hd]; [congruence | tauto].
  - replace (is_valid_file None) with false by reflexivity.
    rewrite IH. split; [tauto |]. intros [[H | Hin] Hd]; [discriminate | tauto].
Qed.

Lemma with_keys_returns (l : list file_data) (keyed : list ((Q * string) * file_data)) :
  with_keys l = Return keyed ->
  map snd keyed = l
  /\ Forall (fun kx => sort_key (snd kx) = Return (fst kx)) keyed.
Proof.
  revert keyed. induction l as [| x rest IH]; intros keyed; simpl.
  - intros [= <-]. split; constructor.
  - destruct (sort_key x) as [key |] eqn:Hkey; [| discriminate]. cbn [bind].
    destruct (with_keys rest) as [keyed' |]; [| discriminate]. cbn [bind].
    intros [= <-]. destruct (IH keyed' eq_refl) as [Hmap Hall].
    split; [simpl; rewrite Hmap; reflexivity | constructor; assumption].
Qed.

Lemma with_keys_outcome (l : list file_data) :
  (Forall (fun d => fd_path d <> None) l /\ exists keyed, with_keys l = Return keyed)
  \/ (Exists (fun d => fd_path d = None) l /\ with_keys l = Raise KeyError).
Proof.
  induction l as [| x rest IH]; simpl.
  - left. split; [constructor | eexists; reflexivity].
  - unfold sort_key. destruct (fd_path x) as [path |] eqn:Hpath; cbn [getitem bind].
    + destruct IH as [[Hall [keyed ->]] | [Hex ->]].
      * left. split; [constructor; [congruence | exact Hall] | eexists; reflexivity].
      * right. split; [apply Exists_cons_tl; exact Hex | reflexivity].
    + right. split; [apply Exists_cons_hd; exact Hpath | reflexivity].
Qed.

Lemma insert_by_key_perm (x : (Q * string) * file_data) (l : list ((Q * string) * file_data)) :
  Permutation (insert_by_key x l) (x :: l).
Proof.
  induction l as [| y rest IH]; simpl; [apply Permutation_refl |].
  destruct (key_lt (fst x) (fst y)); [apply Permutation_refl |].
  apply perm_trans with (y :: x :: rest); [apply perm_skip; exact IH | apply perm_swap].
Qed.

Lemma fold_insert_perm (l placed : list ((Q * string) * file_data)) :
  Permutation (fold_left (fun placed x => insert_by_key x placed) l placed) (placed ++ l).
Proof.
  revert placed. induction l as [| x rest IH]; intros placed; simpl.
  - rewrite app_nil_r. apply Permutation_refl.
  - eapply perm_trans; [apply IH |].
    eapply perm_trans; [apply Permutation_app_tail, insert_by_key_perm |].
    simpl. apply Permutation_middle.
Qed.

Lemma sorted_by_key_perm (l : list ((Q * string) * file_data)) :
  Permutation (sorted_by_key l) l.
Proof. unfold sorted_by_key. apply (fold_insert_perm l []). Qed.

Lemma report_rows_perm (files : list (option file_data)) (rows : list file_data) :
  report_rows files = Return rows -> Permutation rows (valid_files files).
Proof.
  unfold report_rows. intros Hrows.
  destruct (with_keys (valid_files files)) as [keyed |] eqn:Hkeys; [| discriminate].
  cbn [bind] in Hrows. injection Hrows as <-.
  destruct (with_keys_returns _ _ Hkeys) as [Hmap _].
  rewrite <- Hmap. apply Permutation_map, sorted_by_key_perm.
Qed.

Lemma valid_file_type (files : list (option file_data)) (r : file_data) :
  In r (valid_files files) ->
  In (Some r) files /\ (fd_type r = Some "python" \/ fd_type r = Some "config").
Proof.
  intros Hin. apply valid_files_In in Hin. destruct Hin as [Hin Hvalid].
  split; [exact Hin |].
  cbn [is_valid_file] in Hvalid. destruct (fd_type r) as [file_type |]; [| discriminate].
  apply str_in_In in Hvalid.
  destruct Hvalid as [<- | [<- | []]]; [left | right]; reflexivity.
Qed.

(** X20.  The rows of the report are the records of type [python] or
    [config] of the list, each once: a [None] and a failure record (type
    [error]) get no row. *)
Theorem report_rows_selection (files : list (option file_data)) (rows : list file_data) :
  report_rows files = Return rows ->
  Permutation rows (valid_files files)
  /\ forall r, In r rows ->
       In (Some r) files
       /\ (fd_type r = Some "python" \/ fd_type r = Some "config").
Proof.
  intros Hrows. pose proof (report_rows_perm files rows Hrows) as Hperm.
  split; [exact Hperm |].
  intros r Hin. apply (valid_file_type files). apply (Permutation_in _ Hperm). exact Hin.
Qed.

Lemma report_rows_selection_witness :
  exists rows,
    report_rows [ Some (failure_record "/repo/x.py"); None;
                  Some (sample_record "python" 1 7 0 "SIMPLE") ] = Return rows
    /\ Permutation rows [ sample_record "python" 1 7 0 "SIMPLE" ].
Proof.
  eexists. split; [reflexivity |].
  apply (report_rows_selection
           [ Some (failure_record "/repo/x.py"); None;
             Some (sample_record "python" 1 7 0 "SIMPLE") ] _ eq_refl).
Defined.

(** X21.  [generate_report] raises [KeyError], and nothing else, exactly
    when a record of type [python] or [config] has no [path] key. *)
Theorem report_rows_key_error (files : list (option file_data)) :
  (report_rows files = Raise KeyError
   <-> exists d, In d (valid_files files) /\ fd_path d = None)
  /\ forall e, report_rows files = Raise e -> e = KeyError.
Proof.
  unfold report_rows.
  destruct (with_keys_outcome (valid_files files)) as [[Hall [keyed ->]] | [Hex ->]];
    cbn [bind].
  - split; [| discriminate]. split; [discriminate |].
    intros (d & Hin & Hnone). rewrite Forall_forall in Hall.
    exfalso. exact (Hall d Hin Hnone).
  - split; [| intros e [= <-]; reflexivity].
    split; [| reflexivity]. intros _. apply Exists_exists in Hex. exact Hex.
Qed.

Lemma string_ltb_leb (s1 s2 : string) :
  String.ltb s1 s2 = false -> String.leb s2 s1 = true.
Proof.
  unfold String.ltb, String.leb. rewrite (String.compare_antisym s2 s1).
  destruct (String.compare s1 s2); simpl; intros H; try reflexivity; discriminate.
Qed.

Lemma string_ltb_asym (s1 s2 : string) :
  String.ltb s1 s2 = true -> String.ltb s2 s1 = false.
Proof.
  unfold String.ltb. rewrite (String.compare_antisym s2 s1).
  destruct (String.compare s1 s2); simpl; intros H; try reflexivity; discriminate.
Qed.

Lemma key_lt_asym (a b : Q * string) : key_lt a b = true -> key_lt b a = false.
Proof.
  unfold key_lt, num_lt.
  destruct (Qeq_bool (fst a) (fst b)) eqn:Hab.
  - apply Qeq_bool_iff in Hab.
    replace (Qeq_bool (fst b) (fst a)) with true
      by (symmetry; apply Qeq_bool_iff; symmetry; exact Hab).
    apply string_ltb_asym.
  - replace (Qeq_bool (fst b) (fst a)) with false.
    + intros H. apply negb_true_iff in H. apply negb_false_iff.
      apply not_true_iff_false in H. rewrite Qle_bool_iff in H.
      apply Qle_bool_iff. lra.
    + symmetry. apply not_true_iff_false. intros H. apply Qeq_bool_iff in H.
      apply not_true_iff_false in Hab. apply Hab. apply Qeq_bool_iff. symmetry. exact H.
Qed.

Lemma insert_by_key_sorted (x : (Q * string) * file_data)
      (l : list ((Q * string) * file_data)) :
  Sorted key_before l -> Sorted key_before (insert_by_key x l).
Proof.
  induction l as [| y rest IH]; intros Hl; simpl.
  - repeat constructor.
  - destruct (key_lt (fst x) (fst y)) eqn:Hxy.
    + constructor; [exact Hl |]. constructor. apply key_lt_asym. exact Hxy.
    + inversion Hl as [| ? ? Hrest Hhd]; subst.
      constructor; [apply IH; exact Hrest |].
      destruct rest as [| z rest']; simpl.
      * constructor. exact Hxy.
      * destruct (key_lt (fst x) (fst z)); constructor; [exact Hxy |].
        inversion Hhd; subst. assumption.
Qed.

Lemma sorted_by_key_sorted (l : list ((Q * string) * file_data)) :
  Sorted key_before (sorted_by_key l).
Proof.
  unfold sorted_by_key.
  assert (H : forall placed, Sorted key_before placed ->
                Sorted key_before (fold_left (fun placed x => insert_by_key x placed) l placed)).
  { induction l as [| x rest IH]; intros placed Hp; simpl; [exact Hp |].
    apply IH, insert_by_key_sorted. exact Hp. }
  apply H. constructor.
Qed.

Lemma key_before_rows (x y : (Q * string) * file_data) :
  sort_key (snd x) = Return (fst x) ->
  sort_key (snd y) = Return (fst y) ->
  key_before x y -> row_before (snd x) (snd y).
Proof.
  unfold sort_key, key_before, key_lt, row_before, num_lt.
  destruct x as [[qx px] dx], y as [[qy py] dy]. cbn [fst snd].
  destruct (fd_path dx) as [pathx |]; [| discriminate].
  destruct (fd_path dy) as [pathy |]; [| discriminate].
  cbn [getitem bind]. intros [= <- <-] [= <- <-].
  set (cx := get (fd_complexity dx) (int 0)). set (cy := get (fd_complexity dy) (int 0)).
  destruct (Qeq_bool (- cy) (- cx)) eqn:Heq.
  - apply Qeq_bool_iff in Heq. intros Hlt. split; [lra |].
    intros _ pa pb [= <-] [= <-]. apply string_ltb_leb. exact Hlt.
  - intros Hlt. apply negb_false_iff, Qle_bool_iff in Hlt. split; [lra |].
    intros Hc. exfalso. apply not_true_iff_false in Heq. apply Heq.
    apply Qeq_bool_iff. lra.
Qed.

Lemma Sorted_map_rows (l : list ((Q * string) * file_data)) :
  Forall (fun kx => sort_key (snd kx) = Return (fst kx)) l ->
  Sorted key_before l -> Sorted row_before (map snd l).
Proof.
  induction l as [| x rest IH]; intros Hall Hs; simpl; [constructor |].
  inversion Hall as [| ? ? Hx Hrest]; subst.
  inversion Hs as [| ? ? Hs' Hhd]; subst.
  constructor; [apply IH; assumption |].
  destruct rest as [| y rest']; simpl; constructor.
  inversion Hhd; subst. inversion Hrest; subst.
  apply key_before_rows; assumption.
Qed.

Lemma report_rows_sorted (files : list (option file_data)) (rows : list file_data) :
  report_rows files = Return rows -> Sorted row_before rows.
Proof.
  unfold report_rows. intros Hrows.
  destruct (with_keys (valid_files files)) as [keyed |] eqn:Hkeys; [| discriminate].
  cbn [bind] in Hrows. injection Hrows as <-.
  destruct (with_keys_returns _ _ Hkeys) as [_ Hall].
  apply Sorted_map_rows; [| apply sorted_by_key_sorted].
  apply (Permutation_Forall (Permutation_sym (sorted_by_key_perm keyed))). exact Hall.
Qed.

(** X22.  The rows of the report are in order of descending complexity (a
    missing complexity counts as 0), and two neighbours of equal complexity
    are in ascending order of their paths. *)
Theorem report_rows_order (files : list (option file_data)) (rows : list file_data) :
  report_rows files = Return rows ->
  Sorted row_before rows
  /\ StronglySorted
       (fun a b => (get (fd_complexity b) (int 0) <= get (fd_complexity a) (int 0))%Q)
       rows.
Proof.
  intros Hrows. pose proof (report_rows_sorted files rows Hrows) as Hsorted.
  split; [exact Hsorted |].
  apply Sorted_StronglySorted.
  - intros a b c Hab Hbc. lra.
  - clear -Hsorted. induction Hsorted as [| a l Hl IH Hhd]; constructor; [exact IH |].
    destruct Hhd as [| b l' Hab]; constructor. apply Hab.
Qed.

Lemma report_rows_order_witness :
  exists rows,
    report_rows [ Some (sample_record "python" 1 7 0 "SIMPLE");
                  Some (sample_record "config" 9 0 0 "SIMPLE");
                  Some (sample_record "python" 1 12 0 "SIMPLE") ] = Return rows
    /\ Sorted row_before rows
    /\ StronglySorted
         (fun a b => (get (fd_complexity b) (int 0) <= get (fd_complexity a) (int 0))%Q)
         rows.
Proof.
  eexists. split; [reflexivity |].
  apply (report_rows_order
           [ Some (sample_record "python" 1 7 0 "SIMPLE");
             Some (sample_record "config" 9 0 0 "SIMPLE");
             Some (sample_record "python" 1 12 0 "SIMPLE") ] _ eq_refl).
Defined.

(** ** [main] *)

Lemma analyze_paths_app (w : world) (paths1 paths2 : list string) (files : list file_data) :
  analyze_paths w (paths1 ++ paths2) files
  = (files' <- analyze_paths w paths1 files ;; analyze_paths w paths2 files').
Proof.
  revert files. induction paths1 as [| p rest IH]; intros files; simpl; [reflexivity |].
  destruct (analyze_file w p) as [analysis | e]; [| reflexivity]. cbn [bind]. apply IH.
Qed.

Lemma collect_directory_paths (w : world) (root : string) (filenames : list string)
      (files : list file_data) :
  collect_directory w root filenames files
  = analyze_paths w (map (os_path_join root) (filter wanted filenames)) files.
Proof.
  revert files. induction filenames as [| fn rest IH]; intros files; [reflexivity |].
  cbn [collect_directory filter]. unfold wanted at 1.
  destruct (String.eqb fn "report.py"); cbn [negb andb]; [apply IH |].
  cbv zeta.
  destruct (str_in (lower (snd (splitext fn))) PYTHON_EXTS
            || str_in (lower (snd (splitext fn))) CONFIG_EXTS); [| apply IH].
  cbn [map analyze_paths].
  destruct (analyze_file w (os_path_join root fn)) as [analysis | e]; [| reflexivity].
  cbn [bind]. apply IH.
Qed.

Lemma collect_files_paths (w : world) (walk : list (string * list string))
      (files : list file_data) :
  collect_files w walk files = analyze_paths w (wanted_paths walk) files.
Proof.
  revert files. induction walk as [| [root filenames] rest IH]; intros files; [reflexivity |].
  cbn [collect_files wanted_paths flat_map fst snd].
  rewrite analyze_paths_app, collect_directory_paths.
  destruct (analyze_paths w _ files) as [files' | e]; [| reflexivity].
  cbn [bind]. apply IH.
Qed.

Lemma wanted_paths_not_skipped (walk : list (string * list string)) (p : string) :
  slash_free walk -> In p (wanted_paths walk) -> skipped p = false.
Proof.
  intros Hfree Hin. unfold wanted_paths in Hin. apply in_flat_map in Hin.
  destruct Hin as ([root filenames] & Hentry & Hp). cbn [fst snd] in Hp.
  apply in_map_iff in Hp. destruct Hp as (fn & <- & Hfn).
  apply filter_In in Hfn. destruct Hfn as [Hfn Hwanted].
  destruct (os_path_join_directory root fn (Hfree root filenames fn Hentry Hfn))
    as (pre & Hjoin & Hpre).
  destruct (component_of_path pre fn Hpre (Hfree root filenames fn Hentry Hfn))
    as [Hbase Hext].
  unfold skipped. rewrite Hjoin, Hbase, Hext. unfold wanted in Hwanted.
  destruct (String.eqb fn "report.py"); [discriminate |]. cbn [negb andb orb] in *.
  destruct (str_in _ PYTHON_EXTS), (str_in _ CONFIG_EXTS); try reflexivity; discriminate.
Qed.

Lemma analyze_file_some_path (w : world) (file_path : string) (r : file_data) :
  analyze_file w file_path = Return (Some r) ->
  exists resolved, resolve w file_path = Return resolved /\ fd_path r = Some resolved.
Proof.
  intros Hr.
  destruct (analyze_file_inversion w file_path r Hr) as (resolved & Hres & [Hbody | ->]).
  - destruct (analyze_file_body_inversion w file_path r Hbody)
      as (k & resolved' & size & tokens & complexity & density & quality
          & _ & Hres' & _ & Hrate & _).
    rewrite rate_and_recommend_measured in Hrate. injection Hrate as <-.
    exists resolved'. split; [exact Hres' | reflexivity].
  - exists resolved. split; [exact Hres | reflexivity].
Qed.

Lemma analyze_file_not_skipped (w : world) (file_path resolved : string) :
  skipped file_path = false ->
  resolve w file_path = Return resolved ->
  exists r, analyze_file w file_path = Return (Some r) /\ truthy (Some r) = true.
Proof.
  intros Hskip Hres.
  destruct (analyze_file_returns_when_resolved w file_path resolved Hres)
    as (result & Hresult & _).
  destruct result as [r |].
  - exists r. split; [exact Hresult |].
    destruct (analyze_file_some_path w file_path r Hresult) as (resolved' & _ & Hpath).
    unfold truthy. rewrite Hpath. reflexivity.
  - exfalso. unfold analyze_file in Hresult.
    destruct (path_kind file_path) as [k |] eqn:Hkind.
    + destruct (analyze_file_body w file_path) as [result | e] eqn:Hbody.
      * cbn [try_except] in Hresult. rewrite Hresult in Hbody.
        exact (analyze_file_body_not_none w file_path k Hkind Hbody).
      * cbn [try_except is_Exception] in Hresult. rewrite Hres in Hresult. discriminate.
    + apply path_kind_skipped in Hkind. congruence.
Qed.

Lemma analyze_paths_resolved (w : world) (paths : list string) (files : list file_data) :
  Forall (fun p => skipped p = false /\ exists resolved, resolve w p = Return resolved) paths ->
  exists results,
    analyze_paths w paths files = Return (files ++ results)
    /\ Forall2 (fun p r => analyze_file w p = Return (Some r)) paths results.
Proof.
  revert files. induction paths as [| p rest IH]; intros files Hall.
  - exists []. rewrite app_nil_r. split; [reflexivity | constructor].
  - inversion Hall as [| ? ? [Hskip [resolved Hres]] Hrest]; subst.
    destruct (analyze_file_not_skipped w p resolved Hskip Hres) as (r & Hr & Htruthy).
    cbn [analyze_paths]. rewrite Hr. cbn [bind]. rewrite Htruthy.
    destruct (IH (files ++ [ r ]) Hrest) as (results & Hret & Hall2).
    exists (r :: results). rewrite Hret, <- app_assoc.
    split; [reflexivity | constructor; assumption].
Qed.

Lemma analyze_paths_unresolved (w : world) (paths : list string) (files : list file_data) :
  Exists (fun p => skipped p = false /\ exists e, resolve w p = Raise e) paths ->
  Forall (fun p => skipped p = false) paths ->
  exists e, analyze_paths w paths files = Raise e.
Proof.
  revert files. induction paths as [| p rest IH]; intros files Hex Hall.
  - inversion Hex.
  - inversion Hall as [| ? ? Hskip Hrest]; subst. cbn [analyze_paths].
    destruct (analyze_file w p) as [analysis | e] eqn:Hp; [| exists e; reflexivity].
    cbn [bind]. apply IH; [| exact Hrest].
    inversion Hex as [? ? [_ [e He]] | ? ? Hex']; subst; [| exact Hex'].
    exfalso.
    assert (Hraise : analyze_file w p = Raise e)
      by (apply analyze_file_raises_iff; split; assumption).
    congruence.
Qed.

Lemma paths_resolution (w : world) (paths : list string) :
  Forall (fun p => exists resolved, resolve w p = Return resolved) paths
  \/ Exists (fun p => exists e, resolve w p = Raise e) paths.
Proof.
  induction paths as [| p rest IH]; [left; constructor |].
  destruct (resolve w p) as [resolved | e] eqn:Hp.
  - destruct IH as [Hall | Hex].
    + left. constructor; [exists resolved; exact Hp | exact Hall].
    + right. apply Exists_cons_tl. exact Hex.
  - right. apply Exists_cons_hd. exists e. exact Hp.
Qed.




(** X24.  When [main] writes the report, with file names as [os.walk]
    gives them, every file it wanted was analysed into one record, in
    order; the rows are those of these records that are not failure
    records, sorted: a file whose analysis failed is left out of the
    report without a trace. *)
Theorem main_report_contents (w : world) (walk : list (string * list string))
        (target : report_target) (rows : list file_data) :
  slash_free walk ->
  main w walk target = ReportWritten rows ->
  exists files,
    Forall2 (fun p r => analyze_file w p = Return (Some r)) (wanted_paths walk) files
    /\ Permutation rows (valid_files (map Some files))
    /\ Sorted row_before rows
    /\ forall r, In r rows -> In r files /\ fd_type r <> Some "error".
Proof.
  intros Hfree. unfold main. rewrite collect_files_paths. intros Hmain.
  destruct (analyze_paths w (wanted_paths walk) []) as [files | e] eqn:Hfiles;
    [| discriminate]. cbn [bind] in Hmain.
  destruct (open_report target) as [[] | e1]; [| discriminate]. cbn [bind] in Hmain.
  destruct (report_rows (map Some files)) as [rows' | e2] eqn:Hrows; [| discriminate].
  cbn [bind] in Hmain.
  destruct (write_report target) as [[] | e3]; [| discriminate]. cbn [bind] in Hmain.
  injection Hmain as ->.
  exists files.
  assert (Hall : Forall2 (fun p r => analyze_file w p = Return (Some r))
                         (wanted_paths walk) files).
  { assert (Hskip : Forall (fun p => skipped p = false) (wanted_paths walk)).
    { apply Forall_forall. intros p Hp. exact (wanted_paths_not_skipped walk p Hfree Hp). }
    destruct (paths_resolution w (wanted_paths walk)) as [Hres | Hex].
    - assert (Hall' : Forall (fun p => skipped p = false
                                       /\ exists resolved, resolve w p = Return resolved)
                             (wanted_paths walk)).
      { rewrite Forall_forall in *. intros p Hp. split; [apply Hskip | apply Hres]; exact Hp. }
      destruct (analyze_paths_resolved w (wanted_paths walk) [] Hall')
        as (files' & Hret & Hall2).
      rewrite Hret in Hfiles. injection Hfiles as <-. exact Hall2.
    - exfalso.
      assert (Hex' : Exists (fun p => skipped p = false /\ exists e, resolve w p = Raise e)
                            (wanted_paths walk)).
      { apply Exists_exists in Hex. destruct Hex as (p & Hp & He).
        apply Exists_exists. exists p. rewrite Forall_forall in Hskip. auto. }
      destruct (analyze_paths_unresolved w (wanted_paths walk) [] Hex' Hskip) as [e He].
      congruence. }
  split; [exact Hall |].
  pose proof (report_rows_perm _ _ Hrows) as Hperm.
  split; [exact Hperm |]. split; [exact (report_rows_sorted _ _ Hrows) |].
  intros r Hin. apply (Permutation_in _ Hperm) in Hin.
  apply valid_file_type in Hin. destruct Hin as [Hin Htype].
  apply in_map_iff in Hin. destruct Hin as (r' & [= ->] & Hin).
  split; [exact Hin |]. destruct Htype as [-> | ->]; discriminate.
Qed.

(** A run over a directory with a program that does not tokenize and a
    configuration file: the report has the one row. *)
Lemma main_report_contents_witness :
  exists rows files,
    main broken_program [ (".", [ "broken.py"; "app.toml"; "notes.txt" ]) ] writable
    = ReportWritten rows
    /\ Forall2 (fun p r => analyze_file broken_program p = Return (Some r))
               (wanted_paths [ (".", [ "broken.py"; "app.toml"; "notes.txt" ]) ]) files
    /\ Permutation rows (valid_files (map Some files))
    /\ Sorted row_before rows
    /\ forall r, In r rows -> In r files /\ fd_type r <> Some "error".
Proof.
  destruct (main broken_program [ (".", [ "broken.py"; "app.toml"; "notes.txt" ]) ] writable)
    as [rows |] eqn:Hmain; [| vm_compute in Hmain; discriminate Hmain].
  destruct (main_report_contents broken_program
              [ (".", [ "broken.py"; "app.toml"; "notes.txt" ]) ] writable rows)
    as (files & H); [| exact Hmain | exists rows, files; split; [reflexivity | exact H]].
  intros root filenames fn [[= <- <-] | []] Hfn.
  simpl in Hfn. destruct Hfn as [<- | [<- | [<- | []]]]; reflexivity.
Defined.

(** The link [loop.py] among the files: the run ends with [exit(1)] and
    the configuration file beside it is not reported either. *)
Example main_aborts_on_unresolved_path :
  main loop_among_files walk_with_loop writable = Exit1.
Proof. reflexivity. Qed.

(** Without the link the report is written, with one row. *)
Example main_writes_report :
  exists row,
    main loop_among_files [ (".", [ "setup.cfg"; "report.py"; "notes.txt" ]) ] writable
    = ReportWritten [ row ]
    /\ fd_path row = Some "/repo/./setup.cfg"
    /\ fd_safety row = Some "SIMPLE".
Proof. eexists. repeat split. Qed.
